(** * Order-processing pipeline: a shallow embedding and its specification

    The development follows the TypeScript sources of the repository:

    - [utils/errors.ts]      : the error classes and [handleError];
    - [utils/retry.ts]       : [RetryOptions], [DEFAULT_RETRY_OPTIONS], [withRetry];
    - [schema/order.schema.ts] : [CreateOrderSchema];
    - [types/Order.ts]       : [Order], [CreateOrderRequest];
    - [services/storageService.ts], [services/messagingService.ts];
    - [functions/processOrder.ts] : [parseRequestBody], [validateInput],
      [createOrder], [processOrder];
    - the greeting function [HttpExample].

    Asynchronous code is sequential here ([await] is the bind of a state and
    exception monad); numbers that the code only counts or compares are
    integers; the price is a rational. *)

From Stdlib Require Import String Ascii List ZArith QArith Lia Bool DecimalString.
Import ListNotations.

Local Open Scope string_scope.
Local Open Scope Z_scope.

(* ================================================================== *)
(** * Thrown values: [utils/errors.ts] *)
(* ================================================================== *)

(** A JavaScript [throw] can raise any value.  The pipeline distinguishes the
    two classes of [utils/errors.ts] (the second extends the first), every
    other [Error] object (raised by the platform or by an SDK), and
    [undefined]. *)
Inductive Thrown : Type :=
| OrderProcessingError (message code : string) (statusCode : Z)
| ValidationError (message code : string) (statusCode : Z)
                  (validationErrors : list string)
| Error (name message : string)
| Undefined.

(** [new OrderProcessingError(message, code)]: [statusCode] defaults to 500. *)
Definition new_OrderProcessingError (message code : string) : Thrown :=
  OrderProcessingError message code 500.

(** [new ValidationError(message, validationErrors)] calls
    [super(message, 'VALIDATION_ERROR', 400)]. *)
Definition new_ValidationError (message : string) (validationErrors : list string)
  : Thrown :=
  ValidationError message "VALIDATION_ERROR" 400 validationErrors.

Definition instanceof_ValidationError (e : Thrown) : bool :=
  match e with ValidationError _ _ _ _ => true | _ => false end.

(* ================================================================== *)
(** * Computations: state passing with exceptions *)
(* ================================================================== *)

Inductive Result (A : Type) : Type :=
| Ok (a : A)
| Throw (e : Thrown).
Arguments Ok {A} a.
Arguments Throw {A} e.

(** A computation over a world [W]: it returns or throws, and leaves a world. *)
Definition M (W A : Type) : Type := W -> Result A * W.

Definition ret {W A} (a : A) : M W A := fun w => (Ok a, w).
Definition throw {W A} (e : Thrown) : M W A := fun w => (Throw e, w).
Definition bind {W A B} (m : M W A) (k : A -> M W B) : M W B :=
  fun w => match m w with
           | (Ok a, w') => k a w'
           | (Throw e, w') => (Throw e, w')
           end.
(** An effect that cannot fail. *)
Definition effect {W} (f : W -> W) : M W unit := fun w => (Ok tt, f w).

(** [try { body } catch (error) { handler }] *)
Definition try_catch {W A} (body : M W A) (handler : Thrown -> M W A) : M W A :=
  fun w => match body w with
           | (Ok a, w') => (Ok a, w')
           | (Throw e, w') => handler e w'
           end.

(** [try { body } finally { finalizer }]: the finalizer runs on both exits; a
    throw of the finalizer replaces the outcome of the body. *)
Definition try_finally {W A} (body : M W A) (finalizer : M W unit) : M W A :=
  fun w => match body w with
           | (r, w') => match finalizer w' with
                        | (Ok _, w'') => (r, w'')
                        | (Throw e, w'') => (Throw e, w'')
                        end
           end.

Declare Scope monad_scope.
Delimit Scope monad_scope with monad.
Notation "x <- m ;; k" := (bind m (fun x => k))
  (at level 61, m at next level, right associativity) : monad_scope.
Notation "m ;; k" := (bind m (fun _ => k))
  (at level 61, right associativity) : monad_scope.
Local Open Scope monad_scope.

(* ================================================================== *)
(** * Logging: the [InvocationContext] of the Functions host *)
(* ================================================================== *)

(** An argument of [context.log], [context.warn] or [context.error]. *)
Inductive LogArg : Type :=
| LStr (s : string)
| LList (l : list string)
| LThrown (e : Thrown).

Record InvocationContext (W : Type) : Type := {
  log : list LogArg -> W -> W;
  warn : list LogArg -> W -> W;
  error : list LogArg -> W -> W
}.
Arguments log {W} _ _ _.
Arguments warn {W} _ _ _.
Arguments error {W} _ _ _.

(** Decimal rendering of an integer inside a template literal. *)
Definition show_Z (z : Z) : string := NilZero.string_of_int (Z.to_int z).

(* ================================================================== *)
(** * The retry engine: [utils/retry.ts] *)
(* ================================================================== *)

Record RetryOptions : Type := {
  maxAttempts : Z;
  baseDelay : Z;
  maxDelay : Z;
  backoffMultiplier : Z
}.

(** [Partial<RetryOptions>] *)
Record PartialRetryOptions : Type := {
  p_maxAttempts : option Z;
  p_baseDelay : option Z;
  p_maxDelay : option Z;
  p_backoffMultiplier : option Z
}.

Definition no_options : PartialRetryOptions :=
  {| p_maxAttempts := None; p_baseDelay := None;
     p_maxDelay := None; p_backoffMultiplier := None |}.

(** [{ maxAttempts: n }] *)
Definition only_maxAttempts (n : Z) : PartialRetryOptions :=
  {| p_maxAttempts := Some n; p_baseDelay := None;
     p_maxDelay := None; p_backoffMultiplier := None |}.

Definition DEFAULT_RETRY_OPTIONS : RetryOptions :=
  {| maxAttempts := 3; baseDelay := 1000; maxDelay := 10000;
     backoffMultiplier := 2 |}.

Definition or_default {A} (o : option A) (d : A) : A :=
  match o with Some a => a | None => d end.

(** [{ ...defaults, ...options }] *)
Definition spread (defaults : RetryOptions) (options : PartialRetryOptions)
  : RetryOptions :=
  {| maxAttempts := or_default (p_maxAttempts options) (maxAttempts defaults);
     baseDelay := or_default (p_baseDelay options) (baseDelay defaults);
     maxDelay := or_default (p_maxDelay options) (maxDelay defaults);
     backoffMultiplier :=
       or_default (p_backoffMultiplier options) (backoffMultiplier defaults) |}.

(** [Math.min(baseDelay * Math.pow(backoffMultiplier, attempt - 1), maxDelay)].
    The numbers of a policy are integers here, and the expression is the
    code's, read over the integers: it is the number the code computes as
    long as the power and the product are integers that a double holds
    exactly, as they are for the default numbers.  The statements below
    either carry the expression as it stands or are about the default
    numbers. *)
Definition backoff_delay (config : RetryOptions) (attempt : Z) : Z :=
  Z.min (baseDelay config * Z.pow (backoffMultiplier config) (attempt - 1))
        (maxDelay config).

(** [lastError.message]: reading a property of [undefined] raises a
    [TypeError]. *)
Definition message_of (e : Thrown) : Result string :=
  match e with
  | OrderProcessingError m _ _ => Ok m
  | ValidationError m _ _ _ => Ok m
  | Error _ m => Ok m
  | Undefined =>
      Throw (Error "TypeError"
               "Cannot read properties of undefined (reading 'message')")
  end.

Section Retry.
Context {W : Type}.
(** The logging sink and the sleep primitive
    ([await new Promise(resolve => setTimeout(resolve, delay))]). *)
Variable context : InvocationContext W.
Variable setTimeout : Z -> W -> W.
Context {T : Type}.
Variable operation : M W T.
Variable config : RetryOptions.

(** The [for] loop of [withRetry]; [fuel] bounds the iterations that remain,
    [attempt] and [lastError] are the loop variables.  Leaving the loop
    reaches the final [throw lastError!]. *)
Fixpoint retry_loop (fuel : nat) (attempt : Z) (lastError : Thrown) : M W T :=
  match fuel with
  | O => throw lastError
  | S fuel' =>
      if attempt <=? maxAttempts config then
        try_catch operation (fun error_ =>
          let lastError := error_ in
          if attempt =? maxAttempts config then
            effect (error context
              [LStr ("Operation failed after " ++ show_Z (maxAttempts config)
                       ++ " attempts:"); LThrown lastError]) ;;
            throw lastError
          else
            let delay := backoff_delay config attempt in
            match message_of lastError with
            | Throw e => throw e
            | Ok message =>
                effect (warn context
                  [LStr ("Attempt " ++ show_Z attempt ++ " failed, retrying in "
                           ++ show_Z delay ++ "ms:"); LStr message]) ;;
                effect (setTimeout delay) ;;
                retry_loop fuel' (attempt + 1) lastError
            end)
      else throw lastError
  end.
End Retry.

(** [withRetry(operation, options, context)] *)
Definition withRetry {W T} (setTimeout : Z -> W -> W) (operation : M W T)
    (options : PartialRetryOptions) (context : InvocationContext W) : M W T :=
  let config := spread DEFAULT_RETRY_OPTIONS options in
  retry_loop context setTimeout operation config
             (Z.to_nat (maxAttempts config)) 1 Undefined.

(* ================================================================== *)
(** * Observing a run of the retry engine *)
(* ================================================================== *)

(** To count attempts and read off the delays for an arbitrary operation, the
    world is paired with a history that the operation cannot touch: every
    invocation of the operation records its outcome, every sleep its
    duration, in chronological order. *)
Inductive Probe (T : Type) : Type :=
| Attempt (r : Result T)
| Slept (delay : Z).
Arguments Attempt {T} r.
Arguments Slept {T} delay.

Section Spy.
Context {W T : Type}.

Definition spy (operation : M W T) : M (W * list (Probe T)) T :=
  fun wh => match operation (fst wh) with
            | (r, w') => (r, (w', (snd wh ++ [Attempt r])%list))
            end.

Definition spy_setTimeout (setTimeout : Z -> W -> W) (delay : Z)
    (wh : W * list (Probe T)) : W * list (Probe T) :=
  (setTimeout delay (fst wh), (snd wh ++ [Slept delay])%list).

Definition on_world (f : W -> W) (wh : W * list (Probe T))
  : W * list (Probe T) := (f (fst wh), snd wh).

Definition spy_context (context : InvocationContext W)
  : InvocationContext (W * list (Probe T)) :=
  {| log := fun args => on_world (log context args);
     warn := fun args => on_world (warn context args);
     error := fun args => on_world (error context args) |}.

(** The outcomes of the attempts of a history, in order. *)
Fixpoint attempts (h : list (Probe T)) : list (Result T) :=
  match h with
  | [] => []
  | Attempt r :: h' => r :: attempts h'
  | Slept _ :: h' => attempts h'
  end.

End Spy.

(** [observe] runs [withRetry] on the spied operation from an empty history. *)
Definition observe {W T} (context : InvocationContext W)
    (setTimeout : Z -> W -> W) (operation : M W T)
    (options : PartialRetryOptions) (w : W)
  : Result T * (W * list (Probe T)) :=
  withRetry (spy_setTimeout setTimeout) (spy operation) options
            (spy_context context) (w, []).

(** The shape of what the loop appends to the history when it is entered at
    [attempt] with [lastError], and the outcome it ends with. *)
Section Shape.
Context {W T : Type}.
Variable operation : M W T.
Variable config : RetryOptions.

Definition produced (r : Result T) : Prop := exists w, fst (operation w) = r.

Inductive run_shape : Z -> Thrown -> Result T -> list (Probe T) -> Prop :=
| shape_exit attempt lastError :
    maxAttempts config < attempt ->
    run_shape attempt lastError (Throw lastError) []
| shape_return attempt lastError v :
    attempt <= maxAttempts config -> produced (Ok v) ->
    run_shape attempt lastError (Ok v) [Attempt (Ok v)]
| shape_final attempt lastError e :
    attempt = maxAttempts config -> produced (Throw e) ->
    run_shape attempt lastError (Throw e) [Attempt (Throw e)]
| shape_no_message attempt lastError e e' :
    attempt < maxAttempts config -> produced (Throw e) ->
    message_of e = Throw e' ->
    run_shape attempt lastError (Throw e') [Attempt (Throw e)]
| shape_retry attempt lastError e m r h :
    attempt < maxAttempts config -> produced (Throw e) ->
    message_of e = Ok m ->
    run_shape (attempt + 1) e r h ->
    run_shape attempt lastError r
              (Attempt (Throw e) :: Slept (backoff_delay config attempt) :: h).
End Shape.

(* ================================================================== *)
(** * Data: [types/Order.ts] and the request payload *)
(* ================================================================== *)

(** A parsed JSON value, as [request.json()] resolves to.  An object lists
    each property once. *)
#[local] Set Warnings "-register-all".
Inductive JsValue : Type :=
| JNull
| JBool (b : bool)
| JNum (q : Q)
| JStr (s : string)
| JArr (items : list JsValue)
| JObj (properties : list (string * JsValue)).

(** [!body] *)
Definition falsy (v : JsValue) : bool :=
  match v with
  | JNull => true
  | JBool b => negb b
  | JNum q => Qeq_bool q 0
  | JStr s => match s with EmptyString => true | _ => false end
  | JArr _ | JObj _ => false
  end.

(** [obj[key]]; [None] is [undefined]. *)
Fixpoint get_property (key : string) (properties : list (string * JsValue))
  : option JsValue :=
  match properties with
  | [] => None
  | (k, v) :: rest => if String.eqb k key then Some v else get_property key rest
  end.

(** A [Date]: its time value in milliseconds, [None] for an invalid date. *)
Definition Date : Type := option Z.

(** [end > start] on two dates: a comparison with [NaN] is false. *)
Definition Date_gt (a b : Date) : bool :=
  match a, b with
  | Some x, Some y => y <? x
  | _, _ => false
  end.

Inductive OrderStatus : Type := PENDING | APPROVED | REJECTED.

Definition OrderStatus_string (s : OrderStatus) : string :=
  match s with
  | PENDING => "PENDING" | APPROVED => "APPROVED" | REJECTED => "REJECTED"
  end.

Record Order : Type := {
  id : string;
  employeeId : string;
  bikeModel : string;
  startDate : Date;
  endDate : Date;
  status : OrderStatus;
  price : Q;
  currency : string;
  companyId : string;
  createdAt : Date;
  updatedAt : Date
}.

Record CreateOrderRequest : Type := {
  r_employeeId : string;
  r_bikeModel : string;
  r_startDate : string;
  r_endDate : string;
  r_price : Q;
  r_currency : string;
  r_companyId : string
}.

(** The HTTP response: [{ status, jsonBody }]; absent properties are [None]. *)
Record JsonBody : Type := {
  success : bool;
  orderId : option string;
  message : string;
  errors : option (list string);
  code : option string
}.

Record HttpResponseInit : Type := {
  http_status : Z;
  jsonBody : JsonBody
}.

(* ================================================================== *)
(** * The outside world *)
(* ================================================================== *)

(** The message handed to [sender.sendMessages]. *)
Record MessageBody : Type := {
  b_orderId : string;
  b_companyId : string;
  b_employeeId : string;
  b_status : OrderStatus;
  b_price : Q;
  b_currency : string
}.

Record ServiceBusMessage : Type := {
  body : MessageBody;
  messageId : string;
  correlationId : string;
  contentType : string
}.

(** The metadata handed to [blockBlobClient.upload]. *)
Record BlobMetadata : Type := {
  m_companyId : string;
  m_employeeId : string;
  m_status : string
}.

Inductive LogLevel : Type := LevelLog | LevelWarn | LevelError.

(** What a request does to the outside world, in the order it does it.  The
    [Call_] events mark the entry into a method of one of the two services,
    the others are calls of the platform and of the Azure SDKs.  [Sdk_upload]
    carries the record whose JSON text is uploaded. *)
Inductive Event : Type :=
| Clock_read
| Uuid_v4
| Logged (level : LogLevel) (args : list LogArg)
| Timeout (delay : Z)
| New_StorageService (connectionString : string)
| New_MessagingService (connectionString queueName : string)
| Call_initializeContainer
| Call_storeOrder (order : Order)
| Call_sendOrderMessage (order : Order)
| Call_close
| Sdk_createIfNotExists
| Sdk_upload (blobName : string) (data : Order) (blobContentType : string)
             (metadata : BlobMetadata)
| Sdk_sendMessages (m : ServiceBusMessage)
| Sdk_sender_close
| Sdk_client_close.

(** The world of one request is the trace of its events so far. *)
Definition World : Type := list Event.

Definition emit (e : Event) : World -> World := fun w => (w ++ [e])%list.

(** How many events of a kind the trace holds. *)
Definition count (kind : Event -> bool) (w : World) : nat :=
  length (filter kind w).

Definition is_Clock_read (e : Event) : bool :=
  match e with Clock_read => true | _ => false end.
Definition is_Uuid_v4 (e : Event) : bool :=
  match e with Uuid_v4 => true | _ => false end.
Definition is_Call_initializeContainer (e : Event) : bool :=
  match e with Call_initializeContainer => true | _ => false end.
Definition is_Call_storeOrder (e : Event) : bool :=
  match e with Call_storeOrder _ => true | _ => false end.
Definition is_Call_sendOrderMessage (e : Event) : bool :=
  match e with Call_sendOrderMessage _ => true | _ => false end.
Definition is_Call_close (e : Event) : bool :=
  match e with Call_close => true | _ => false end.
Definition is_Sdk_createIfNotExists (e : Event) : bool :=
  match e with Sdk_createIfNotExists => true | _ => false end.
Definition is_Sdk_upload (e : Event) : bool :=
  match e with Sdk_upload _ _ _ _ => true | _ => false end.
Definition is_Sdk_sendMessages (e : Event) : bool :=
  match e with Sdk_sendMessages _ => true | _ => false end.
Definition is_Sdk_sender_close (e : Event) : bool :=
  match e with Sdk_sender_close => true | _ => false end.
Definition is_Sdk_client_close (e : Event) : bool :=
  match e with Sdk_client_close => true | _ => false end.

(** A call of either gateway: anything done to the storage account or to the
    service bus, the construction of their clients included; the release of
    the messaging client is counted apart. *)
Definition is_gateway_call (e : Event) : bool :=
  match e with
  | New_StorageService _ | New_MessagingService _ _
  | Call_initializeContainer | Call_storeOrder _ | Call_sendOrderMessage _
  | Sdk_createIfNotExists | Sdk_upload _ _ _ _ | Sdk_sendMessages _ => true
  | _ => false
  end.

(** The environment of one request: the process environment, and how the
    platform and the two Azure services answer.  An answer that depends on
    the moment is given for the k-th call of its kind (k from 0); [None] is
    a call that succeeds, [Some e] one that throws [e]. *)
Record Env : Type := {
  (* process.env *)
  AzureWebJobsStorage : option string;
  ServiceBusConnectionString : option string;
  SKIP_SERVICE_BUS : option string;
  (* platform and libraries *)
  Date_now : nat -> Z;
  uuidv4 : nat -> string;
  Date_parse : string -> Date;
  zod_datetime : string -> bool;
  (* @azure/storage-blob *)
  BlobServiceClient_fromConnectionString : string -> option Thrown;
  createIfNotExists : nat -> option Thrown;
  upload : nat -> option Thrown;
  (* @azure/service-bus *)
  ServiceBusClient_new : string -> option Thrown;
  sendMessages : nat -> option Thrown;
  sender_close : nat -> option Thrown;
  client_close : nat -> option Thrown
}.

(** [process.env.X || '']: an unset or empty variable gives the empty string. *)
Definition env_or_empty (v : option string) : string :=
  match v with Some s => s | None => "" end.

(** The [InvocationContext] of a request: it writes to the trace. *)
Definition trace_context : InvocationContext World :=
  {| log := fun args => emit (Logged LevelLog args);
     warn := fun args => emit (Logged LevelWarn args);
     error := fun args => emit (Logged LevelError args) |}.

(** The sleep between two attempts. *)
Definition trace_setTimeout (delay : Z) : World -> World := emit (Timeout delay).

(** A call of the outside world whose k-th answer is [answer k]. *)
Definition external (e : Event) (kind : Event -> bool)
    (answer : nat -> option Thrown) : M World unit :=
  fun w => match answer (count kind w) with
           | None => (Ok tt, emit e w)
           | Some err => (Throw err, emit e w)
           end.

(* ================================================================== *)
(** * Validation: the part of zod 3 that [schema/order.schema.ts] uses *)
(* ================================================================== *)

Record ZodIssue : Type := {
  path : list string;
  issue_message : string
}.

(** The outcome of parsing with a schema: a value, clean or with issues
    (zod's "valid" and "dirty"), or no value at all ("aborted"). *)
Inductive ParseReturn (A : Type) : Type :=
| Parsed (value : A) (issues : list ZodIssue)
| INVALID (issues : list ZodIssue).
Arguments Parsed {A} value issues.
Arguments INVALID {A} issues.

Definition issues_of {A} (r : ParseReturn A) : list ZodIssue :=
  match r with Parsed _ i => i | INVALID i => i end.

(** zod's [getParsedType]; a missing property is [undefined]. *)
Definition getParsedType (v : option JsValue) : string :=
  match v with
  | None => "undefined"
  | Some JNull => "null"
  | Some (JBool _) => "boolean"
  | Some (JNum _) => "number"
  | Some (JStr _) => "string"
  | Some (JArr _) => "array"
  | Some (JObj _) => "object"
  end.

(** The issue of a value of the wrong type, with zod's default message. *)
Definition invalid_type (p : list string) (expected : string)
    (v : option JsValue) : ZodIssue :=
  {| path := p;
     issue_message :=
       match v with
       | None => "Required"
       | Some _ => "Expected " ++ expected ++ ", received " ++ getParsedType v
       end |}.

(** [z.string()] with one check and its message. *)
Definition z_string (check : string -> bool) (msg : string) (p : list string)
    (v : option JsValue) : ParseReturn string :=
  match v with
  | Some (JStr s) =>
      Parsed s (if check s then [] else [{| path := p; issue_message := msg |}])
  | _ => INVALID [invalid_type p "string" v]
  end.

(** [.min(n, msg)] and [.length(n, msg)] of a string schema. *)
Definition min_length (n : nat) (s : string) : bool := Nat.leb n (String.length s).
Definition length_is (n : nat) (s : string) : bool := Nat.eqb (String.length s) n.

(** [z.number().positive(msg)] *)
Definition z_number_positive (msg : string) (p : list string)
    (v : option JsValue) : ParseReturn Q :=
  match v with
  | Some (JNum q) =>
      Parsed q (if Qle_bool q 0
                then [{| path := p; issue_message := msg |}] else [])
  | _ => INVALID [invalid_type p "number" v]
  end.

(** An object schema parses every property, gathers all issues in the order
    of the shape, and is aborted as soon as one property is. *)
Definition and_then {A B} (f : ParseReturn (A -> B)) (x : ParseReturn A)
  : ParseReturn B :=
  match f, x with
  | Parsed g i, Parsed a j => Parsed (g a) (i ++ j)%list
  | _, _ => INVALID (issues_of f ++ issues_of x)%list
  end.

(** [schema.refine(check, { message, path })]: the check runs unless the
    inner schema aborted. *)
Definition refine {A} (schema : JsValue -> ParseReturn A) (check : A -> bool)
    (msg : string) (p : list string) : JsValue -> ParseReturn A :=
  fun input =>
    match schema input with
    | INVALID i => INVALID i
    | Parsed a i =>
        Parsed a (i ++ if check a then []
                       else [{| path := p; issue_message := msg |}])%list
    end.

(** [schema.safeParse(input)]: [inl data] on success, [inr error.errors]. *)
Definition safeParse {A} (schema : JsValue -> ParseReturn A) (input : JsValue)
  : A + list ZodIssue :=
  match schema input with
  | Parsed a [] => inl a
  | Parsed _ i => inr i
  | INVALID i => inr i
  end.

Section Schema.
Variable env : Env.

(** The [z.object({ ... })] of [CreateOrderSchema]. *)
Definition CreateOrderObject (input : JsValue)
  : ParseReturn CreateOrderRequest :=
  match input with
  | JObj o =>
      and_then (and_then (and_then (and_then (and_then (and_then (and_then
        (Parsed Build_CreateOrderRequest [])
        (z_string (min_length 1) "Employee ID is required" ["employeeId"]
                  (get_property "employeeId" o)))
        (z_string (min_length 1) "Bike model is required" ["bikeModel"]
                  (get_property "bikeModel" o)))
        (z_string (zod_datetime env) "Invalid start date format" ["startDate"]
                  (get_property "startDate" o)))
        (z_string (zod_datetime env) "Invalid end date format" ["endDate"]
                  (get_property "endDate" o)))
        (z_number_positive "Price must be positive" ["price"]
                  (get_property "price" o)))
        (z_string (length_is 3) "Currency must be 3 characters" ["currency"]
                  (get_property "currency" o)))
        (z_string (min_length 1) "Company ID is required" ["companyId"]
                  (get_property "companyId" o))
  | _ => INVALID [invalid_type [] "object" (Some input)]
  end.

(** The predicate of the [.refine]. *)
Definition end_after_start (data : CreateOrderRequest) : bool :=
  let start := Date_parse env (r_startDate data) in
  let end_ := Date_parse env (r_endDate data) in
  Date_gt end_ start.

Definition CreateOrderSchema : JsValue -> ParseReturn CreateOrderRequest :=
  refine CreateOrderObject end_after_start
         "End date must be after start date" ["endDate"].
End Schema.

(* ================================================================== *)
(** * The services: [services/storageService.ts], [services/messagingService.ts] *)
(* ================================================================== *)

Record StorageService : Type := { storage_connectionString : string }.

Record MessagingService : Type := {
  messaging_connectionString : string;
  queueName : string
}.

Section Services.
Variable env : Env.

(** [new StorageService(connectionString)]:
    [BlobServiceClient.fromConnectionString] may throw. *)
Definition new_StorageService (connectionString : string)
  : M World StorageService :=
  fun w =>
    let w' := emit (New_StorageService connectionString) w in
    match BlobServiceClient_fromConnectionString env connectionString with
    | Some e => (Throw e, w')
    | None => (Ok {| storage_connectionString := connectionString |}, w')
    end.

Definition initializeContainer (this : StorageService) : M World unit :=
  effect (emit Call_initializeContainer) ;;
  try_catch
    (external Sdk_createIfNotExists is_Sdk_createIfNotExists
              (createIfNotExists env))
    (fun _ =>
       throw (new_OrderProcessingError
                "Failed to initialize storage container" "STORAGE_INIT_ERROR")).

Definition storeOrder (this : StorageService) (order : Order)
    (context : InvocationContext World) : M World unit :=
  effect (emit (Call_storeOrder order)) ;;
  try_catch
    (let blobName := companyId order ++ "/" ++ id order ++ ".json" in
     external
       (Sdk_upload blobName order "application/json"
          {| m_companyId := companyId order;
             m_employeeId := employeeId order;
             m_status := OrderStatus_string (status order) |})
       is_Sdk_upload (upload env) ;;
     effect (log context
       [LStr ("Order " ++ id order ++ " stored successfully in blob storage")]))
    (fun error_ =>
       effect (error context
         [LStr "Failed to store order in blob storage:"; LThrown error_]) ;;
       throw (new_OrderProcessingError
                "Failed to store order in storage" "STORAGE_ERROR")).

(** [new MessagingService(connectionString)]: the queue name defaults to
    ['order-processing']; [new ServiceBusClient] may throw. *)
Definition new_MessagingService (connectionString : string)
  : M World MessagingService :=
  fun w =>
    let w' := emit (New_MessagingService connectionString "order-processing") w in
    match ServiceBusClient_new env connectionString with
    | Some e => (Throw e, w')
    | None => (Ok {| messaging_connectionString := connectionString;
                     queueName := "order-processing" |}, w')
    end.

Definition sendOrderMessage (this : MessagingService) (order : Order)
    (context : InvocationContext World) : M World unit :=
  effect (emit (Call_sendOrderMessage order)) ;;
  try_catch
    (let message_ :=
       {| body := {| b_orderId := id order;
                     b_companyId := companyId order;
                     b_employeeId := employeeId order;
                     b_status := status order;
                     b_price := price order;
                     b_currency := currency order |};
          messageId := id order;
          correlationId := companyId order ++ "-" ++ id order;
          contentType := "application/json" |} in
     external (Sdk_sendMessages message_) is_Sdk_sendMessages
              (sendMessages env) ;;
     effect (log context
       [LStr ("Order message sent to Service Bus for order " ++ id order)]))
    (fun error_ =>
       effect (error context
         [LStr "Failed to send message to Service Bus:"; LThrown error_]) ;;
       throw (new_OrderProcessingError
                "Failed to send order message" "MESSAGING_ERROR")).

(** [MessagingService.close]: the release of the notification gateway. *)
Definition close (this : MessagingService) : M World unit :=
  effect (emit Call_close) ;;
  external Sdk_sender_close is_Sdk_sender_close (sender_close env) ;;
  external Sdk_client_close is_Sdk_client_close (client_close env).
End Services.

(* ================================================================== *)
(** * Classification: [handleError] of [utils/errors.ts] *)
(* ================================================================== *)

Definition handleError (error_ : Thrown) (context : InvocationContext World)
  : M World HttpResponseInit :=
  match error_ with
  | ValidationError msg _ statusCode validationErrors =>
      effect (error context
        [LStr "Validation error:"; LStr msg; LList validationErrors]) ;;
      ret {| http_status := statusCode;
             jsonBody := {| success := false; orderId := None; message := msg;
                            errors := Some validationErrors; code := None |} |}
  | OrderProcessingError msg c statusCode =>
      effect (error context [LStr "Order processing error:"; LStr msg]) ;;
      ret {| http_status := statusCode;
             jsonBody := {| success := false; orderId := None; message := msg;
                            errors := None; code := Some c |} |}
  | _ =>
      effect (error context [LStr "Unexpected error:"; LThrown error_]) ;;
      ret {| http_status := 500;
             jsonBody := {| success := false; orderId := None;
                            message := "Internal server error";
                            errors := None; code := None |} |}
  end.

(* ================================================================== *)
(** * The pipeline: [functions/processOrder.ts] *)
(* ================================================================== *)

(** What [request.json()] does: it resolves to the parsed body or rejects
    with an error of the platform. *)
Inductive JsonOutcome : Type :=
| Resolves (value : JsValue)
| Rejects (name message : string).

Record HttpRequest : Type := { json : JsonOutcome }.

Section Pipeline.
Variable env : Env.

(** [Date.now()] and [new Date()] read the same clock. *)
Definition call_Date_now : M World Z :=
  fun w => (Ok (Date_now env (count is_Clock_read w)), emit Clock_read w).

Definition new_Date : M World Date :=
  now <- call_Date_now ;; ret (Some now).

Definition call_uuidv4 : M World string :=
  fun w => (Ok (uuidv4 env (count is_Uuid_v4 w)), emit Uuid_v4 w).

Definition request_json (request : HttpRequest) : M World JsValue :=
  match json request with
  | Resolves v => ret v
  | Rejects n m => throw (Error n m)
  end.

Definition parseRequestBody (request : HttpRequest) : M World JsValue :=
  try_catch
    (body_ <- request_json request ;;
     if falsy body_ then
       throw (new_ValidationError "Request body is required"
                ["Request body cannot be empty"])
     else ret body_)
    (fun error_ =>
       if instanceof_ValidationError error_ then throw error_
       else throw (new_ValidationError "Invalid JSON in request body"
                     ["Request body must be valid JSON"])).

Definition validateInput (input : JsValue) : M World CreateOrderRequest :=
  match safeParse (CreateOrderSchema env) input with
  | inr issues =>
      let validationErrors :=
        map (fun err => String.concat "." (path err) ++ ": " ++ issue_message err)
            issues in
      throw (new_ValidationError "Validation failed" validationErrors)
  | inl data => ret data
  end.

Definition createOrder (input : CreateOrderRequest) : M World Order :=
  id_ <- call_uuidv4 ;;
  createdAt_ <- new_Date ;;
  updatedAt_ <- new_Date ;;
  ret {| id := id_;
         employeeId := r_employeeId input;
         bikeModel := r_bikeModel input;
         startDate := Date_parse env (r_startDate input);
         endDate := Date_parse env (r_endDate input);
         status := PENDING;
         price := r_price input;
         currency := r_currency input;
         companyId := r_companyId input;
         createdAt := createdAt_;
         updatedAt := updatedAt_ |}.

(** The block of the inner [try] of [processOrder]: the three gateway
    operations, each under the retry engine, and the success response. *)
Definition gateway_stage (storageService : StorageService)
    (messagingService : MessagingService) (order : Order) (startTime : Z)
    (context : InvocationContext World) : M World HttpResponseInit :=
  withRetry trace_setTimeout (initializeContainer env storageService)
            (only_maxAttempts 2) context ;;
  withRetry trace_setTimeout (storeOrder env storageService order context)
            (only_maxAttempts 3) context ;;
  withRetry trace_setTimeout
            (sendOrderMessage env messagingService order context)
            (only_maxAttempts 3) context ;;
  now <- call_Date_now ;;
  let processingTime := now - startTime in
  effect (log context
    [LStr ("Order " ++ id order ++ " processed successfully in "
             ++ show_Z processingTime ++ "ms")]) ;;
  ret {| http_status := 201;
         jsonBody := {| success := true; orderId := Some (id order);
                        message := "Order processed successfully";
                        errors := None; code := None |} |}.

(** The block of the outer [catch] of [processOrder]. *)
Definition failure_response (startTime : Z)
    (context : InvocationContext World) (error_ : Thrown)
  : M World HttpResponseInit :=
  now <- call_Date_now ;;
  let processingTime := now - startTime in
  effect (error context
    [LStr ("Order processing failed after " ++ show_Z processingTime
             ++ "ms")]) ;;
  handleError error_ context.

Definition processOrder (request : HttpRequest)
    (context : InvocationContext World) : M World HttpResponseInit :=
  startTime <- call_Date_now ;;
  effect (log context [LStr "Order processing started"]) ;;
  try_catch
    (requestBody <- parseRequestBody request ;;
     validatedInput <- validateInput requestBody ;;
     order <- createOrder validatedInput ;;
     effect (log context
       [LStr ("Created order " ++ id order ++ " for employee "
                ++ employeeId order)]) ;;
     storageService <-
       new_StorageService env (env_or_empty (AzureWebJobsStorage env)) ;;
     messagingService <-
       new_MessagingService env (env_or_empty (ServiceBusConnectionString env)) ;;
     try_finally
       (gateway_stage storageService messagingService order startTime context)
       (close env messagingService))
    (failure_response startTime context).

(** One request, from an empty trace. *)
Definition handle (request : HttpRequest) : Result HttpResponseInit * World :=
  processOrder request trace_context [].
End Pipeline.

(* ================================================================== *)
(** * Properties of computations and of traces *)
(* ================================================================== *)

(** [respects R m]: whatever [m] does, the world it leaves is related by [R]
    to the world it found.  With a preorder [R] this composes along the
    control flow. *)
Definition respects {W A} (R : W -> W -> Prop) (m : M W A) : Prop :=
  forall w, R w (snd (m w)).

(** [appends P w w']: the trace [w'] is [w] followed by events that all
    satisfy [P]. *)
Definition appends (P : Event -> Prop) (w w' : World) : Prop :=
  exists t, w' = (w ++ t)%list /\ Forall P t.

(** Any event but the entry into [MessagingService.close]. *)
Definition no_close (e : Event) : Prop := is_Call_close e = false.

(** The response that [handleError] builds for a thrown value. *)
Definition classify (e : Thrown) : HttpResponseInit :=
  match e with
  | ValidationError msg _ statusCode validationErrors =>
      {| http_status := statusCode;
         jsonBody := {| success := false; orderId := None; message := msg;
                        errors := Some validationErrors; code := None |} |}
  | OrderProcessingError msg c statusCode =>
      {| http_status := statusCode;
         jsonBody := {| success := false; orderId := None; message := msg;
                        errors := None; code := Some c |} |}
  | _ =>
      {| http_status := 500;
         jsonBody := {| success := false; orderId := None;
                        message := "Internal server error";
                        errors := None; code := None |} |}
  end.

(** [s] ends in [suffix]. *)
Definition ends_with (s suffix : string) : Prop :=
  exists prefix, s = prefix ++ suffix.

(** The request reaches the gateway stage: the body parses, it validates,
    and both service objects are constructed. *)
Definition reaches_gateways (env : Env) (request : HttpRequest) : bool :=
  match json request with
  | Rejects _ _ => false
  | Resolves v =>
      negb (falsy v)
      && match safeParse (CreateOrderSchema env) v with
         | inl _ => true | inr _ => false
         end
      && match BlobServiceClient_fromConnectionString env
                 (env_or_empty (AzureWebJobsStorage env)) with
         | None => true | Some _ => false
         end
      && match ServiceBusClient_new env
                 (env_or_empty (ServiceBusConnectionString env)) with
         | None => true | Some _ => false
         end
  end.

(** The environment with another value of the [SKIP_SERVICE_BUS] variable. *)
Definition with_SKIP_SERVICE_BUS (flag : option string) (env : Env) : Env :=
  {| AzureWebJobsStorage := AzureWebJobsStorage env;
     ServiceBusConnectionString := ServiceBusConnectionString env;
     SKIP_SERVICE_BUS := flag;
     Date_now := Date_now env;
     uuidv4 := uuidv4 env;
     Date_parse := Date_parse env;
     zod_datetime := zod_datetime env;
     BlobServiceClient_fromConnectionString :=
       BlobServiceClient_fromConnectionString env;
     createIfNotExists := createIfNotExists env;
     upload := upload env;
     ServiceBusClient_new := ServiceBusClient_new env;
     sendMessages := sendMessages env;
     sender_close := sender_close env;
     client_close := client_close env |}.

(* ================================================================== *)
(** * Vocabulary of the statements *)
(* ================================================================== *)

(** The errors that the two services wrap every failure in. *)
Definition storage_init_error : Thrown :=
  new_OrderProcessingError "Failed to initialize storage container"
                           "STORAGE_INIT_ERROR".
Definition storage_error : Thrown :=
  new_OrderProcessingError "Failed to store order in storage" "STORAGE_ERROR".
Definition messaging_error : Thrown :=
  new_OrderProcessingError "Failed to send order message" "MESSAGING_ERROR".

(** The index, among the next [n] answers from the [c]-th on, of the first
    call that succeeds. *)
Fixpoint first_success (answer : nat -> option Thrown) (c n : nat) : option nat :=
  match n with
  | O => None
  | S n' =>
      match answer c with
      | None => Some O
      | Some _ => option_map S (first_success answer (S c) n')
      end
  end.

(** The number of calls that the retry engine makes, with [n] attempts, of an
    operation that calls the outside once per attempt. *)
Definition calls_made (answer : nat -> option Thrown) (c n : nat) : nat :=
  match first_success answer c n with Some j => S j | None => n end.

(** The events of each of the three retried operations, of the whole gateway
    stage, and of the logging of a failure. *)
Definition init_event (e : Event) : bool :=
  match e with
  | Call_initializeContainer | Sdk_createIfNotExists | Logged _ _ | Timeout _ =>
      true
  | _ => false
  end.

Definition store_event (e : Event) : bool :=
  match e with
  | Call_storeOrder _ | Sdk_upload _ _ _ _ | Logged _ _ | Timeout _ => true
  | _ => false
  end.

Definition send_event (e : Event) : bool :=
  match e with
  | Call_sendOrderMessage _ | Sdk_sendMessages _ | Logged _ _ | Timeout _ => true
  | _ => false
  end.

Definition stage_event (e : Event) : bool :=
  init_event e || store_event e || send_event e || is_Clock_read e.

Definition log_event (e : Event) : bool :=
  match e with Clock_read | Logged _ _ => true | _ => false end.

Definition only (b : Event -> bool) : Event -> Prop := fun e => b e = true.

(** The success response. *)
Definition created (order : Order) : HttpResponseInit :=
  {| http_status := 201;
     jsonBody := {| success := true; orderId := Some (id order);
                    message := "Order processed successfully";
                    errors := None; code := None |} |}.

(** The outcome of the gateway stage, read off the answers of the three
    services from the calls already made in [w] on. *)
Definition stage_outcome (env : Env) (order : Order) (w : World)
  : Result HttpResponseInit :=
  match first_success (createIfNotExists env)
                      (count is_Sdk_createIfNotExists w) 2 with
  | None => Throw storage_init_error
  | Some _ =>
      match first_success (upload env) (count is_Sdk_upload w) 3 with
      | None => Throw storage_error
      | Some _ =>
          match first_success (sendMessages env)
                              (count is_Sdk_sendMessages w) 3 with
          | None => Throw messaging_error
          | Some _ => Ok (created order)
          end
      end
  end.

Definition uploads_made (env : Env) (w : World) : nat :=
  match first_success (createIfNotExists env)
                      (count is_Sdk_createIfNotExists w) 2 with
  | None => 0
  | Some _ => calls_made (upload env) (count is_Sdk_upload w) 3
  end.

Definition sends_made (env : Env) (w : World) : nat :=
  match first_success (createIfNotExists env)
                      (count is_Sdk_createIfNotExists w) 2 with
  | None => 0
  | Some _ =>
      match first_success (upload env) (count is_Sdk_upload w) 3 with
      | None => 0
      | Some _ => calls_made (sendMessages env) (count is_Sdk_sendMessages w) 3
      end
  end.

(** The record that [processOrder] builds for the request of a fresh trace. *)
Definition first_order (env : Env) (data : CreateOrderRequest) : Order :=
  {| id := uuidv4 env 0;
     employeeId := r_employeeId data;
     bikeModel := r_bikeModel data;
     startDate := Date_parse env (r_startDate data);
     endDate := Date_parse env (r_endDate data);
     status := PENDING;
     price := r_price data;
     currency := r_currency data;
     companyId := r_companyId data;
     createdAt := Some (Date_now env 1);
     updatedAt := Some (Date_now env 2) |}.

(** The response to a request whose [try] block ends with [r]. *)
Definition response_of (r : Result HttpResponseInit) : HttpResponseInit :=
  match r with Ok response => response | Throw e => classify e end.

(* ================================================================== *)
(** * A sample environment *)
(* ================================================================== *)

(** The examples below run the pipeline in a concrete environment: timestamps
    of the form [YYYY-MM-DDTHH:MM:SSZ] with their time value, a clock that
    advances by one millisecond between two readings, SDK clients that refuse
    an empty connection string, and healthy services. *)
Module Sample.

Definition digit (c : ascii) : option Z :=
  let n := Z.of_nat (nat_of_ascii c) in
  if (48 <=? n) && (n <=? 57) then Some (n - 48) else None.

Fixpoint number (n : nat) (acc : Z) (s : string) : option (Z * string) :=
  match n with
  | O => Some (acc, s)
  | S n' =>
      match s with
      | String c rest =>
          match digit c with
          | Some d => number n' (10 * acc + d) rest
          | None => None
          end
      | EmptyString => None
      end
  end.

Definition expect (c : ascii) (k : string -> Date) (s : string) : Date :=
  match s with
  | String c' rest => if Ascii.eqb c c' then k rest else None
  | EmptyString => None
  end.

Definition field (n : nat) (k : Z -> string -> Date) (s : string) : Date :=
  match number n 0 s with
  | Some (v, rest) => k v rest
  | None => None
  end.

(** Days since 1970-01-01 of a date of the proleptic Gregorian calendar. *)
Definition days_from_civil (y m d : Z) : Z :=
  let y := if m <=? 2 then y - 1 else y in
  let era := y / 400 in
  let yoe := y - era * 400 in
  let doy := (153 * (if 2 <? m then m - 3 else m + 9) + 2) / 5 + d - 1 in
  let doe := yoe * 365 + yoe / 4 - yoe / 100 + doy in
  era * 146097 + doe - 719468.

Definition iso_time : string -> Date :=
  field 4 (fun y => expect "-" (field 2 (fun mo => expect "-" (field 2 (fun d =>
  expect "T" (field 2 (fun h => expect ":" (field 2 (fun mi => expect ":"
  (field 2 (fun s => expect "Z" (fun rest =>
    match rest with
    | EmptyString =>
        if (1 <=? mo) && (mo <=? 12) && (1 <=? d) && (d <=? 31)
           && (h <=? 23) && (mi <=? 59) && (s <=? 59)
        then Some ((((days_from_civil y mo d * 24 + h) * 60 + mi) * 60 + s)
                   * 1000)
        else None
    | _ => None
    end)))))))))))).

Definition refuse_empty (what : string) (connectionString : string)
  : option Thrown :=
  match connectionString with
  | EmptyString => Some (Error "Error" ("Invalid " ++ what ++ " connection string"))
  | _ => None
  end.

Definition healthy : Env :=
  {| AzureWebJobsStorage := Some "UseDevelopmentStorage=true";
     ServiceBusConnectionString :=
       Some "Endpoint=sb://test.servicebus.windows.net/;SharedAccessKeyName=test;SharedAccessKey=test";
     SKIP_SERVICE_BUS := None;
     Date_now := fun k => 1704103200000 + Z.of_nat k;
     uuidv4 := fun _ => "9b1deb4d-3b7d-4bad-9bdd-2b0d7b3dcb6d";
     Date_parse := iso_time;
     zod_datetime := fun s => match iso_time s with Some _ => true | None => false end;
     BlobServiceClient_fromConnectionString := refuse_empty "storage";
     createIfNotExists := fun _ => None;
     upload := fun _ => None;
     ServiceBusClient_new := refuse_empty "service bus";
     sendMessages := fun _ => None;
     sender_close := fun _ => None;
     client_close := fun _ => None |}.

Definition unavailable : nat -> option Thrown :=
  fun _ => Some (Error "Error" "Service unavailable").

(** Every upload fails. *)
Definition storage_down : Env :=
  {| AzureWebJobsStorage := AzureWebJobsStorage healthy;
     ServiceBusConnectionString := ServiceBusConnectionString healthy;
     SKIP_SERVICE_BUS := None;
     Date_now := Date_now healthy; uuidv4 := uuidv4 healthy;
     Date_parse := iso_time; zod_datetime := zod_datetime healthy;
     BlobServiceClient_fromConnectionString := refuse_empty "storage";
     createIfNotExists := fun _ => None;
     upload := unavailable;
     ServiceBusClient_new := refuse_empty "service bus";
     sendMessages := fun _ => None;
     sender_close := fun _ => None;
     client_close := fun _ => None |}.

(** Every send fails. *)
Definition bus_down : Env :=
  {| AzureWebJobsStorage := AzureWebJobsStorage healthy;
     ServiceBusConnectionString := ServiceBusConnectionString healthy;
     SKIP_SERVICE_BUS := None;
     Date_now := Date_now healthy; uuidv4 := uuidv4 healthy;
     Date_parse := iso_time; zod_datetime := zod_datetime healthy;
     BlobServiceClient_fromConnectionString := refuse_empty "storage";
     createIfNotExists := fun _ => None;
     upload := fun _ => None;
     ServiceBusClient_new := refuse_empty "service bus";
     sendMessages := unavailable;
     sender_close := fun _ => None;
     client_close := fun _ => None |}.

(** Closing the sender fails. *)
Definition close_fails (env : Env) : Env :=
  {| AzureWebJobsStorage := AzureWebJobsStorage env;
     ServiceBusConnectionString := ServiceBusConnectionString env;
     SKIP_SERVICE_BUS := SKIP_SERVICE_BUS env;
     Date_now := Date_now env; uuidv4 := uuidv4 env;
     Date_parse := Date_parse env; zod_datetime := zod_datetime env;
     BlobServiceClient_fromConnectionString :=
       BlobServiceClient_fromConnectionString env;
     createIfNotExists := createIfNotExists env;
     upload := upload env;
     ServiceBusClient_new := ServiceBusClient_new env;
     sendMessages := sendMessages env;
     sender_close := fun _ => Some (Error "Error" "Close failed");
     client_close := client_close env |}.

(** The storage connection string is not set. *)
Definition no_storage_setting : Env :=
  {| AzureWebJobsStorage := None;
     ServiceBusConnectionString := ServiceBusConnectionString healthy;
     SKIP_SERVICE_BUS := None;
     Date_now := Date_now healthy; uuidv4 := uuidv4 healthy;
     Date_parse := iso_time; zod_datetime := zod_datetime healthy;
     BlobServiceClient_fromConnectionString := refuse_empty "storage";
     createIfNotExists := fun _ => None;
     upload := fun _ => None;
     ServiceBusClient_new := refuse_empty "service bus";
     sendMessages := fun _ => None;
     sender_close := fun _ => None;
     client_close := fun _ => None |}.

Definition payload (employee start_ end_ : string) : JsValue :=
  JObj [("employeeId", JStr employee); ("bikeModel", JStr "Mountain Bike Pro");
        ("startDate", JStr start_); ("endDate", JStr end_);
        ("price", JNum (29999 # 100)); ("currency", JStr "EUR");
        ("companyId", JStr "company-123")].

Definition valid_request : HttpRequest :=
  {| json := Resolves
       (payload "emp-123" "2024-01-01T10:00:00Z" "2024-01-07T10:00:00Z") |}.

Definition valid_input : CreateOrderRequest :=
  {| r_employeeId := "emp-123"; r_bikeModel := "Mountain Bike Pro";
     r_startDate := "2024-01-01T10:00:00Z";
     r_endDate := "2024-01-07T10:00:00Z";
     r_price := 29999 # 100; r_currency := "EUR";
     r_companyId := "company-123" |}.

Definition reversed_dates_request : HttpRequest :=
  {| json := Resolves
       (payload "emp-123" "2024-01-07T10:00:00Z" "2024-01-01T10:00:00Z") |}.

Definition reversed_input : CreateOrderRequest :=
  {| r_employeeId := "emp-123"; r_bikeModel := "Mountain Bike Pro";
     r_startDate := "2024-01-07T10:00:00Z";
     r_endDate := "2024-01-01T10:00:00Z";
     r_price := 29999 # 100; r_currency := "EUR";
     r_companyId := "company-123" |}.

Definition malformed_request : HttpRequest :=
  {| json := Rejects "SyntaxError" "Unexpected token o in JSON at position 1" |}.

(** An operation that always fails, for the retry engine alone; its world
    counts its invocations. *)
Definition always_fails : M nat unit :=
  fun n => (Throw (Error "Error" ("failure " ++ show_Z (Z.of_nat n))), S n).

Definition silent : InvocationContext nat :=
  {| log := fun _ w => w; warn := fun _ w => w; error := fun _ w => w |}.

Definition no_wait : Z -> nat -> nat := fun _ w => w.
End Sample.

(* ================================================================== *)
(** * Reading an order back: [getOrder] and [streamToString] *)
(* ================================================================== *)

(** What a readable stream emits: ['data'], ['end'] and ['error'] events, in
    the order in which the handlers of [streamToString] see them. *)
Inductive StreamEvent : Type :=
| Chunk (bytes : string)
| End_of_stream
| Stream_error (e : Thrown).

(** A promise that is awaited: resolved, rejected, or never settled. *)
Inductive Settled (A : Type) : Type :=
| Resolved (a : A)
| Rejected (e : Thrown)
| Pending.
Arguments Resolved {A} a.
Arguments Rejected {A} e.
Arguments Pending {A}.

(** The three handlers of [streamToString], run over the events: [chunks] is
    the array that ['data'] pushes to; ['end'] resolves with the
    concatenation, ['error'] rejects, and the first of the two settles the
    promise. *)
Fixpoint collect (chunks : list string) (events : list StreamEvent)
  : Settled string :=
  match events with
  | [] => Pending
  | Chunk c :: rest => collect (chunks ++ [c])%list rest
  | End_of_stream :: _ => Resolved (String.concat "" chunks)
  | Stream_error e :: _ => Rejected e
  end.

Definition streamToString (readableStream : list StreamEvent) : Settled string :=
  collect [] readableStream.

Section Read.
Context {A : Type}.
(** [getBlockBlobClient(blobName).download()] with the events of the body of
    its response, and [JSON.parse]. *)
Variable download : string -> Result (list StreamEvent).
Variable JSON_parse : string -> Result A.

(** [getOrder(orderId, companyId)]: [None] is [null]. *)
Definition getOrder (orderId companyId : string) : Settled (option A) :=
  let blobName := companyId ++ "/" ++ orderId ++ ".json" in
  match download blobName with
  | Throw _ => Resolved None
  | Ok readableStreamBody =>
      match streamToString readableStreamBody with
      | Pending => Pending
      | Rejected _ => Resolved None
      | Resolved orderData =>
          match JSON_parse orderData with
          | Ok order => Resolved (Some order)
          | Throw _ => Resolved None
          end
      end
  end.
End Read.

(* ================================================================== *)
(** * The greeting function: [HttpExample] *)
(* ================================================================== *)

(** The request of [HttpExample]: its URL, its query parameters in order, and
    what [request.text()] does. *)
Record GreetingRequest : Type := {
  url : string;
  query : list (string * string);
  text : Result string
}.

(** [query.get(key)]: the first value of the key, [None] for [null]. *)
Fixpoint query_get (key : string) (q : list (string * string)) : option string :=
  match q with
  | [] => None
  | (k, v) :: rest => if String.eqb k key then Some v else query_get key rest
  end.

(** A string is truthy unless it is empty. *)
Definition truthy (s : string) : bool :=
  match s with EmptyString => false | _ => true end.

Definition double_quote : string := String (Ascii.ascii_of_nat 34) EmptyString.

(** [request.query.get('name') || await request.text() || 'world'], and the
    body of the response. *)
Definition HttpExample {W} (request : GreetingRequest)
    (context : InvocationContext W) : M W string :=
  effect (log context
    [LStr ("Http function processed request for url " ++ double_quote
             ++ url request ++ double_quote)]) ;;
  name <- (let from_text : M W string :=
             t <- (fun w => (text request, w)) ;;
             if truthy t then ret t else ret "world" in
           match query_get "name" (query request) with
           | Some n => if truthy n then ret n else from_text
           | None => from_text
           end) ;;
  ret ("Hello, " ++ name ++ ", duke!").

(* ================================================================== *)
(** * Vocabulary of the further statements *)
(* ================================================================== *)

Definition total (l : list Z) : Z := fold_right Z.add 0 l.

(** The durations of the sleeps of a trace, and their sum. *)
Fixpoint delays (w : World) : list Z :=
  match w with
  | [] => []
  | Timeout d :: w' => d :: delays w'
  | _ :: w' => delays w'
  end.

Definition slept (w : World) : Z := total (delays w).

(** What the engine may sleep in all from [attempt] on, with [fuel] iterations
    left. *)
Fixpoint sleep_budget (config : RetryOptions) (attempt : Z) (fuel : nat) : Z :=
  match fuel with
  | O => 0
  | S fuel' =>
      if attempt <? maxAttempts config
      then backoff_delay config attempt + sleep_budget config (attempt + 1) fuel'
      else 0
  end.

(** The calls of [createIfNotExists] that the gateway stage makes. *)
Definition inits_made (env : Env) (w : World) : nat :=
  calls_made (createIfNotExists env) (count is_Sdk_createIfNotExists w) 2.

(** The release after the gateway stage ended with [r]: a failing
    [sender.close()] or [serviceBusClient.close()] replaces [r]. *)
Definition released (env : Env) (r : Result HttpResponseInit)
  : Result HttpResponseInit :=
  match sender_close env 0 with
  | Some e => Throw e
  | None =>
      match client_close env 0 with
      | Some e => Throw e
      | None => r
      end
  end.

(** The closing calls that the release makes. *)
Definition release_events (env : Env) : list Event :=
  match sender_close env 0 with
  | Some _ => [Call_close; Sdk_sender_close]
  | None => [Call_close; Sdk_sender_close; Sdk_client_close]
  end.

(** How a first request ends, as a decision over the request and the
    answers of the environment: what is thrown to the outer [catch], or the
    response that is returned. *)
Definition expected_outcome (env : Env) (request : HttpRequest)
  : Result HttpResponseInit :=
  match json request with
  | Rejects _ _ =>
      Throw (new_ValidationError "Invalid JSON in request body"
               ["Request body must be valid JSON"])
  | Resolves v =>
      if falsy v then
        Throw (new_ValidationError "Request body is required"
                 ["Request body cannot be empty"])
      else
        match safeParse (CreateOrderSchema env) v with
        | inr issues =>
            Throw (new_ValidationError "Validation failed"
                     (map (fun err => String.concat "." (path err) ++ ": "
                                        ++ issue_message err) issues))
        | inl data =>
            match BlobServiceClient_fromConnectionString env
                    (env_or_empty (AzureWebJobsStorage env)) with
            | Some e => Throw e
            | None =>
                match ServiceBusClient_new env
                        (env_or_empty (ServiceBusConnectionString env)) with
                | Some e => Throw e
                | None =>
                    released env (stage_outcome env (first_order env data) [])
                end
            end
        end
  end.

(** The trace of a first request when the gateway stage begins, and the two
    service objects. *)
Definition front_trace (env : Env) (data : CreateOrderRequest) : World :=
  [Clock_read; Logged LevelLog [LStr "Order processing started"];
   Uuid_v4; Clock_read; Clock_read;
   Logged LevelLog
     [LStr ("Created order " ++ id (first_order env data) ++ " for employee "
              ++ employeeId (first_order env data))];
   New_StorageService (env_or_empty (AzureWebJobsStorage env));
   New_MessagingService (env_or_empty (ServiceBusConnectionString env))
                        "order-processing"].

Definition the_storageService (env : Env) : StorageService :=
  {| storage_connectionString := env_or_empty (AzureWebJobsStorage env) |}.

Definition the_messagingService (env : Env) : MessagingService :=
  {| messaging_connectionString :=
       env_or_empty (ServiceBusConnectionString env);
     queueName := "order-processing" |}.

(** The events before the gateway stage. *)
Definition front_event (e : Event) : bool :=
  match e with
  | Clock_read | Uuid_v4 | Logged _ _ | New_StorageService _
  | New_MessagingService _ _ => true
  | _ => false
  end.

(** Any event but a sleep. *)
Definition awake (e : Event) : Prop :=
  match e with Timeout _ => False | _ => True end.

(** The name of the blob of an order, its metadata, and its message. *)
Definition blob_of (order : Order) : string :=
  companyId order ++ "/" ++ id order ++ ".json".

Definition metadata_of (order : Order) : BlobMetadata :=
  {| m_companyId := companyId order;
     m_employeeId := employeeId order;
     m_status := OrderStatus_string (status order) |}.

Definition message_of_order (order : Order) : ServiceBusMessage :=
  {| body := {| b_orderId := id order;
                b_companyId := companyId order;
                b_employeeId := employeeId order;
                b_status := status order;
                b_price := price order;
                b_currency := currency order |};
     messageId := id order;
     correlationId := companyId order ++ "-" ++ id order;
     contentType := "application/json" |}.

(** An event that concerns no other order than [order]. *)
Definition about (order : Order) (e : Event) : Prop :=
  match e with
  | Call_storeOrder o | Call_sendOrderMessage o => o = order
  | Sdk_upload b o c m =>
      o = order /\ b = blob_of order /\ c = "application/json"
      /\ m = metadata_of order
  | Sdk_sendMessages m => m = message_of_order order
  | _ => True
  end.

(** A thrown value that is no instance of the error classes of the
    pipeline. *)
Definition foreign (e : Thrown) : Prop :=
  match e with
  | Error _ _ | Undefined => True
  | OrderProcessingError _ _ _ | ValidationError _ _ _ _ => False
  end.

(** The SDK clients throw errors of their own only. *)
Definition sdk_errors_foreign (env : Env) : Prop :=
  (forall cs e, BlobServiceClient_fromConnectionString env cs = Some e -> foreign e)
  /\ (forall cs e, ServiceBusClient_new env cs = Some e -> foreign e)
  /\ (forall k e, sender_close env k = Some e -> foreign e)
  /\ (forall k e, client_close env k = Some e -> foreign e).

(** The text of an issue in the response. *)
Definition issue_text (err : ZodIssue) : string :=
  String.concat "." (path err) ++ ": " ++ issue_message err.

(** The issue of a check that fails. *)
Definition unless (ok : bool) (field msg : string) : list string :=
  if ok then [] else [field ++ ": " ++ msg].

(** Further sample values: an operation that fails twice and then returns,
    two that throw [undefined], and two more environments. *)
Module Sample2.
Definition fails_twice : M nat Z :=
  fun n => if (n <? 2)%nat
           then (Throw (Error "Error" ("failure " ++ show_Z (Z.of_nat n))), S n)
           else (Ok 42, S n).


(** An operation whose second invocation throws [undefined]; the others
    throw an error. *)
Definition undefined_on_second : M nat Z :=
  fun n => if (n =? 1)%nat then (Throw Undefined, S n)
           else (Throw (Error "Error" "Service unavailable"), S n).

(** The container cannot be created. *)
Definition container_down : Env :=
  {| AzureWebJobsStorage := AzureWebJobsStorage Sample.healthy;
     ServiceBusConnectionString := ServiceBusConnectionString Sample.healthy;
     SKIP_SERVICE_BUS := None;
     Date_now := Date_now Sample.healthy; uuidv4 := uuidv4 Sample.healthy;
     Date_parse := Sample.iso_time;
     zod_datetime := zod_datetime Sample.healthy;
     BlobServiceClient_fromConnectionString := Sample.refuse_empty "storage";
     createIfNotExists := Sample.unavailable;
     upload := fun _ => None;
     ServiceBusClient_new := Sample.refuse_empty "service bus";
     sendMessages := fun _ => None;
     sender_close := fun _ => None;
     client_close := fun _ => None |}.

(** Every service fails at first: the container and the upload once, the
    queue twice. *)
Definition flaky : Env :=
  {| AzureWebJobsStorage := AzureWebJobsStorage Sample.healthy;
     ServiceBusConnectionString := ServiceBusConnectionString Sample.healthy;
     SKIP_SERVICE_BUS := None;
     Date_now := Date_now Sample.healthy; uuidv4 := uuidv4 Sample.healthy;
     Date_parse := Sample.iso_time;
     zod_datetime := zod_datetime Sample.healthy;
     BlobServiceClient_fromConnectionString := Sample.refuse_empty "storage";
     createIfNotExists :=
       fun k => if (k <? 1)%nat then Sample.unavailable k else None;
     upload := fun k => if (k <? 1)%nat then Sample.unavailable k else None;
     ServiceBusClient_new := Sample.refuse_empty "service bus";
     sendMessages :=
       fun k => if (k <? 2)%nat then Sample.unavailable k else None;
     sender_close := fun _ => None;
     client_close := fun _ => None |}.

End Sample2.

(* ================================================================== *)
(** * The retry engine: what a run looks like *)
(* ================================================================== *)

Section RetryFacts.
Context {W T : Type}.
Variable context : InvocationContext W.
Variable setTimeout : Z -> W -> W.
Variable operation : M W T.
Variable config : RetryOptions.

Lemma produced_by (w : W) (r : Result T) (w' : W) :
  operation w = (r, w') -> produced operation r.
Proof. intros E. exists w. now rewrite E. Qed.

(** Entered with as many iterations left as the loop condition allows, the
    loop appends a history of the shape [run_shape] to the one it finds. *)
Lemma retry_loop_shape (fuel : nat) :
  forall attempt lastError w h,
    fuel = Z.to_nat (maxAttempts config - attempt + 1) ->
    exists r w' t,
      retry_loop (spy_context context) (spy_setTimeout setTimeout)
                 (spy operation) config fuel attempt lastError (w, h)
      = (r, (w', (h ++ t)%list))
      /\ run_shape operation config attempt lastError r t.
Proof.
  induction fuel as [|fuel IH]; intros attempt lastError w h Hfuel.
  - exists (Throw lastError), w, []. split.
    + cbn. now rewrite app_nil_r.
    + apply shape_exit. lia.
  - assert (Hle : attempt <= maxAttempts config) by lia.
    cbn [retry_loop]. apply Z.leb_le in Hle as Hleb. rewrite Hleb.
    unfold try_catch at 1. unfold spy at 1. cbn [fst snd].
    destruct (operation w) as [[v|e] w1] eqn:Eop.
    + exists (Ok v), w1, [Attempt (Ok v)]. split; [reflexivity|].
      apply shape_return; [exact Hle | eapply produced_by; eauto].
    + destruct (attempt =? maxAttempts config) eqn:Elast.
      * apply Z.eqb_eq in Elast.
        eexists (Throw e), _, [Attempt (Throw e)]. split; [reflexivity|].
        apply shape_final; [exact Elast | eapply produced_by; eauto].
      * apply Z.eqb_neq in Elast.
        destruct (message_of e) as [m|e'] eqn:Emsg.
        -- destruct (IH (attempt + 1) e
                      (setTimeout (backoff_delay config attempt)
                         (warn context
                            [LStr ("Attempt " ++ show_Z attempt
                                   ++ " failed, retrying in "
                                   ++ show_Z (backoff_delay config attempt)
                                   ++ "ms:"); LStr m] w1))
                      ((h ++ [Attempt (Throw e)])
                         ++ [Slept (backoff_delay config attempt)])%list)
             as (r & w' & t & Hrun & Hshape); [lia|].
           exists r, w',
             (Attempt (Throw e) :: Slept (backoff_delay config attempt) :: t).
           split.
           ++ unfold bind, effect, spy_context, spy_setTimeout, on_world.
              cbn [fst snd warn]. unfold spy_context, spy_setTimeout, on_world in Hrun.
              rewrite Hrun. repeat rewrite <- app_assoc. reflexivity.
           ++ eapply shape_retry; eauto; [lia | eapply produced_by; eauto].
        -- eexists (Throw e'), _, [Attempt (Throw e)]. split; [reflexivity|].
           eapply shape_no_message; eauto; [lia | eapply produced_by; eauto].
Qed.

(** Spying changes neither the outcome nor the world. *)
Lemma retry_loop_spied (fuel : nat) :
  forall attempt lastError w h,
    retry_loop context setTimeout operation config fuel attempt lastError w
    = (fst (retry_loop (spy_context context) (spy_setTimeout setTimeout)
                       (spy operation) config fuel attempt lastError (w, h)),
       fst (snd (retry_loop (spy_context context) (spy_setTimeout setTimeout)
                            (spy operation) config fuel attempt lastError
                            (w, h)))).
Proof.
  induction fuel as [|fuel IH]; intros attempt lastError w h; [reflexivity|].
  cbn [retry_loop]. destruct (attempt <=? maxAttempts config); [|reflexivity].
  unfold try_catch.
  replace (spy operation (w, h))
    with (fst (operation w),
          (snd (operation w), (h ++ [Attempt (fst (operation w))])%list))
    by (unfold spy; cbn [fst snd]; now destruct (operation w)).
  destruct (operation w) as [[v|e] w1]; cbn [fst snd]; [reflexivity|].
  destruct (attempt =? maxAttempts config); [reflexivity|].
  destruct (message_of e) as [m|e']; [|reflexivity].
  unfold bind, effect, spy_context, spy_setTimeout, on_world.
  cbn [fst snd warn]. apply IH.
Qed.

(** A run that enters the loop in time starts with an attempt. *)
Lemma run_shape_head attempt lastError r t :
  run_shape operation config attempt lastError r t ->
  attempt <= maxAttempts config ->
  exists r' t', t = Attempt r' :: t'.
Proof. intros H Hle. destruct H; try lia; eauto. Qed.


(** After a failed attempt that is not the last one the loop sleeps for the
    backoff delay of that attempt and then makes the next attempt. *)
Lemma run_shape_backoff :
  forall attempt lastError r t,
    run_shape operation config attempt lastError r t ->
    forall k e,
      attempt <= k < maxAttempts config ->
      nth_error (attempts t) (Z.to_nat (k - attempt)) = Some (Throw e) ->
      e <> Undefined ->
      exists r',
        firstn 3 (skipn (Z.to_nat (2 * (k - attempt))) t)
        = [Attempt (Throw e); Slept (backoff_delay config k); Attempt r'].
Proof.
  intros attempt lastError r t H.
  induction H as [a l Hlt | a l v Hle Hp | a l e Heq Hp
                 | a l e e' Hlt Hp Hm | a l e m r h Hlt Hp Hm Hrun IH];
    intros k e0 Hk Hnth Hne.
  - lia.
  - destruct (Z.to_nat (k - a)) as [|[|n]]; cbn in Hnth; discriminate.
  - lia.
  - destruct (Z.to_nat (k - a)) as [|[|n]] eqn:En; cbn in Hnth;
      try discriminate.
    injection Hnth as <-. destruct e; cbn in Hm; try discriminate. congruence.
  - destruct (Z.eq_dec k a) as [->|Hka].
    + rewrite Z.sub_diag in *. cbn in Hnth. injection Hnth as <-.
      destruct (run_shape_head _ _ _ _ Hrun) as (r' & t' & ->); [lia|].
      exists r'. reflexivity.
    + replace (Z.to_nat (k - a)) with (S (Z.to_nat (k - (a + 1)))) in Hnth
        by lia.
      cbn [attempts nth_error] in Hnth.
      destruct (IH k e0) as (r' & Htriple); [lia | exact Hnth | exact Hne |].
      exists r'.
      replace (Z.to_nat (2 * (k - a)))
        with (S (S (Z.to_nat (2 * (k - (a + 1)))))) by lia.
      exact Htriple.
Qed.
End RetryFacts.

(** The run of [withRetry] that [observe] records has the shape of the loop
    entered at attempt 1. *)
Lemma observe_shape {W T} (context : InvocationContext W)
    (setTimeout : Z -> W -> W) (operation : M W T)
    (options : PartialRetryOptions) (w : W) :
  exists r w' h,
    observe context setTimeout operation options w = (r, (w', h))
    /\ run_shape operation (spread DEFAULT_RETRY_OPTIONS options) 1 Undefined r h.
Proof.
  unfold observe, withRetry.
  destruct (retry_loop_shape context setTimeout operation
              (spread DEFAULT_RETRY_OPTIONS options)
              (Z.to_nat (maxAttempts (spread DEFAULT_RETRY_OPTIONS options)))
              1 Undefined w []) as (r & w' & t & Hrun & Hshape); [lia|].
  exists r, w', t. split; [exact Hrun | exact Hshape].
Qed.

(** What [observe] records is the run of [withRetry] itself. *)
Lemma observe_faithful {W T} (context : InvocationContext W)
    (setTimeout : Z -> W -> W) (operation : M W T)
    (options : PartialRetryOptions) (w : W) (r : Result T) (w' : W)
    (h : list (Probe T)) :
  observe context setTimeout operation options w = (r, (w', h)) ->
  withRetry setTimeout operation options context w = (r, w').
Proof.
  intros H. unfold observe, withRetry in *.
  rewrite (retry_loop_spied context setTimeout operation _ _ _ _ w []).
  now rewrite H.
Qed.

(** ** C2 *)




(** ** C3 *)

(** C3.  In a run of [withRetry], when attempt [k] fails with an error and is
    not the last attempt the policy allows, the history continues with a
    sleep of [min(baseDelay * backoffMultiplier^(k-1), maxDelay)] and then
    attempt [k+1]; the fields that the caller leaves out are 3, 1000, 10000
    and 2. *)
Theorem withRetry_backoff {W T} (context : InvocationContext W)
    (setTimeout : Z -> W -> W) (operation : M W T)
    (options : PartialRetryOptions) (w : W) (r : Result T) (w' : W)
    (h : list (Probe T)) (k : Z) (e : Thrown) :
  let maxAttempts := or_default (p_maxAttempts options) 3 in
  let baseDelay := or_default (p_baseDelay options) 1000 in
  let maxDelay := or_default (p_maxDelay options) 10000 in
  let backoffMultiplier := or_default (p_backoffMultiplier options) 2 in
  observe context setTimeout operation options w = (r, (w', h)) ->
  1 <= k < maxAttempts ->
  nth_error (attempts h) (Z.to_nat (k - 1)) = Some (Throw e) ->
  e <> Undefined ->
  exists r',
    firstn 3 (skipn (Z.to_nat (2 * (k - 1))) h)
    = [Attempt (Throw e);
       Slept (Z.min (baseDelay * backoffMultiplier ^ (k - 1)) maxDelay);
       Attempt r'].
Proof.
  intros maxA base cap mult Hrun Hk Hnth Hne.
  destruct (observe_shape context setTimeout operation options w)
    as (r0 & w0 & h0 & Hrun0 & Hshape).
  rewrite Hrun in Hrun0. injection Hrun0 as <- <- <-.
  exact (run_shape_backoff operation _ _ _ _ _ Hshape k e Hk Hnth Hne).
Qed.

(** The always-failing sample operation under the default policy: after the
    second failure the engine sleeps 2000 ms and tries a third time. *)
Lemma withRetry_backoff_witness :
  exists r',
    firstn 3 (skipn (Z.to_nat (2 * (2 - 1)))
                (snd (snd (observe Sample.silent Sample.no_wait
                             Sample.always_fails no_options 0%nat))))
    = [Attempt (Throw (Error "Error" "failure 1")); Slept 2000; Attempt r'].
Proof.
  apply (withRetry_backoff Sample.silent Sample.no_wait Sample.always_fails
           no_options 0%nat
           (fst (observe Sample.silent Sample.no_wait Sample.always_fails
                   no_options 0%nat))
           (fst (snd (observe Sample.silent Sample.no_wait Sample.always_fails
                        no_options 0%nat)))
           _ 2 (Error "Error" "failure 1")).
  - reflexivity.
  - cbn. lia.
  - reflexivity.
  - discriminate.
Defined.

(* ================================================================== *)
(** * Computations step by step *)
(* ================================================================== *)

Lemma bind_Ok {W A B} (m : M W A) (k : A -> M W B) w a w' :
  m w = (Ok a, w') -> bind m k w = k a w'.
Proof. intros E. unfold bind. now rewrite E. Qed.

Lemma bind_Throw {W A B} (m : M W A) (k : A -> M W B) w e w' :
  m w = (Throw e, w') -> bind m k w = (Throw e, w').
Proof. intros E. unfold bind. now rewrite E. Qed.

Lemma try_catch_Ok {W A} (body : M W A) handler w a w' :
  body w = (Ok a, w') -> try_catch body handler w = (Ok a, w').
Proof. intros E. unfold try_catch. now rewrite E. Qed.

Lemma try_catch_Throw {W A} (body : M W A) handler w e w' :
  body w = (Throw e, w') -> try_catch body handler w = handler e w'.
Proof. intros E. unfold try_catch. now rewrite E. Qed.

(* ================================================================== *)
(** * Relations that every step respects *)
(* ================================================================== *)

Section Respects.
Context {W : Type}.
Variable R : W -> W -> Prop.
Hypothesis R_refl : forall w, R w w.
Hypothesis R_trans : forall a b c, R a b -> R b c -> R a c.

Lemma respects_ret {A} (a : A) : respects R (ret a).
Proof. intros w. apply R_refl. Qed.

Lemma respects_throw {A} (e : Thrown) : respects R (@throw W A e).
Proof. intros w. apply R_refl. Qed.

Lemma respects_effect (f : W -> W) :
  (forall w, R w (f w)) -> respects R (effect f).
Proof. intros H w. apply H. Qed.

Lemma respects_bind {A B} (m : M W A) (k : A -> M W B) :
  respects R m -> (forall a, respects R (k a)) -> respects R (bind m k).
Proof.
  intros Hm Hk w. unfold bind. specialize (Hm w).
  destruct (m w) as [[a|e] w1]; cbn in *; [|exact Hm].
  eapply R_trans; [exact Hm | apply Hk].
Qed.

Lemma respects_try_catch {A} (body : M W A) (handler : Thrown -> M W A) :
  respects R body -> (forall e, respects R (handler e)) ->
  respects R (try_catch body handler).
Proof.
  intros Hb Hh w. unfold try_catch. specialize (Hb w).
  destruct (body w) as [[a|e] w1]; cbn in *; [exact Hb|].
  eapply R_trans; [exact Hb | apply Hh].
Qed.

Lemma respects_try_finally {A} (body : M W A) (finalizer : M W unit) :
  respects R body -> respects R finalizer ->
  respects R (try_finally body finalizer).
Proof.
  intros Hb Hf w. unfold try_finally. specialize (Hb w).
  destruct (body w) as [r w1]. specialize (Hf w1).
  destruct (finalizer w1) as [[u|e] w2]; cbn in *; eapply R_trans; eauto.
Qed.

Lemma respects_retry_loop {T} (context : InvocationContext W)
    (setTimeout : Z -> W -> W) (operation : M W T) (config : RetryOptions) :
  (forall args w, R w (log context args w)) ->
  (forall args w, R w (warn context args w)) ->
  (forall args w, R w (error context args w)) ->
  (forall d w, R w (setTimeout d w)) ->
  respects R operation ->
  forall fuel attempt lastError,
    respects R (retry_loop context setTimeout operation config fuel attempt
                           lastError).
Proof.
  intros Hlog Hwarn Herr Hsleep Hop.
  induction fuel as [|fuel IH]; intros attempt lastError; cbn [retry_loop].
  - apply respects_throw.
  - destruct (attempt <=? maxAttempts config); [|apply respects_throw].
    apply respects_try_catch; [exact Hop|]. intros e.
    destruct (attempt =? maxAttempts config).
    + apply respects_bind; [apply respects_effect; auto|].
      intros _. apply respects_throw.
    + destruct (message_of e); [|apply respects_throw].
      apply respects_bind; [apply respects_effect; auto|]. intros _.
      apply respects_bind; [apply respects_effect; auto|]. intros _.
      apply IH.
Qed.

Lemma respects_withRetry {T} (context : InvocationContext W)
    (setTimeout : Z -> W -> W) (operation : M W T)
    (options : PartialRetryOptions) :
  (forall args w, R w (log context args w)) ->
  (forall args w, R w (warn context args w)) ->
  (forall args w, R w (error context args w)) ->
  (forall d w, R w (setTimeout d w)) ->
  respects R operation ->
  respects R (withRetry setTimeout operation options context).
Proof. intros. unfold withRetry. now apply respects_retry_loop. Qed.
End Respects.


(* ================================================================== *)
(** * Counting events; traces that only grow *)
(* ================================================================== *)

Lemma count_app kind (w t : World) :
  count kind (w ++ t)%list = (count kind w + count kind t)%nat.
Proof. unfold count. now rewrite filter_app, length_app. Qed.

Lemma count_emit kind e (w : World) :
  count kind (emit e w) = (count kind w + if kind e then 1 else 0)%nat.
Proof. unfold emit. rewrite count_app. unfold count. cbn. now destruct (kind e). Qed.

Section Appends.
Variable P : Event -> Prop.

Lemma appends_refl w : appends P w w.
Proof. exists []. split; [now rewrite app_nil_r | constructor]. Qed.

Lemma appends_trans a b c : appends P a b -> appends P b c -> appends P a c.
Proof.
  intros (t & -> & Ht) (u & -> & Hu). exists (t ++ u)%list.
  split; [now rewrite app_assoc | now apply Forall_app].
Qed.

Lemma appends_emit e w : P e -> appends P w (emit e w).
Proof. intros He. exists [e]. split; [reflexivity | now constructor]. Qed.

Lemma appends_count kind w w' :
  (forall e, P e -> kind e = false) -> appends P w w' ->
  count kind w' = count kind w.
Proof.
  intros Hk (t & -> & Ht). rewrite count_app.
  assert (count kind t = 0%nat) as ->; [|lia].
  unfold count. induction Ht as [|e t He _ IH]; [reflexivity|].
  cbn. now rewrite (Hk e He).
Qed.

Lemma respects_emit e : P e -> respects (appends P) (effect (emit e)).
Proof. intros He w. now apply appends_emit. Qed.

Lemma respects_external e kind answer :
  P e -> respects (appends P) (external e kind answer).
Proof.
  intros He w. unfold external. destruct (answer _); now apply appends_emit.
Qed.

Hypothesis P_Clock : P Clock_read.
Hypothesis P_Logged : forall l a, P (Logged l a).
Hypothesis P_Timeout : forall d, P (Timeout d).

Lemma respects_log args : respects (appends P) (effect (log trace_context args)).
Proof. intros w. now apply appends_emit. Qed.
Lemma respects_error args : respects (appends P) (effect (error trace_context args)).
Proof. intros w. now apply appends_emit. Qed.

Lemma respects_call_Date_now env : respects (appends P) (call_Date_now env).
Proof. intros w. now apply appends_emit. Qed.

Lemma respects_trace_withRetry {T} (operation : M World T) options :
  respects (appends P) operation ->
  respects (appends P)
           (withRetry trace_setTimeout operation options trace_context).
Proof.
  intros Hop.
  apply respects_withRetry;
    [ apply appends_refl | apply appends_trans | | | | | exact Hop ];
    intros; apply appends_emit; auto.
Qed.

Lemma respects_handleError e :
  respects (appends P) (handleError e trace_context).
Proof.
  destruct e; cbn [handleError];
    (apply respects_bind;
     [ apply appends_trans | apply respects_error
     | intros _; apply respects_ret, appends_refl ]).
Qed.

Variable env : Env.

Lemma respects_initializeContainer this :
  P Call_initializeContainer -> P Sdk_createIfNotExists ->
  respects (appends P) (initializeContainer env this).
Proof.
  intros H1 H2. unfold initializeContainer.
  apply respects_bind; [apply appends_trans | now apply respects_emit |].
  intros _. apply respects_try_catch;
    [apply appends_trans | now apply respects_external |].
  intros e. apply respects_throw, appends_refl.
Qed.

Lemma respects_storeOrder this order :
  P (Call_storeOrder order) -> (forall b c m, P (Sdk_upload b order c m)) ->
  respects (appends P) (storeOrder env this order trace_context).
Proof.
  intros H1 H2. unfold storeOrder.
  apply respects_bind; [apply appends_trans | now apply respects_emit |].
  intros _. apply respects_try_catch; [apply appends_trans | |].
  - apply respects_bind;
      [apply appends_trans | now apply respects_external
      | intros _; apply respects_log].
  - intros e. apply respects_bind;
      [apply appends_trans | apply respects_error
      | intros _; apply respects_throw, appends_refl].
Qed.

Lemma respects_sendOrderMessage this order :
  P (Call_sendOrderMessage order) -> (forall m, P (Sdk_sendMessages m)) ->
  respects (appends P) (sendOrderMessage env this order trace_context).
Proof.
  intros H1 H2. unfold sendOrderMessage.
  apply respects_bind; [apply appends_trans | now apply respects_emit |].
  intros _. apply respects_try_catch; [apply appends_trans | |].
  - apply respects_bind;
      [apply appends_trans | now apply respects_external
      | intros _; apply respects_log].
  - intros e. apply respects_bind;
      [apply appends_trans | apply respects_error
      | intros _; apply respects_throw, appends_refl].
Qed.
End Appends.

(* ================================================================== *)
(** * The stages of the pipeline *)
(* ================================================================== *)

Section Stages.
Variable env : Env.

Lemma parseRequestBody_Rejects request n m w :
  json request = Rejects n m ->
  parseRequestBody request w
  = (Throw (new_ValidationError "Invalid JSON in request body"
              ["Request body must be valid JSON"]), w).
Proof.
  intros E. unfold parseRequestBody, request_json. rewrite E. reflexivity.
Qed.

Lemma parseRequestBody_falsy request v w :
  json request = Resolves v -> falsy v = true ->
  parseRequestBody request w
  = (Throw (new_ValidationError "Request body is required"
              ["Request body cannot be empty"]), w).
Proof.
  intros E F. unfold parseRequestBody, request_json, try_catch, bind, ret.
  rewrite E, F. reflexivity.
Qed.

Lemma parseRequestBody_Resolves request v w :
  json request = Resolves v -> falsy v = false ->
  parseRequestBody request w = (Ok v, w).
Proof.
  intros E F. unfold parseRequestBody, request_json, try_catch, bind, ret.
  rewrite E, F. reflexivity.
Qed.

Lemma validateInput_inl input data w :
  safeParse (CreateOrderSchema env) input = inl data ->
  validateInput env input w = (Ok data, w).
Proof. intros E. unfold validateInput. now rewrite E. Qed.

Lemma validateInput_inr input issues w :
  safeParse (CreateOrderSchema env) input = inr issues ->
  validateInput env input w
  = (Throw (new_ValidationError "Validation failed"
              (map (fun err => String.concat "." (path err) ++ ": "
                                 ++ issue_message err) issues)), w).
Proof. intros E. unfold validateInput. now rewrite E. Qed.

(** An input that the object schema accepts is a non-empty object. *)
Lemma CreateOrderObject_truthy input data issues :
  CreateOrderObject env input = Parsed data issues -> falsy input = false.
Proof. destruct input; cbn; try discriminate. reflexivity. Qed.

Lemma failure_response_fst startTime e w :
  fst (failure_response env startTime trace_context e w) = Ok (classify e).
Proof. destruct e; reflexivity. Qed.

Lemma respects_failure_response P startTime e :
  P Clock_read -> (forall l a, P (Logged l a)) ->
  respects (appends P) (failure_response env startTime trace_context e).
Proof.
  intros HC HL. unfold failure_response.
  apply respects_bind;
    [apply appends_trans | now apply respects_call_Date_now |].
  intros now. apply respects_bind;
    [apply appends_trans | now apply respects_error |].
  intros _. now apply respects_handleError.
Qed.

Lemma respects_gateway_stage P ss ms order startTime :
  P Clock_read -> (forall l a, P (Logged l a)) -> (forall d, P (Timeout d)) ->
  P Call_initializeContainer -> P Sdk_createIfNotExists ->
  P (Call_storeOrder order) -> (forall b c m, P (Sdk_upload b order c m)) ->
  P (Call_sendOrderMessage order) -> (forall m, P (Sdk_sendMessages m)) ->
  respects (appends P) (gateway_stage env ss ms order startTime trace_context).
Proof.
  intros HC HL HT H1 H2 H3 H4 H5 H6. unfold gateway_stage.
  apply respects_bind; [apply appends_trans | |].
  { apply respects_trace_withRetry; auto.
    now apply respects_initializeContainer. }
  intros _. apply respects_bind; [apply appends_trans | |].
  { apply respects_trace_withRetry; auto.
    now apply respects_storeOrder. }
  intros _. apply respects_bind; [apply appends_trans | |].
  { apply respects_trace_withRetry; auto.
    now apply respects_sendOrderMessage. }
  intros _. apply respects_bind;
    [apply appends_trans | now apply respects_call_Date_now |].
  intros now. apply respects_bind;
    [apply appends_trans | now apply respects_log |].
  intros _. apply respects_ret, appends_refl.
Qed.

Lemma close_count this w :
  count is_Call_close (snd (close env this w)) = S (count is_Call_close w).
Proof.
  unfold close, bind, effect, external.
  destruct (sender_close env _); cbn [snd].
  - rewrite !count_emit. cbn. lia.
  - destruct (client_close env _); cbn [snd]; rewrite !count_emit; cbn; lia.
Qed.

Lemma try_finally_close_count {A} this (body : M World A) w :
  respects (appends no_close) body ->
  count is_Call_close (snd (try_finally body (close env this) w))
  = S (count is_Call_close w).
Proof.
  intros Hb. unfold try_finally. specialize (Hb w).
  destruct (body w) as [r w1]. cbn [snd] in Hb.
  pose proof (close_count this w1) as Hc.
  assert (Hw1 : count is_Call_close w1 = count is_Call_close w).
  { apply (appends_count no_close); [intros e0 He; exact He | exact Hb]. }
  destruct (close env this w1) as [[u|e] w2]; cbn [snd] in *; congruence.
Qed.

(** The pipeline whose [try] block ends with a given outcome. *)
Lemma catch_all startTime (body : M World HttpResponseInit) w :
  exists response,
    fst (try_catch body (failure_response env startTime trace_context) w)
    = Ok response.
Proof.
  unfold try_catch. destruct (body w) as [[a|e] w1].
  - now exists a.
  - exists (classify e). apply failure_response_fst.
Qed.

Lemma catch_count startTime (body : M World HttpResponseInit) w :
  count is_Call_close
    (snd (try_catch body (failure_response env startTime trace_context) w))
  = count is_Call_close (snd (body w)).
Proof.
  unfold try_catch. destruct (body w) as [[a|e] w1]; [reflexivity|].
  cbn [snd]. apply (appends_count no_close); [intros e0 He; exact He|].
  apply respects_failure_response; reflexivity.
Qed.
End Stages.

(* ================================================================== *)
(** * The retry engine around a service call *)
(* ================================================================== *)

Lemma appends_weaken (P Q : Event -> Prop) w w' :
  (forall e, P e -> Q e) -> appends P w w' -> appends Q w w'.
Proof.
  intros H (t & -> & Ht). exists t. split; [reflexivity|].
  eapply Forall_impl; eauto.
Qed.

Lemma only_count (b kind : Event -> bool) w w' :
  (forall e, b e = true -> kind e = false) ->
  appends (only b) w w' -> count kind w' = count kind w.
Proof. intros H Ha. apply (appends_count (only b)); [exact H | exact Ha]. Qed.

(** Solves [forall e, b e = true -> kind e = false] for concrete classes. *)
Ltac disjoint := intros []; cbn; congruence.

Section OracleRetry.
Variable kind call : Event -> bool.
Variable answer : nat -> option Thrown.
Variable err : Thrown.
Variable msg : string.
Variable P : Event -> Prop.
Variable operation : M World unit.
Variable config : RetryOptions.
Hypothesis err_message : message_of err = Ok msg.
Hypothesis operation_run :
  forall w, exists w',
    operation w
    = (match answer (count kind w) with
       | None => Ok tt | Some _ => Throw err
       end, w')
    /\ appends P w w' /\ count kind w' = S (count kind w)
    /\ count call w' = S (count call w).
Hypothesis P_Logged : forall l a, P (Logged l a).
Hypothesis P_Timeout : forall d, P (Timeout d).
Hypothesis kind_Logged : forall l a, kind (Logged l a) = false.
Hypothesis kind_Timeout : forall d, kind (Timeout d) = false.
Hypothesis call_Logged : forall l a, call (Logged l a) = false.
Hypothesis call_Timeout : forall d, call (Timeout d) = false.

Lemma retry_loop_S (fuel : nat) attempt lastError :
  retry_loop trace_context trace_setTimeout operation config (S fuel)
             attempt lastError
  = if attempt <=? maxAttempts config then
      try_catch operation (fun error_ =>
        if attempt =? maxAttempts config then
          effect (error trace_context
            [LStr ("Operation failed after " ++ show_Z (maxAttempts config)
                     ++ " attempts:"); LThrown error_]) ;;
          throw error_
        else
          match message_of error_ with
          | Throw e => throw e
          | Ok message =>
              effect (warn trace_context
                [LStr ("Attempt " ++ show_Z attempt ++ " failed, retrying in "
                         ++ show_Z (backoff_delay config attempt) ++ "ms:");
                 LStr message]) ;;
              effect (trace_setTimeout (backoff_delay config attempt)) ;;
              retry_loop trace_context trace_setTimeout operation config fuel
                         (attempt + 1) error_
          end)
    else throw lastError.
Proof. reflexivity. Qed.

Lemma first_success_S c n :
  first_success answer c (S n)
  = match answer c with
    | None => Some O
    | Some _ => option_map S (first_success answer (S c) n)
    end.
Proof. reflexivity. Qed.

Lemma retry_loop_oracle (fuel : nat) :
  forall attempt lastError w,
    S fuel = Z.to_nat (maxAttempts config - attempt + 1) ->
    exists w',
      retry_loop trace_context trace_setTimeout operation config (S fuel)
                 attempt lastError w
      = (match first_success answer (count kind w) (S fuel) with
         | Some _ => Ok tt | None => Throw err
         end, w')
      /\ appends P w w'
      /\ count kind w'
         = (count kind w + calls_made answer (count kind w) (S fuel))%nat
      /\ count call w'
         = (count call w + calls_made answer (count kind w) (S fuel))%nat.
Proof.
  induction fuel as [|fuel IH]; intros attempt lastError w Hfuel;
    (assert (Hle : (attempt <=? maxAttempts config) = true)
       by (apply Z.leb_le; lia));
    destruct (operation_run w) as (w1 & Hop & Happ & Hcount & Hcall);
    rewrite retry_loop_S, Hle; unfold calls_made; rewrite first_success_S;
    destruct (answer (count kind w)) as [e|] eqn:Ea.
  - erewrite try_catch_Throw by exact Hop.
    assert (Heq : (attempt =? maxAttempts config) = true)
      by (apply Z.eqb_eq; lia).
    rewrite Heq. cbn [first_success option_map].
    eexists. split; [reflexivity|]. split.
    + eapply appends_trans; [exact Happ|]. apply appends_emit, P_Logged.
    + cbn [snd first_success option_map]. unfold error, trace_context.
      rewrite !count_emit, kind_Logged, call_Logged. lia.
  - erewrite try_catch_Ok by exact Hop.
    exists w1. split; [reflexivity|]. split; [exact Happ | lia].
  - erewrite try_catch_Throw by exact Hop.
    assert (Hne : (attempt =? maxAttempts config) = false)
      by (apply Z.eqb_neq; lia).
    rewrite Hne, err_message.
    erewrite bind_Ok by reflexivity. erewrite bind_Ok by reflexivity. 
    match goal with
    | |- context [retry_loop _ _ _ _ _ _ _ ?w2] =>
        destruct (IH (attempt + 1) err w2)
          as (w3 & Hrun & Happ3 & Hcount3 & Hcall3);
        [lia|];
        assert (Hc2 : count kind w2 = S (count kind w));
        [|assert (Hd2 : count call w2 = S (count call w))]
    end.
    { unfold trace_setTimeout, warn, trace_context.
      rewrite !count_emit, kind_Logged, kind_Timeout. lia. }
    { unfold trace_setTimeout, warn, trace_context.
      rewrite !count_emit, call_Logged, call_Timeout. lia. }
    rewrite Hrun, Hc2. exists w3.
    unfold calls_made in Hcount3, Hcall3. rewrite Hc2 in Hcount3, Hcall3.
    destruct (first_success answer (S (count kind w)) (S fuel));
      cbn [option_map]; (split; [reflexivity|]); (split; [|lia]);
      (eapply appends_trans; [exact Happ|]);
      (eapply appends_trans; [|exact Happ3]);
      (eapply appends_trans; [apply appends_emit, P_Logged|]);
      apply appends_emit, P_Timeout.
  - erewrite try_catch_Ok by exact Hop.
    exists w1. split; [reflexivity|]. split; [exact Happ | lia].
Qed.
End OracleRetry.

(** [withRetry] around an operation that calls the outside once per attempt,
    with [maxAttempts = n + 1]. *)
Lemma withRetry_oracle (kind call : Event -> bool)
    (answer : nat -> option Thrown)
    (err : Thrown) (msg : string) (P : Event -> Prop)
    (operation : M World unit) (n : nat) :
  message_of err = Ok msg ->
  (forall w, exists w',
      operation w
      = (match answer (count kind w) with
         | None => Ok tt | Some _ => Throw err
         end, w')
      /\ appends P w w' /\ count kind w' = S (count kind w)
      /\ count call w' = S (count call w)) ->
  (forall l a, P (Logged l a)) -> (forall d, P (Timeout d)) ->
  (forall l a, kind (Logged l a) = false) ->
  (forall d, kind (Timeout d) = false) ->
  (forall l a, call (Logged l a) = false) ->
  (forall d, call (Timeout d) = false) ->
  forall w, exists w',
    withRetry trace_setTimeout operation (only_maxAttempts (Z.of_nat (S n)))
              trace_context w
    = (match first_success answer (count kind w) (S n) with
       | Some _ => Ok tt | None => Throw err
       end, w')
    /\ appends P w w'
    /\ count kind w' = (count kind w + calls_made answer (count kind w) (S n))%nat
    /\ count call w' = (count call w + calls_made answer (count kind w) (S n))%nat.
Proof.
  intros Hmsg Hop HL HT KL KT CL CT w. unfold withRetry.
  replace (Z.to_nat (maxAttempts (spread DEFAULT_RETRY_OPTIONS
                                    (only_maxAttempts (Z.of_nat (S n))))))
    with (S n) by (cbn [spread maxAttempts only_maxAttempts p_maxAttempts or_default]; lia).
  eapply retry_loop_oracle; eauto.
  cbn [spread maxAttempts only_maxAttempts p_maxAttempts or_default]. lia.
Qed.

(* ================================================================== *)
(** * The three retried operations *)
(* ================================================================== *)

Section GatewayStage.
Variable env : Env.

Lemma initializeContainer_run this w :
  exists w',
    initializeContainer env this w
    = (match createIfNotExists env (count is_Sdk_createIfNotExists w) with
       | None => Ok tt | Some _ => Throw storage_init_error
       end, w')
    /\ appends (only init_event) w w'
    /\ count is_Sdk_createIfNotExists w' = S (count is_Sdk_createIfNotExists w)
    /\ count is_Call_initializeContainer w'
       = S (count is_Call_initializeContainer w).
Proof.
  unfold initializeContainer, bind, effect, try_catch, external.
  rewrite count_emit. cbn [is_Sdk_createIfNotExists]. rewrite Nat.add_0_r.
  exists (emit Sdk_createIfNotExists (emit Call_initializeContainer w)).
  split; [destruct (createIfNotExists env _); reflexivity|].
  split; [|split].
  - exists [Call_initializeContainer; Sdk_createIfNotExists].
    split; [unfold emit; now rewrite <- app_assoc|].
    repeat constructor.
  - rewrite !count_emit. cbn. lia.
  - rewrite !count_emit. cbn. lia.
Qed.

Lemma storeOrder_run this order w :
  exists w',
    storeOrder env this order trace_context w
    = (match upload env (count is_Sdk_upload w) with
       | None => Ok tt | Some _ => Throw storage_error
       end, w')
    /\ appends (only store_event) w w'
    /\ count is_Sdk_upload w' = S (count is_Sdk_upload w)
    /\ count is_Call_storeOrder w' = S (count is_Call_storeOrder w).
Proof.
  unfold storeOrder, bind, effect, try_catch, external.
  rewrite count_emit. cbn [is_Sdk_upload]. rewrite Nat.add_0_r.
  destruct (upload env _); eexists; (split; [reflexivity|]);
    (split; [|split]);
    try (eexists [_; _; _]; split;
         [unfold log, error, trace_context, emit;
          rewrite <- !app_assoc; reflexivity | repeat constructor]);
    unfold log, error, trace_context; rewrite !count_emit; cbn; lia.
Qed.

Lemma sendOrderMessage_run this order w :
  exists w',
    sendOrderMessage env this order trace_context w
    = (match sendMessages env (count is_Sdk_sendMessages w) with
       | None => Ok tt | Some _ => Throw messaging_error
       end, w')
    /\ appends (only send_event) w w'
    /\ count is_Sdk_sendMessages w' = S (count is_Sdk_sendMessages w)
    /\ count is_Call_sendOrderMessage w'
       = S (count is_Call_sendOrderMessage w).
Proof.
  unfold sendOrderMessage, bind, effect, try_catch, external.
  rewrite count_emit. cbn [is_Sdk_sendMessages]. rewrite Nat.add_0_r.
  destruct (sendMessages env _); eexists; (split; [reflexivity|]);
    (split; [|split]);
    try (eexists [_; _; _]; split;
         [unfold log, error, trace_context, emit;
          rewrite <- !app_assoc; reflexivity | repeat constructor]);
    unfold log, error, trace_context; rewrite !count_emit; cbn; lia.
Qed.
End GatewayStage.

(* ================================================================== *)
(** * The gateway stage and the requests that reach it *)
(* ================================================================== *)

Lemma stage_event_init e : only init_event e -> only stage_event e.
Proof. unfold only, stage_event. now intros ->. Qed.
Lemma stage_event_store e : only store_event e -> only stage_event e.
Proof. unfold only, stage_event. intros ->. now rewrite orb_true_r. Qed.
Lemma stage_event_send e : only send_event e -> only stage_event e.
Proof. unfold only, stage_event. intros ->. now rewrite !orb_true_r. Qed.

Section GatewayStageRun.
Variable env : Env.

Lemma gateway_stage_run ss ms order startTime w :
  exists w',
    gateway_stage env ss ms order startTime trace_context w
    = (stage_outcome env order w, w')
    /\ appends (only stage_event) w w'
    /\ count is_Sdk_upload w' = (count is_Sdk_upload w + uploads_made env w)%nat
    /\ count is_Sdk_sendMessages w'
       = (count is_Sdk_sendMessages w + sends_made env w)%nat
    /\ count is_Call_sendOrderMessage w'
       = (count is_Call_sendOrderMessage w + sends_made env w)%nat.
Proof.
  unfold gateway_stage, stage_outcome, uploads_made, sends_made.
  destruct (withRetry_oracle is_Sdk_createIfNotExists
              is_Call_initializeContainer (createIfNotExists env)
              storage_init_error _ (only init_event)
              (initializeContainer env ss) 1 eq_refl
              (initializeContainer_run env ss)
              (fun _ _ => eq_refl) (fun _ => eq_refl)
              (fun _ _ => eq_refl) (fun _ => eq_refl)
              (fun _ _ => eq_refl) (fun _ => eq_refl) w)
    as (w1 & Hrun1 & Happ1 & _).
  change (Z.of_nat 2) with 2 in Hrun1.
  assert (Hup1 : count is_Sdk_upload w1 = count is_Sdk_upload w)
    by (eapply only_count; [|exact Happ1]; disjoint).
  assert (Hsend1 : count is_Sdk_sendMessages w1 = count is_Sdk_sendMessages w)
    by (eapply only_count; [|exact Happ1]; disjoint).
  assert (Hcall1 : count is_Call_sendOrderMessage w1
                   = count is_Call_sendOrderMessage w)
    by (eapply only_count; [|exact Happ1]; disjoint).
  apply (appends_weaken _ _ _ _ stage_event_init) in Happ1.
  destruct (first_success (createIfNotExists env) _ 2).
  2:{ exists w1. erewrite bind_Throw by exact Hrun1.
      repeat split; auto; lia. }
  erewrite bind_Ok by exact Hrun1.
  destruct (withRetry_oracle is_Sdk_upload is_Call_storeOrder (upload env)
              storage_error _ (only store_event)
              (storeOrder env ss order trace_context) 2 eq_refl
              (storeOrder_run env ss order)
              (fun _ _ => eq_refl) (fun _ => eq_refl)
              (fun _ _ => eq_refl) (fun _ => eq_refl)
              (fun _ _ => eq_refl) (fun _ => eq_refl) w1)
    as (w2 & Hrun2 & Happ2 & Hup2 & _).
  change (Z.of_nat 3) with 3 in Hrun2.
  assert (Hsend2 : count is_Sdk_sendMessages w2 = count is_Sdk_sendMessages w1)
    by (eapply only_count; [|exact Happ2]; disjoint).
  assert (Hcall2 : count is_Call_sendOrderMessage w2
                   = count is_Call_sendOrderMessage w1)
    by (eapply only_count; [|exact Happ2]; disjoint).
  apply (appends_weaken _ _ _ _ stage_event_store) in Happ2.
  rewrite Hup1 in *.
  destruct (first_success (upload env) _ 3) eqn:Eup.
  2:{ exists w2. erewrite bind_Throw by exact Hrun2.
      split; [reflexivity|]. split; [eapply appends_trans; eauto|].
      split; [exact Hup2 | lia]. }
  erewrite bind_Ok by exact Hrun2.
  destruct (withRetry_oracle is_Sdk_sendMessages is_Call_sendOrderMessage
              (sendMessages env)
              messaging_error _ (only send_event)
              (sendOrderMessage env ms order trace_context) 2 eq_refl
              (sendOrderMessage_run env ms order)
              (fun _ _ => eq_refl) (fun _ => eq_refl)
              (fun _ _ => eq_refl) (fun _ => eq_refl)
              (fun _ _ => eq_refl) (fun _ => eq_refl) w2)
    as (w3 & Hrun3 & Happ3 & Hsend3 & Hcall3).
  change (Z.of_nat 3) with 3 in Hrun3.
  assert (Hup3 : count is_Sdk_upload w3 = count is_Sdk_upload w2)
    by (eapply only_count; [|exact Happ3]; disjoint).
  apply (appends_weaken _ _ _ _ stage_event_send) in Happ3.
  rewrite Hsend2, Hsend1, Hcall2, Hcall1 in *.
  assert (Happ : appends (only stage_event) w w3)
    by (eapply appends_trans; [exact Happ1|];
        eapply appends_trans; [exact Happ2 | exact Happ3]).
  destruct (first_success (sendMessages env) _ 3) eqn:Esend.
  2:{ exists w3. erewrite bind_Throw by exact Hrun3.
      split; [reflexivity|]. split; [exact Happ|].
      split; [congruence | split; [exact Hsend3 | exact Hcall3]]. }
  erewrite bind_Ok by exact Hrun3.
  erewrite bind_Ok by reflexivity. erewrite bind_Ok by reflexivity.
  eexists. split; [reflexivity|]. split; [|split; [|split]].
  - eapply appends_trans; [exact Happ|].
    eapply appends_trans; apply appends_emit; reflexivity.
  - unfold log, trace_context. rewrite !count_emit. cbn. lia.
  - unfold log, trace_context. rewrite !count_emit. cbn. lia.
  - unfold log, trace_context. rewrite !count_emit. cbn. lia.
Qed.

(** The release when both closing calls are the first of their kind and
    succeed. *)
Lemma close_run this w :
  count is_Sdk_sender_close w = 0%nat -> sender_close env 0%nat = None ->
  count is_Sdk_client_close w = 0%nat -> client_close env 0%nat = None ->
  close env this w
  = (Ok tt, (w ++ [Call_close; Sdk_sender_close; Sdk_client_close])%list).
Proof.
  intros C1 H1 C2 H2. unfold close, bind, effect, external.
  rewrite count_emit, C1. cbn [is_Sdk_sender_close Nat.add]. rewrite H1.
  rewrite !count_emit, C2. cbn [is_Sdk_client_close Nat.add]. rewrite H2.
  unfold emit. now rewrite <- !app_assoc.
Qed.

Lemma failure_response_run startTime e w :
  exists w',
    failure_response env startTime trace_context e w = (Ok (classify e), w')
    /\ appends (only log_event) w w'.
Proof.
  exists (snd (failure_response env startTime trace_context e w)). split.
  - rewrite <- (failure_response_fst env startTime e w).
    now destruct (failure_response _ _ _ _ _).
  - apply respects_failure_response; reflexivity.
Qed.
End GatewayStageRun.

Lemma first_success_spec answer n :
  forall c j, first_success answer c n = Some j ->
    (j < n)%nat /\ answer (c + j)%nat = None.
Proof.
  induction n as [|n IH]; intros c j; cbn [first_success]; [discriminate|].
  destruct (answer c) eqn:Ea.
  - destruct (first_success answer (S c) n) as [j'|] eqn:E; [|discriminate].
    intros [= <-]. destruct (IH _ _ E) as [Hlt Hj]. split; [lia|].
    now rewrite Nat.add_succ_r.
  - intros [= <-]. split; [lia|]. now rewrite Nat.add_0_r.
Qed.

Lemma first_success_None answer n :
  forall c, (forall k, (k < n)%nat -> answer (c + k)%nat <> None) ->
    first_success answer c n = None.
Proof.
  induction n as [|n IH]; intros c H; cbn [first_success]; [reflexivity|].
  destruct (answer c) eqn:Ea.
  - rewrite IH; [reflexivity|]. intros k Hk.
    specialize (H (S k) ltac:(lia)). now rewrite Nat.add_succ_r in H.
  - exfalso. apply (H 0%nat); [lia|]. now rewrite Nat.add_0_r.
Qed.

Lemma first_success_Some answer n :
  forall c k, (k < n)%nat -> answer (c + k)%nat = None ->
    exists j, first_success answer c n = Some j.
Proof.
  induction n as [|n IH]; intros c k Hk Ha; [lia|]. cbn [first_success].
  destruct (answer c) eqn:Ea; [|eauto].
  destruct k as [|k]; [rewrite Nat.add_0_r in Ha; congruence|].
  destruct (IH (S c) k) as [j ->]; [lia | now rewrite Nat.add_succ_r in Ha|].
  cbn. eauto.
Qed.

(** A request that reaches the gateway stage and whose release succeeds is
    answered with the outcome of the stage. *)
Lemma handle_reached (env : Env) (request : HttpRequest) (input : JsValue)
    (data : CreateOrderRequest) :
  json request = Resolves input ->
  falsy input = false ->
  safeParse (CreateOrderSchema env) input = inl data ->
  BlobServiceClient_fromConnectionString env
    (env_or_empty (AzureWebJobsStorage env)) = None ->
  ServiceBusClient_new env
    (env_or_empty (ServiceBusConnectionString env)) = None ->
  sender_close env 0%nat = None ->
  client_close env 0%nat = None ->
  exists tr,
    handle env request
    = (Ok (response_of (stage_outcome env (first_order env data) [])), tr)
    /\ count is_Sdk_upload tr = uploads_made env []
    /\ count is_Sdk_sendMessages tr = sends_made env []
    /\ count is_Call_sendOrderMessage tr = sends_made env []
    /\ count is_Call_close tr = 1%nat.
Proof.
  intros Ej Ef Ev Eb Es Hsc Hcc.
  unfold handle, processOrder.
  erewrite bind_Ok by reflexivity. erewrite bind_Ok by reflexivity.
  unfold try_catch.
  erewrite (bind_Ok (parseRequestBody request))
    by (eapply parseRequestBody_Resolves; eauto).
  erewrite (bind_Ok (validateInput env input))
    by (eapply validateInput_inl; eauto).
  erewrite (bind_Ok (createOrder env data)) by reflexivity.
  erewrite (bind_Ok (effect _)) by reflexivity.
  unfold new_StorageService at 1. rewrite Eb.
  erewrite (bind_Ok (fun _ => (Ok _, _))) by reflexivity.
  unfold new_MessagingService at 1. rewrite Es.
  erewrite (bind_Ok (fun _ => (Ok _, _))) by reflexivity.
  match goal with
  | |- context [try_finally (gateway_stage env ?ss ?ms ?o ?st trace_context)
                            _ ?w] =>
      set (w0 := w);
      destruct (gateway_stage_run env ss ms o st w0)
        as (w1 & Hrun & Happ & Hup & Hsend & Hcall);
      change o with (first_order env data) in *
  end.
  replace (stage_outcome env (first_order env data) w0)
    with (stage_outcome env (first_order env data) []) in Hrun by reflexivity.
  replace (uploads_made env w0) with (uploads_made env []) in Hup
    by reflexivity.
  replace (sends_made env w0) with (sends_made env []) in Hsend, Hcall
    by reflexivity.
  replace (count is_Sdk_upload w0) with 0%nat in Hup by reflexivity.
  replace (count is_Sdk_sendMessages w0) with 0%nat in Hsend by reflexivity.
  replace (count is_Call_sendOrderMessage w0) with 0%nat in Hcall
    by reflexivity.
  assert (Hc1 : count is_Sdk_sender_close w1 = 0%nat)
    by (rewrite (only_count stage_event is_Sdk_sender_close w0 w1);
        [reflexivity | disjoint | exact Happ]).
  assert (Hc2 : count is_Sdk_client_close w1 = 0%nat)
    by (rewrite (only_count stage_event is_Sdk_client_close w0 w1);
        [reflexivity | disjoint | exact Happ]).
  assert (Hc3 : count is_Call_close w1 = 0%nat)
    by (rewrite (only_count stage_event is_Call_close w0 w1);
        [reflexivity | disjoint | exact Happ]).
  unfold try_finally. rewrite Hrun.
  rewrite (close_run env _ w1 Hc1 Hsc Hc2 Hcc).
  cbn [Nat.add] in *.
  destruct (stage_outcome env (first_order env data) []) as [response|e].
  - eexists. split; [reflexivity|]. rewrite !count_app, Hup, Hsend, Hcall, Hc3.
    cbn. repeat split; lia.
  - destruct (failure_response_run env (Date_now env 0) e
                (w1 ++ [Call_close; Sdk_sender_close; Sdk_client_close])%list)
      as (w2 & Hf & Happ2).
    change (Date_now env (count is_Clock_read [])) with (Date_now env 0).
    rewrite Hf. exists w2. split; [reflexivity|].
    rewrite (only_count log_event is_Sdk_upload _ w2 ltac:(disjoint) Happ2),
      (only_count log_event is_Sdk_sendMessages _ w2 ltac:(disjoint) Happ2),
      (only_count log_event is_Call_sendOrderMessage _ w2 ltac:(disjoint) Happ2),
      (only_count log_event is_Call_close _ w2 ltac:(disjoint) Happ2).
    rewrite !count_app, Hup, Hsend, Hcall, Hc3. cbn. repeat split; lia.
Qed.

(* ================================================================== *)
(** * Properties of the pipeline *)
(* ================================================================== *)

Lemma safeParse_truthy env input data :
  safeParse (CreateOrderSchema env) input = inl data -> falsy input = false.
Proof. destruct input; try reflexivity; intros H; discriminate H. Qed.

(** ** C1 *)

(** C1, in the form that holds.  Every request gets a response, and
    [MessagingService.close] has been entered exactly once by then if the
    request reached the gateway stage (the body parsed and validated and both
    services were constructed), whatever the gateways and the release itself
    did; it has not been entered at all if the request failed earlier. *)
Theorem release_once_if_constructed (env : Env) (request : HttpRequest) :
  exists response tr,
    handle env request = (Ok response, tr)
    /\ count is_Call_close tr
       = if reaches_gateways env request then 1%nat else 0%nat.
Proof.
  cut (exists response,
          fst (handle env request) = Ok response
          /\ count is_Call_close (snd (handle env request))
             = if reaches_gateways env request then 1%nat else 0%nat).
  { intros (response & H1 & H2). exists response, (snd (handle env request)).
    split; [|exact H2]. rewrite <- H1. now destruct (handle env request). }
  unfold handle, processOrder.
  erewrite bind_Ok by reflexivity. erewrite bind_Ok by reflexivity.
  match goal with
  | |- context [try_catch ?b (failure_response env ?s trace_context) ?w] =>
      destruct (catch_all env s b w) as (response & Hr);
      exists response; split; [exact Hr|]; rewrite catch_count
  end.
  unfold reaches_gateways.
  destruct (json request) as [v|n m] eqn:Ej.
  2:{ erewrite bind_Throw by (eapply parseRequestBody_Rejects; eauto).
      reflexivity. }
  destruct (falsy v) eqn:Ef.
  { erewrite bind_Throw by (eapply parseRequestBody_falsy; eauto).
    reflexivity. }
  erewrite bind_Ok by (eapply parseRequestBody_Resolves; eauto).
  destruct (safeParse (CreateOrderSchema env) v) as [d|issues] eqn:Ev.
  2:{ erewrite bind_Throw by (eapply validateInput_inr; eauto). reflexivity. }
  erewrite bind_Ok by (eapply validateInput_inl; eauto).
  erewrite bind_Ok by reflexivity. erewrite bind_Ok by reflexivity.
  unfold new_StorageService at 1.
  destruct (BlobServiceClient_fromConnectionString env _) eqn:Eb.
  { erewrite bind_Throw by reflexivity. reflexivity. }
  erewrite bind_Ok by reflexivity.
  unfold new_MessagingService at 1.
  destruct (ServiceBusClient_new env _) eqn:Es.
  { erewrite bind_Throw by reflexivity. reflexivity. }
  erewrite bind_Ok by reflexivity.
  rewrite try_finally_close_count; [reflexivity|].
  apply respects_gateway_stage; reflexivity.
Qed.

(** C1 does not hold as the specification states it: for a body that is not
    JSON the response is the 400 of a validation error and [close] was never
    entered. *)
Lemma release_skipped_on_malformed_payload :
  fst (handle Sample.healthy Sample.malformed_request)
  = Ok (classify (new_ValidationError "Invalid JSON in request body"
                    ["Request body must be valid JSON"]))
  /\ count is_Call_close (snd (handle Sample.healthy Sample.malformed_request))
     <> 1%nat.
Proof. split; [vm_compute; reflexivity | vm_compute; discriminate]. Qed.

(** ** C4 *)

(** C4.  When every property of the payload passes the object schema and the
    end date is not after the start date, the response is a validation
    failure (400) whose error list holds a message ending in "End date must
    be after start date", and neither gateway is called (nor released). *)
Theorem end_date_not_after_start_date (env : Env) (request : HttpRequest)
    (input : JsValue) (data : CreateOrderRequest) (s e : Z) :
  json request = Resolves input ->
  CreateOrderObject env input = Parsed data [] ->
  Date_parse env (r_startDate data) = Some s ->
  Date_parse env (r_endDate data) = Some e ->
  e <= s ->
  exists tr msg,
    handle env request
    = (Ok {| http_status := 400;
             jsonBody := {| success := false; orderId := None;
                            message := "Validation failed";
                            errors := Some [msg]; code := None |} |}, tr)
    /\ ends_with msg "End date must be after start date"
    /\ count is_gateway_call tr = 0%nat
    /\ count is_Call_close tr = 0%nat.
Proof.
  intros Ej Eo Es Ee Hle.
  assert (Ef : falsy input = false) by (eapply CreateOrderObject_truthy; eauto).
  assert (Ev : safeParse (CreateOrderSchema env) input
               = inr [{| path := ["endDate"];
                         issue_message := "End date must be after start date" |}]).
  { unfold safeParse, CreateOrderSchema, refine. rewrite Eo.
    unfold end_after_start. rewrite Es, Ee. cbn [Date_gt].
    replace (s <? e) with false by (symmetry; apply Z.ltb_ge; exact Hle).
    reflexivity. }
  unfold handle, processOrder.
  erewrite bind_Ok by reflexivity. erewrite bind_Ok by reflexivity.
  erewrite try_catch_Throw.
  2:{ erewrite bind_Ok by (eapply parseRequestBody_Resolves; eauto).
      erewrite bind_Throw by (eapply validateInput_inr; eauto). reflexivity. }
  match goal with
  | |- context [failure_response env ?st trace_context ?err ?w] =>
      destruct (failure_response_run env st err w) as (w2 & Hf & Happ);
      rewrite Hf; exists w2
  end.
  exists "endDate: End date must be after start date".
  split; [reflexivity|]. split; [now exists "endDate: "|].
  rewrite (only_count log_event is_gateway_call _ w2 ltac:(disjoint) Happ),
    (only_count log_event is_Call_close _ w2 ltac:(disjoint) Happ).
  split; reflexivity.
Qed.

(** The sample payload with the two dates exchanged. *)
Lemma end_date_not_after_start_date_witness :
  exists tr msg,
    handle Sample.healthy Sample.reversed_dates_request
    = (Ok {| http_status := 400;
             jsonBody := {| success := false; orderId := None;
                            message := "Validation failed";
                            errors := Some [msg]; code := None |} |}, tr)
    /\ ends_with msg "End date must be after start date"
    /\ count is_gateway_call tr = 0%nat
    /\ count is_Call_close tr = 0%nat.
Proof.
  apply (end_date_not_after_start_date Sample.healthy
           Sample.reversed_dates_request
           (Sample.payload "emp-123" "2024-01-07T10:00:00Z" "2024-01-01T10:00:00Z")
           Sample.reversed_input 1704621600000 1704103200000).
  - reflexivity.
  - vm_compute. reflexivity.
  - vm_compute. reflexivity.
  - vm_compute. reflexivity.
  - lia.
Defined.

(** ** C8 *)

(** C8, in the form that holds.  When the body cannot be parsed, the
    response has status 400, the generic message "Invalid JSON in request
    body" and an error list with the one generic entry "Request body must be
    valid JSON"; no gateway is called. *)
Theorem malformed_payload (env : Env) (request : HttpRequest) (n m : string) :
  json request = Rejects n m ->
  exists tr,
    handle env request
    = (Ok {| http_status := 400;
             jsonBody := {| success := false; orderId := None;
                            message := "Invalid JSON in request body";
                            errors := Some ["Request body must be valid JSON"];
                            code := None |} |}, tr)
    /\ count is_gateway_call tr = 0%nat.
Proof.
  intros Ej. unfold handle, processOrder.
  erewrite bind_Ok by reflexivity. erewrite bind_Ok by reflexivity.
  erewrite try_catch_Throw.
  2:{ erewrite bind_Throw by (eapply parseRequestBody_Rejects; eauto).
      reflexivity. }
  match goal with
  | |- context [failure_response env ?st trace_context ?err ?w] =>
      destruct (failure_response_run env st err w) as (w2 & Hf & Happ);
      rewrite Hf; exists w2
  end.
  split; [reflexivity|].
  rewrite (only_count log_event is_gateway_call _ w2 ltac:(disjoint) Happ).
  reflexivity.
Qed.

(** The sample request whose body is not JSON. *)
Lemma malformed_payload_witness :
  exists tr,
    handle Sample.healthy Sample.malformed_request
    = (Ok {| http_status := 400;
             jsonBody := {| success := false; orderId := None;
                            message := "Invalid JSON in request body";
                            errors := Some ["Request body must be valid JSON"];
                            code := None |} |}, tr)
    /\ count is_gateway_call tr = 0%nat.
Proof.
  apply (malformed_payload Sample.healthy Sample.malformed_request
           "SyntaxError" "Unexpected token o in JSON at position 1").
  reflexivity.
Defined.

(** C8 does not hold as the specification states it: the response to a body
    that is not JSON does carry an error list. *)
Lemma malformed_payload_carries_errors_list :
  exists response,
    fst (handle Sample.healthy Sample.malformed_request) = Ok response
    /\ http_status response = 400
    /\ errors (jsonBody response) <> None.
Proof.
  eexists. split; [vm_compute; reflexivity|].
  split; [reflexivity | discriminate].
Qed.

(** ** C9 *)

(** C9, in the form that holds.  [createOrder] always returns a record: its
    id is the next value of the UUID generator, its status is PENDING, the
    other fields are copied from the input, and [createdAt] and [updatedAt]
    are two successive readings of the clock, equal exactly when the clock
    gave the same instant twice. *)
Theorem createOrder_record (env : Env) (input : CreateOrderRequest) (w : World) :
  exists order,
    createOrder env input w
    = (Ok order, (w ++ [Uuid_v4; Clock_read; Clock_read])%list)
    /\ id order = uuidv4 env (count is_Uuid_v4 w)
    /\ status order = PENDING
    /\ createdAt order = Some (Date_now env (count is_Clock_read w))
    /\ updatedAt order = Some (Date_now env (S (count is_Clock_read w)))
    /\ (Date_now env (count is_Clock_read w)
        = Date_now env (S (count is_Clock_read w))
        <-> createdAt order = updatedAt order)
    /\ employeeId order = r_employeeId input
    /\ bikeModel order = r_bikeModel input
    /\ startDate order = Date_parse env (r_startDate input)
    /\ endDate order = Date_parse env (r_endDate input)
    /\ price order = r_price input
    /\ currency order = r_currency input
    /\ companyId order = r_companyId input.
Proof.
  unfold createOrder, new_Date, call_uuidv4, call_Date_now, bind, ret.
  rewrite !count_emit. cbn [is_Clock_read]. rewrite Nat.add_0_r, Nat.add_1_r.
  eexists. split.
  - unfold emit. rewrite <- !app_assoc. reflexivity.
  - cbn. repeat split; congruence.
Qed.

(** C9 does not hold as the specification states it: with an employee id
    equal to the value that the generator returns, and a clock that advances
    between two readings, the id equals a field of the input and the two
    timestamps differ. *)
Lemma createOrder_not_fresh_nor_simultaneous :
  exists order w,
    createOrder Sample.healthy
      {| r_employeeId := "9b1deb4d-3b7d-4bad-9bdd-2b0d7b3dcb6d"; r_bikeModel := "Mountain Bike Pro";
         r_startDate := "2024-01-01T10:00:00Z";
         r_endDate := "2024-01-07T10:00:00Z";
         r_price := 29999 # 100; r_currency := "EUR";
         r_companyId := "company-123" |} []
    = (Ok order, w)
    /\ id order = employeeId order
    /\ createdAt order <> updatedAt order.
Proof.
  eexists. eexists. split; [vm_compute; reflexivity|].
  split; [reflexivity | discriminate].
Qed.
(** An initialisation that succeeds at the first or the second call. *)
Lemma init_within_two env :
  createIfNotExists env 0%nat = None \/ createIfNotExists env 1%nat = None ->
  exists j, first_success (createIfNotExists env) 0 2 = Some j.
Proof.
  intros [H|H].
  - apply (first_success_Some _ 2 0 0); [lia | exact H].
  - apply (first_success_Some _ 2 0 1); [lia | exact H].
Qed.

(** ** C7 *)

(** C7, in the form that holds.  For a valid input that reaches the write,
    when all three uploads fail and the release succeeds, the response is
    status 500 with the message "Failed to store order in storage" and the
    code "STORAGE_ERROR"; the upload was called three times, no send was
    attempted, and [close] was entered once. *)
Theorem write_exhausted (env : Env) (request : HttpRequest)
    (input : JsValue) (data : CreateOrderRequest) :
  json request = Resolves input ->
  safeParse (CreateOrderSchema env) input = inl data ->
  BlobServiceClient_fromConnectionString env
    (env_or_empty (AzureWebJobsStorage env)) = None ->
  ServiceBusClient_new env
    (env_or_empty (ServiceBusConnectionString env)) = None ->
  createIfNotExists env 0%nat = None \/ createIfNotExists env 1%nat = None ->
  (forall k, (k < 3)%nat -> upload env k <> None) ->
  sender_close env 0%nat = None ->
  client_close env 0%nat = None ->
  exists tr,
    handle env request
    = (Ok {| http_status := 500;
             jsonBody := {| success := false; orderId := None;
                            message := "Failed to store order in storage";
                            errors := None; code := Some "STORAGE_ERROR" |} |},
       tr)
    /\ count is_Sdk_upload tr = 3%nat
    /\ count is_Sdk_sendMessages tr = 0%nat
    /\ count is_Call_sendOrderMessage tr = 0%nat
    /\ count is_Call_close tr = 1%nat.
Proof.
  intros Ej Ev Eb Es Hinit Hup Hsc Hcc.
  destruct (handle_reached env request input data Ej
              (safeParse_truthy _ _ _ Ev) Ev Eb Es Hsc Hcc)
    as (tr & Hrun & Hu & Hs & Hc & Hclose).
  destruct (init_within_two env Hinit) as (j & Hj).
  assert (Hnone : first_success (upload env) 0 3 = None)
    by (apply first_success_None; intros k Hk; now apply Hup).
  unfold stage_outcome, uploads_made, sends_made, calls_made in *.
  change (count is_Sdk_createIfNotExists []) with 0%nat in *.
  change (count is_Sdk_upload []) with 0%nat in *.
  rewrite Hj, Hnone in *.
  exists tr. repeat split; assumption.
Qed.

(** The sample request against a storage account that refuses every upload. *)
Lemma write_exhausted_witness :
  exists tr,
    handle Sample.storage_down Sample.valid_request
    = (Ok {| http_status := 500;
             jsonBody := {| success := false; orderId := None;
                            message := "Failed to store order in storage";
                            errors := None; code := Some "STORAGE_ERROR" |} |},
       tr)
    /\ count is_Sdk_upload tr = 3%nat
    /\ count is_Sdk_sendMessages tr = 0%nat
    /\ count is_Call_sendOrderMessage tr = 0%nat
    /\ count is_Call_close tr = 1%nat.
Proof.
  apply (write_exhausted Sample.storage_down Sample.valid_request
           (Sample.payload "emp-123" "2024-01-01T10:00:00Z" "2024-01-07T10:00:00Z")
           Sample.valid_input).
  - reflexivity.
  - vm_compute. reflexivity.
  - reflexivity.
  - reflexivity.
  - left. reflexivity.
  - intros k _. discriminate.
  - reflexivity.
  - reflexivity.
Defined.

(** C7 does not hold as the specification states it: when closing the sender
    fails too, the error of the release replaces the storage error and the
    response has no code. *)
Lemma write_exhausted_release_fails :
  exists response,
    fst (handle (Sample.close_fails Sample.storage_down) Sample.valid_request)
    = Ok response
    /\ count is_Sdk_upload
         (snd (handle (Sample.close_fails Sample.storage_down)
                 Sample.valid_request)) = 3%nat
    /\ http_status response = 500
    /\ code (jsonBody response) <> Some "STORAGE_ERROR".
Proof.
  eexists. split; [vm_compute; reflexivity|].
  split; [vm_compute; reflexivity|]. split; [reflexivity | discriminate].
Qed.

(** ** C6 *)

(** C6, in the form that holds.  When the record was stored, all three sends
    fail and the release succeeds, the response is status 500 with the code
    "MESSAGING_ERROR"; the last upload of the request is the one that
    succeeded (nothing rolls the record back or writes it again), and
    [close] was entered once. *)
Theorem notification_exhausted (env : Env) (request : HttpRequest)
    (input : JsValue) (data : CreateOrderRequest) :
  json request = Resolves input ->
  safeParse (CreateOrderSchema env) input = inl data ->
  BlobServiceClient_fromConnectionString env
    (env_or_empty (AzureWebJobsStorage env)) = None ->
  ServiceBusClient_new env
    (env_or_empty (ServiceBusConnectionString env)) = None ->
  createIfNotExists env 0%nat = None \/ createIfNotExists env 1%nat = None ->
  upload env 0%nat = None \/ upload env 1%nat = None \/ upload env 2%nat = None ->
  (forall k, (k < 3)%nat -> sendMessages env k <> None) ->
  sender_close env 0%nat = None ->
  client_close env 0%nat = None ->
  exists tr k,
    handle env request
    = (Ok {| http_status := 500;
             jsonBody := {| success := false; orderId := None;
                            message := "Failed to send order message";
                            errors := None; code := Some "MESSAGING_ERROR" |} |},
       tr)
    /\ count is_Sdk_sendMessages tr = 3%nat
    /\ count is_Sdk_upload tr = S k /\ upload env k = None
    /\ count is_Call_close tr = 1%nat.
Proof.
  intros Ej Ev Eb Es Hinit Hup Hsend Hsc Hcc.
  destruct (handle_reached env request input data Ej
              (safeParse_truthy _ _ _ Ev) Ev Eb Es Hsc Hcc)
    as (tr & Hrun & Hu & Hs & Hc & Hclose).
  destruct (init_within_two env Hinit) as (j & Hj).
  assert (Hstore : exists k, first_success (upload env) 0 3 = Some k).
  { destruct Hup as [H|[H|H]];
      [ apply (first_success_Some _ 3 0 0) | apply (first_success_Some _ 3 0 1)
      | apply (first_success_Some _ 3 0 2) ]; (lia || exact H). }
  destruct Hstore as (k & Hk).
  assert (Hnone : first_success (sendMessages env) 0 3 = None)
    by (apply first_success_None; intros i Hi; now apply Hsend).
  unfold stage_outcome, uploads_made, sends_made, calls_made in *.
  change (count is_Sdk_createIfNotExists []) with 0%nat in *.
  change (count is_Sdk_upload []) with 0%nat in *.
  change (count is_Sdk_sendMessages []) with 0%nat in *.
  rewrite Hj, Hk, Hnone in *.
  exists tr, k. destruct (first_success_spec _ _ _ _ Hk) as [_ Hok].
  repeat split; assumption.
Qed.

(** The sample request against a service bus that refuses every send. *)
Lemma notification_exhausted_witness :
  exists tr k,
    handle Sample.bus_down Sample.valid_request
    = (Ok {| http_status := 500;
             jsonBody := {| success := false; orderId := None;
                            message := "Failed to send order message";
                            errors := None; code := Some "MESSAGING_ERROR" |} |},
       tr)
    /\ count is_Sdk_sendMessages tr = 3%nat
    /\ count is_Sdk_upload tr = S k /\ upload Sample.bus_down k = None
    /\ count is_Call_close tr = 1%nat.
Proof.
  apply (notification_exhausted Sample.bus_down Sample.valid_request
           (Sample.payload "emp-123" "2024-01-01T10:00:00Z" "2024-01-07T10:00:00Z")
           Sample.valid_input).
  - reflexivity.
  - vm_compute. reflexivity.
  - reflexivity.
  - reflexivity.
  - left. reflexivity.
  - left. reflexivity.
  - intros k _. discriminate.
  - reflexivity.
  - reflexivity.
Defined.

(** C6 does not hold as the specification states it: when closing the sender
    fails too, the error of the release replaces the messaging error and the
    response has no code. *)
Lemma notification_exhausted_release_fails :
  exists response,
    fst (handle (Sample.close_fails Sample.bus_down) Sample.valid_request)
    = Ok response
    /\ count is_Sdk_sendMessages
         (snd (handle (Sample.close_fails Sample.bus_down)
                 Sample.valid_request)) = 3%nat
    /\ http_status response = 500
    /\ code (jsonBody response) <> Some "MESSAGING_ERROR".
Proof.
  eexists. split; [vm_compute; reflexivity|].
  split; [vm_compute; reflexivity|]. split; [reflexivity | discriminate].
Qed.

(** ** C5 *)

(** Answers a request whose [try] block is known to throw. *)
Ltac answer_failure env :=
  match goal with
  | |- context [failure_response env ?st trace_context ?err ?w] =>
      let w2 := fresh "w" in
      let Hf := fresh "Hf" in
      let Happ := fresh "Happ" in
      destruct (failure_response_run env st err w) as (w2 & Hf & Happ);
      rewrite Hf; exists w2; split; [reflexivity|];
      rewrite (only_count log_event is_Call_initializeContainer _ w2
                 ltac:(disjoint) Happ),
        (only_count log_event is_Sdk_createIfNotExists _ w2
           ltac:(disjoint) Happ);
      split; reflexivity
  end.

(** C5.  When the construction of the storage client, or after it of the
    service-bus client, throws an error of the SDK (as it does for a missing
    connection string), a valid request is answered with status 500 and
    "Internal server error" and no machine code at all; the retry engine is
    not entered. *)
Theorem client_construction_failure_is_unclassified (env : Env)
    (request : HttpRequest) (input : JsValue) (data : CreateOrderRequest)
    (name msg : string) :
  json request = Resolves input ->
  safeParse (CreateOrderSchema env) input = inl data ->
  BlobServiceClient_fromConnectionString env
    (env_or_empty (AzureWebJobsStorage env)) = Some (Error name msg)
  \/ (BlobServiceClient_fromConnectionString env
        (env_or_empty (AzureWebJobsStorage env)) = None
      /\ ServiceBusClient_new env
           (env_or_empty (ServiceBusConnectionString env))
         = Some (Error name msg)) ->
  exists tr,
    handle env request
    = (Ok {| http_status := 500;
             jsonBody := {| success := false; orderId := None;
                            message := "Internal server error";
                            errors := None; code := None |} |}, tr)
    /\ count is_Call_initializeContainer tr = 0%nat
    /\ count is_Sdk_createIfNotExists tr = 0%nat.
Proof.
  intros Ej Ev Hctor.
  pose proof (safeParse_truthy _ _ _ Ev) as Ef.
  unfold handle, processOrder.
  erewrite bind_Ok by reflexivity. erewrite bind_Ok by reflexivity.
  destruct Hctor as [Eb | [Eb Es]].
  - erewrite try_catch_Throw.
    2:{ erewrite bind_Ok by (eapply parseRequestBody_Resolves; eauto).
        erewrite bind_Ok by (eapply validateInput_inl; eauto).
        erewrite bind_Ok by reflexivity. erewrite bind_Ok by reflexivity.
        unfold new_StorageService at 1. rewrite Eb.
        erewrite bind_Throw by reflexivity. reflexivity. }
    answer_failure env.
  - erewrite try_catch_Throw.
    2:{ erewrite bind_Ok by (eapply parseRequestBody_Resolves; eauto).
        erewrite bind_Ok by (eapply validateInput_inl; eauto).
        erewrite bind_Ok by reflexivity. erewrite bind_Ok by reflexivity.
        unfold new_StorageService at 1. rewrite Eb.
        erewrite bind_Ok by reflexivity.
        unfold new_MessagingService at 1. rewrite Es.
        erewrite bind_Throw by reflexivity. reflexivity. }
    answer_failure env.
Qed.

(** The valid sample request with the storage connection string unset. *)
Lemma missing_storage_setting_is_unclassified :
  exists tr,
    handle Sample.no_storage_setting Sample.valid_request
    = (Ok {| http_status := 500;
             jsonBody := {| success := false; orderId := None;
                            message := "Internal server error";
                            errors := None; code := None |} |}, tr)
    /\ count is_Call_initializeContainer tr = 0%nat
    /\ count is_Sdk_createIfNotExists tr = 0%nat.
Proof.
  apply (client_construction_failure_is_unclassified Sample.no_storage_setting
           Sample.valid_request
           (Sample.payload "emp-123" "2024-01-01T10:00:00Z"
              "2024-01-07T10:00:00Z")
           Sample.valid_input "Error" "Invalid storage connection string").
  - reflexivity.
  - vm_compute. reflexivity.
  - left. reflexivity.
Defined.

(** ** C10 *)

(** The pipeline never reads [SKIP_SERVICE_BUS]: a request is handled the
    same whatever its value. *)
Lemma SKIP_SERVICE_BUS_is_not_read (env : Env) (flag : option string)
    (request : HttpRequest) :
  handle (with_SKIP_SERVICE_BUS flag env) request = handle env request.
Proof. reflexivity. Qed.

(** C10.  With [SKIP_SERVICE_BUS] set to "true" and a service bus that
    refuses every send, the valid sample request still makes three sends and
    is answered with status 500 and the code "MESSAGING_ERROR". *)
Theorem bypass_flag_does_not_skip_notification :
  fst (handle (with_SKIP_SERVICE_BUS (Some "true") Sample.bus_down)
         Sample.valid_request)
  = Ok {| http_status := 500;
          jsonBody := {| success := false; orderId := None;
                         message := "Failed to send order message";
                         errors := None; code := Some "MESSAGING_ERROR" |} |}
  /\ count is_Sdk_sendMessages
       (snd (handle (with_SKIP_SERVICE_BUS (Some "true") Sample.bus_down)
               Sample.valid_request)) = 3%nat.
Proof. split; vm_compute; reflexivity. Qed.

(* ================================================================== *)
(** * Further properties of the retry engine *)
(* ================================================================== *)

Section RetryMore.
Context {W T : Type}.
Variable operation : M W T.
Variable config : RetryOptions.

(** A run that returns ends with the attempt that succeeded, after failures
    only. *)
Lemma run_shape_success attempt lastError r t :
  run_shape operation config attempt lastError r t ->
  forall v, r = Ok v ->
  exists errs h0,
    attempts t = (map Throw errs ++ [Ok v])%list
    /\ t = (h0 ++ [Attempt (Ok v)])%list
    /\ Z.of_nat (length errs) <= maxAttempts config - attempt.
Proof.
  intros H.
  induction H as [a l Hlt | a l v0 Hle Hp | a l e Heq Hp
                 | a l e e' Hlt Hp Hm | a l e m r h Hlt Hp Hm Hrun IH];
    intros v Hr; try discriminate.
  - injection Hr as ->. exists [], []. cbn. repeat split; lia.
  - destruct (IH v Hr) as (errs & h0 & Ha & Ht & Hlen).
    exists (e :: errs),
      (Attempt (Throw e) :: Slept (backoff_delay config a) :: h0).
    cbn [attempts map app length]. rewrite Ha, Ht. repeat split. lia.
Qed.

(** The attempts stay within what the policy leaves. *)
Lemma run_shape_budget attempt lastError r t :
  run_shape operation config attempt lastError r t ->
  Z.of_nat (length (attempts t)) <= Z.max 0 (maxAttempts config - attempt + 1).
Proof.
  intros H.
  induction H as [a l Hlt | a l v0 Hle Hp | a l e Heq Hp
                 | a l e e' Hlt Hp Hm | a l e m r h Hlt Hp Hm Hrun IH];
    cbn [attempts length]; lia.
Qed.

(** Attempts and sleeps alternate: the entries at the even places are
    attempts, those at the odd places are sleeps, and a sleep stands between
    an attempt that failed and the next attempt. *)
Lemma run_shape_alternates attempt lastError r t :
  run_shape operation config attempt lastError r t ->
  (forall i x, nth_error t (2 * i) = Some x -> exists r', x = Attempt r')
  /\ (forall i x, nth_error t (2 * i + 1) = Some x ->
        (exists d, x = Slept d)
        /\ (exists e, nth_error t (2 * i) = Some (Attempt (Throw e)))
        /\ (exists r', nth_error t (2 * i + 2) = Some (Attempt r'))).
Proof.
  intros H.
  induction H as [a l Hlt | a l v0 Hle Hp | a l e Heq Hp
                 | a l e e' Hlt Hp Hm | a l e m r h Hlt Hp Hm Hrun IH].
  - split; intros i x Hx; [destruct (2 * i)%nat | destruct (2 * i + 1)%nat];
      discriminate Hx.
  - split; intros i x Hx.
    + destruct i as [|i]; [injection Hx as <-; eauto|].
      replace (2 * S i)%nat with (S (S (2 * i))) in Hx by lia. discriminate Hx.
    + replace (2 * i + 1)%nat with (S (2 * i)) in Hx by lia.
      destruct (2 * i)%nat; discriminate Hx.
  - split; intros i x Hx.
    + destruct i as [|i]; [injection Hx as <-; eauto|].
      replace (2 * S i)%nat with (S (S (2 * i))) in Hx by lia. discriminate Hx.
    + replace (2 * i + 1)%nat with (S (2 * i)) in Hx by lia.
      destruct (2 * i)%nat; discriminate Hx.
  - split; intros i x Hx.
    + destruct i as [|i]; [injection Hx as <-; eauto|].
      replace (2 * S i)%nat with (S (S (2 * i))) in Hx by lia. discriminate Hx.
    + replace (2 * i + 1)%nat with (S (2 * i)) in Hx by lia.
      destruct (2 * i)%nat; discriminate Hx.
  - destruct IH as (IHeven & IHodd).
    destruct (run_shape_head _ _ _ _ _ _ Hrun) as (r1 & t1 & Eh); [lia|].
    split; intros i x Hx.
    + destruct i as [|i]; [injection Hx as <-; eauto|].
      replace (2 * S i)%nat with (S (S (2 * i))) in Hx by lia.
      exact (IHeven i x Hx).
    + destruct i as [|i].
      * injection Hx as <-. split; [eauto|]. split; [now exists e|].
        exists r1. cbn. now rewrite Eh.
      * replace (2 * S i + 1)%nat with (S (S (2 * i + 1))) in Hx by lia.
        destruct (IHodd i x Hx) as (Hd & He & Hr).
        split; [exact Hd|]. split.
        -- replace (2 * S i)%nat with (S (S (2 * i))) by lia. exact He.
        -- replace (2 * S i + 2)%nat with (S (S (2 * i + 2))) by lia. exact Hr.
Qed.

(** An attempt that throws [undefined] and is not the last the policy allows
    ends the run: nothing follows it, and what is thrown is the [TypeError]
    of reading the message. *)
Lemma run_shape_undefined attempt lastError r t :
  run_shape operation config attempt lastError r t ->
  forall h1 h2,
    t = (h1 ++ Attempt (Throw Undefined) :: h2)%list ->
    attempt + Z.of_nat (length (attempts h1)) < maxAttempts config ->
    h2 = []
    /\ r = Throw (Error "TypeError"
                    "Cannot read properties of undefined (reading 'message')").
Proof.
  intros H.
  induction H as [a l Hlt | a l v0 Hle Hp | a l e Heq Hp
                 | a l e e' Hlt Hp Hm | a l e m r h Hlt Hp Hm Hrun IH];
    intros h1 h2 Et Hk.
  - destruct h1; discriminate Et.
  - destruct h1 as [|x [|y h1]]; discriminate Et.
  - destruct h1 as [|x [|y h1]]; try discriminate Et.
    cbn in Hk. lia.
  - destruct h1 as [|x [|y h1]]; try discriminate Et.
    injection Et as -> <-. cbn in Hm. injection Hm as <-. auto.
  - destruct h1 as [|x h1].
    + injection Et as -> _. discriminate Hm.
    + injection Et as <- Et. destruct h1 as [|y h1]; [discriminate Et|].
      injection Et as <- Et. cbn [attempts length] in Hk.
      apply (IH h1 h2 Et). lia.
Qed.
End RetryMore.

(** X1.  A run of [withRetry] that returns a value returns the value of the
    last attempt it made; every attempt before it failed, there were fewer
    failures than [maxAttempts], and nothing follows the attempt that
    succeeded: no further attempt and no sleep. *)
Theorem withRetry_returns_first_success {W T} (context : InvocationContext W)
    (setTimeout : Z -> W -> W) (operation : M W T)
    (options : PartialRetryOptions) (w : W) (v : T) (w' : W)
    (h : list (Probe T)) :
  observe context setTimeout operation options w = (Ok v, (w', h)) ->
  withRetry setTimeout operation options context w = (Ok v, w')
  /\ exists errs h0,
       attempts h = (map Throw errs ++ [Ok v])%list
       /\ h = (h0 ++ [Attempt (Ok v)])%list
       /\ Z.of_nat (length errs)
          < maxAttempts (spread DEFAULT_RETRY_OPTIONS options).
Proof.
  intros Hrun. split; [exact (observe_faithful _ _ _ _ _ _ _ _ Hrun)|].
  destruct (observe_shape context setTimeout operation options w)
    as (r0 & w0 & h0 & Hrun0 & Hshape).
  rewrite Hrun in Hrun0. injection Hrun0 as <- <- <-.
  destruct (run_shape_success _ _ _ _ _ _ Hshape v eq_refl)
    as (errs & h1 & Ha & Ht & Hlen).
  exists errs, h1. repeat split; auto. lia.
Qed.

Lemma withRetry_returns_first_success_witness :
  withRetry Sample.no_wait Sample2.fails_twice no_options Sample.silent 0%nat
  = (Ok 42, 3%nat)
  /\ exists errs h0,
       attempts (snd (snd (observe Sample.silent Sample.no_wait
                             Sample2.fails_twice no_options 0%nat)))
       = (map Throw errs ++ [Ok 42])%list
       /\ snd (snd (observe Sample.silent Sample.no_wait
                      Sample2.fails_twice no_options 0%nat))
          = (h0 ++ [Attempt (Ok 42)])%list
       /\ Z.of_nat (length errs)
          < maxAttempts (spread DEFAULT_RETRY_OPTIONS no_options).
Proof.
  apply (withRetry_returns_first_success Sample.silent Sample.no_wait
           Sample2.fails_twice no_options 0%nat 42 3%nat).
  reflexivity.
Defined.

(** X2.  Whatever the operation does, a run of [withRetry] under a policy with
    an integer [maxAttempts] makes at most [maxAttempts] attempts (none for a
    [maxAttempts] below one), and its history alternates attempts and sleeps,
    beginning with an attempt: every sleep comes directly after an attempt
    that failed and directly before another attempt, so that the run sleeps
    once between two attempts and never after its last attempt. *)
Theorem withRetry_attempts_and_sleeps_alternate {W T}
    (context : InvocationContext W) (setTimeout : Z -> W -> W)
    (operation : M W T) (options : PartialRetryOptions) (w : W) :
  let config := spread DEFAULT_RETRY_OPTIONS options in
  let h := snd (snd (observe context setTimeout operation options w)) in
  Z.of_nat (length (attempts h)) <= Z.max 0 (maxAttempts config)
  /\ (forall i x, nth_error h (2 * i) = Some x -> exists r, x = Attempt r)
  /\ (forall i x, nth_error h (2 * i + 1) = Some x ->
        (exists d, x = Slept d)
        /\ (exists e, nth_error h (2 * i) = Some (Attempt (Throw e)))
        /\ (exists r, nth_error h (2 * i + 2) = Some (Attempt r))).
Proof.
  intros config h.
  destruct (observe_shape context setTimeout operation options w)
    as (r0 & w0 & h0 & Hrun0 & Hshape).
  subst h. rewrite Hrun0. cbn [snd].
  pose proof (run_shape_budget _ _ _ _ _ _ Hshape) as Hn.
  destruct (run_shape_alternates _ _ _ _ _ _ Hshape) as (Heven & Hodd).
  fold config in Hn. split; [lia|]. split; [exact Heven | exact Hodd].
Qed.

(** X3.  With [maxAttempts] at zero or below the operation is never invoked:
    [withRetry] throws [undefined], the [lastError] that was never assigned,
    and leaves the world as it found it. *)
Theorem withRetry_without_attempts {W T} (context : InvocationContext W)
    (setTimeout : Z -> W -> W) (operation : M W T)
    (options : PartialRetryOptions) (w : W) :
  maxAttempts (spread DEFAULT_RETRY_OPTIONS options) <= 0 ->
  withRetry setTimeout operation options context w = (Throw Undefined, w)
  /\ observe context setTimeout operation options w
     = (Throw Undefined, (w, [])).
Proof.
  intros Hle. unfold observe, withRetry.
  replace (Z.to_nat (maxAttempts (spread DEFAULT_RETRY_OPTIONS options)))
    with O by lia.
  split; reflexivity.
Qed.

Lemma withRetry_without_attempts_witness :
  withRetry Sample.no_wait Sample.always_fails (only_maxAttempts 0)
            Sample.silent 0%nat
  = (Throw Undefined, 0%nat)
  /\ observe Sample.silent Sample.no_wait Sample.always_fails
             (only_maxAttempts 0) 0%nat
     = (Throw Undefined, (0%nat, [])).
Proof.
  apply (withRetry_without_attempts Sample.silent Sample.no_wait
           Sample.always_fails (only_maxAttempts 0) 0%nat).
  cbn. lia.
Defined.

(** X4.  An operation that throws [undefined] on an attempt that is not the
    last the policy allows is not retried: in the history of any run, an
    attempt that threw [undefined] before [maxAttempts] was reached is the
    last entry (no sleep and no attempt follow it), and [withRetry] throws
    the [TypeError] of reading [lastError.message]. *)
Theorem withRetry_thrown_undefined {W T} (context : InvocationContext W)
    (setTimeout : Z -> W -> W) (operation : M W T)
    (options : PartialRetryOptions) (w : W) (r : Result T) (w' : W)
    (h h1 h2 : list (Probe T)) :
  observe context setTimeout operation options w = (r, (w', h)) ->
  h = (h1 ++ Attempt (Throw Undefined) :: h2)%list ->
  Z.of_nat (length (attempts h1)) + 1
  < maxAttempts (spread DEFAULT_RETRY_OPTIONS options) ->
  h2 = []
  /\ withRetry setTimeout operation options context w
     = (Throw (Error "TypeError"
                 "Cannot read properties of undefined (reading 'message')"),
        w').
Proof.
  intros Hrun Eh Hk.
  destruct (observe_shape context setTimeout operation options w)
    as (r0 & w0 & h0 & Hrun0 & Hshape).
  rewrite Hrun in Hrun0. injection Hrun0 as <- <- <-.
  destruct (run_shape_undefined _ _ _ _ _ _ Hshape h1 h2 Eh) as (-> & Er);
    [lia|].
  split; [reflexivity|]. rewrite <- Er.
  exact (observe_faithful _ _ _ _ _ _ _ _ Hrun).
Qed.

Lemma withRetry_thrown_undefined_witness :
  @nil (Probe Z) = []
  /\ withRetry Sample.no_wait Sample2.undefined_on_second no_options
               Sample.silent 0%nat
     = (Throw (Error "TypeError"
                 "Cannot read properties of undefined (reading 'message')"),
        2%nat).
Proof.
  apply (withRetry_thrown_undefined Sample.silent Sample.no_wait
           Sample2.undefined_on_second no_options 0%nat
           (Throw (Error "TypeError"
                     "Cannot read properties of undefined (reading 'message')"))
           2%nat
           [Attempt (Throw (Error "Error" "Service unavailable")); Slept 1000;
            Attempt (Throw Undefined)]
           [Attempt (Throw (Error "Error" "Service unavailable")); Slept 1000]
           []).
  - reflexivity.
  - reflexivity.
  - cbn. lia.
Defined.

(** X5.  With the default base delay, multiplier and cap (a caller that passes
    [maxAttempts] only, as [processOrder] does), the delay after a failed
    attempt is 1000, 2000, 4000 and 8000 ms after the first four attempts and
    10000 ms, the cap, after every later one. *)
Theorem default_backoff_schedule (options : PartialRetryOptions) (k : Z) :
  p_baseDelay options = None -> p_maxDelay options = None ->
  p_backoffMultiplier options = None ->
  1 <= k ->
  backoff_delay (spread DEFAULT_RETRY_OPTIONS options) k
  = if k =? 1 then 1000 else if k =? 2 then 2000 else if k =? 3 then 4000
    else if k =? 4 then 8000 else 10000.
Proof.
  intros H1 H2 H3 Hk. unfold backoff_delay, spread.
  cbn [baseDelay maxDelay backoffMultiplier]. rewrite H1, H2, H3.
  cbn [or_default DEFAULT_RETRY_OPTIONS baseDelay maxDelay backoffMultiplier].
  destruct (Z.eqb_spec k 1) as [->|N1]; [reflexivity|].
  destruct (Z.eqb_spec k 2) as [->|N2]; [reflexivity|].
  destruct (Z.eqb_spec k 3) as [->|N3]; [reflexivity|].
  destruct (Z.eqb_spec k 4) as [->|N4]; [reflexivity|].
  apply Z.min_r.
  assert (Hpow : 2 ^ 4 <= 2 ^ (k - 1)) by (apply Z.pow_le_mono_r; lia).
  change (2 ^ 4) with 16 in Hpow. lia.
Qed.

Lemma default_backoff_schedule_witness :
  backoff_delay (spread DEFAULT_RETRY_OPTIONS (only_maxAttempts 3)) 2
  = if 2 =? 1 then 1000 else if 2 =? 2 then 2000 else if 2 =? 3 then 4000
    else if 2 =? 4 then 8000 else 10000.
Proof.
  apply (default_backoff_schedule (only_maxAttempts 3) 2);
    try reflexivity; lia.
Defined.

(* ================================================================== *)
(** * Every request, whatever the environment *)
(* ================================================================== *)

Lemma appends_Forall (P : Event -> Prop) (w w' : World) :
  Forall P w -> appends P w w' -> Forall P w'.
Proof. intros Hw (t & -> & Ht). now apply Forall_app. Qed.

(** The release, entered with no closing call made yet. *)
Lemma close_cases (env : Env) (this : MessagingService) (w : World) :
  count is_Sdk_sender_close w = 0%nat ->
  count is_Sdk_client_close w = 0%nat ->
  close env this w
  = (match sender_close env 0 with
     | Some e => Throw e
     | None => match client_close env 0 with
               | Some e => Throw e
               | None => Ok tt
               end
     end, (w ++ release_events env)%list).
Proof.
  intros C1 C2. unfold close, bind, effect, external, release_events.
  rewrite count_emit, C1. cbn [is_Sdk_sender_close Nat.add].
  destruct (sender_close env 0).
  - unfold emit. now rewrite <- !app_assoc.
  - rewrite !count_emit, C2. cbn [is_Sdk_client_close Nat.add].
    destruct (client_close env 0); unfold emit; now rewrite <- !app_assoc.
Qed.

(** A request that reaches the gateway stage: its trace is that of the front,
    of the stage, of the release and of the logging of a failure, and its
    response is the outcome of the stage unless the release fails. *)
Lemma handle_reaching (env : Env) (request : HttpRequest) (input : JsValue)
    (data : CreateOrderRequest) :
  json request = Resolves input ->
  safeParse (CreateOrderSchema env) input = inl data ->
  BlobServiceClient_fromConnectionString env
    (env_or_empty (AzureWebJobsStorage env)) = None ->
  ServiceBusClient_new env
    (env_or_empty (ServiceBusConnectionString env)) = None ->
  exists w1 tlog,
    gateway_stage env (the_storageService env) (the_messagingService env)
                  (first_order env data) (Date_now env 0) trace_context
                  (front_trace env data)
    = (stage_outcome env (first_order env data) [], w1)
    /\ handle env request
       = (Ok (response_of
                (released env (stage_outcome env (first_order env data) []))),
          ((w1 ++ release_events env) ++ tlog)%list)
    /\ Forall (only log_event) tlog.
Proof.
  intros Ej Ev Eb Es. pose proof (safeParse_truthy _ _ _ Ev) as Ef.
  destruct (gateway_stage_run env (the_storageService env)
              (the_messagingService env) (first_order env data)
              (Date_now env 0) (front_trace env data))
    as (w1 & Hrun & Happ & _).
  replace (stage_outcome env (first_order env data) (front_trace env data))
    with (stage_outcome env (first_order env data) []) in Hrun by reflexivity.
  assert (Hc1 : count is_Sdk_sender_close w1 = 0%nat)
    by (rewrite (only_count stage_event is_Sdk_sender_close
                   (front_trace env data) w1);
        [reflexivity | disjoint | exact Happ]).
  assert (Hc2 : count is_Sdk_client_close w1 = 0%nat)
    by (rewrite (only_count stage_event is_Sdk_client_close
                   (front_trace env data) w1);
        [reflexivity | disjoint | exact Happ]).
  exists w1.
  cut (exists tlog,
         handle env request
         = (Ok (response_of
                  (released env (stage_outcome env (first_order env data) []))),
            ((w1 ++ release_events env) ++ tlog)%list)
         /\ Forall (only log_event) tlog).
  { intros (tlog & H1 & H2). exists tlog. auto. }
  unfold handle, processOrder.
  erewrite bind_Ok by reflexivity. erewrite bind_Ok by reflexivity.
  unfold try_catch.
  erewrite (bind_Ok (parseRequestBody request))
    by (eapply parseRequestBody_Resolves; eauto).
  erewrite (bind_Ok (validateInput env input))
    by (eapply validateInput_inl; eauto).
  erewrite (bind_Ok (createOrder env data)) by reflexivity.
  erewrite (bind_Ok (effect _)) by reflexivity.
  unfold new_StorageService at 1. rewrite Eb.
  erewrite (bind_Ok (fun _ => (Ok _, _))) by reflexivity.
  unfold new_MessagingService at 1. rewrite Es.
  erewrite (bind_Ok (fun _ => (Ok _, _))) by reflexivity.
  unfold try_finally.
  match goal with
  | |- context [gateway_stage env ?ss ?ms ?o ?st trace_context ?w] =>
      change (gateway_stage env ss ms o st trace_context w)
        with (gateway_stage env (the_storageService env)
                (the_messagingService env) (first_order env data)
                (Date_now env 0) trace_context (front_trace env data))
  end.
  rewrite Hrun.
  rewrite (close_cases env _ w1 Hc1 Hc2). unfold released.
  destruct (sender_close env 0) as [e|] eqn:Esc;
    [|destruct (client_close env 0) as [e|] eqn:Ecc;
      [|destruct (stage_outcome env (first_order env data) [])
          as [r|e] eqn:Eo]].
  3:{ exists []. rewrite app_nil_r. split; [reflexivity | constructor]. }
  all: match goal with
       | |- context [failure_response ?en ?st trace_context ?err ?w] =>
           destruct (failure_response_run en st err w)
             as (w2 & Hf & (t & -> & Ht));
           rewrite Hf; exists t; split; [reflexivity | exact Ht]
       end.
Qed.

Lemma appends_only_weaken (b c : Event -> bool) (w w' : World) :
  (forall e, b e = true -> c e = true) ->
  appends (only b) w w' -> appends (only c) w w'.
Proof.
  intros H (t & -> & Ht). exists t. split; [reflexivity|].
  eapply Forall_impl; [|exact Ht]. intros e. apply H.
Qed.

Lemma log_event_front (e : Event) : log_event e = true -> front_event e = true.
Proof. now destruct e. Qed.

Ltac answer_early :=
  match goal with
  | |- context [failure_response ?en ?st trace_context ?err ?w] =>
      let w2 := fresh "w" in
      let Hf := fresh "Hf" in
      let Happ := fresh "Happ" in
      destruct (failure_response_run en st err w) as (w2 & Hf & Happ);
      rewrite Hf; exists w2; split; [reflexivity|];
      apply (appends_Forall (only front_event) w w2);
      [repeat constructor
      | exact (appends_only_weaken _ _ _ _ log_event_front Happ)]
  end.

(** A request that does not reach the gateway stage: it is answered with the
    classification of what stopped it, and its trace holds clock readings,
    log lines, the identifier and the construction of the services only. *)
Lemma handle_early (env : Env) (request : HttpRequest) :
  reaches_gateways env request = false ->
  exists tr,
    handle env request
    = (Ok (response_of (expected_outcome env request)), tr)
    /\ Forall (only front_event) tr.
Proof.
  unfold reaches_gateways, expected_outcome. intros Hr.
  unfold handle, processOrder.
  erewrite bind_Ok by reflexivity. erewrite bind_Ok by reflexivity.
  destruct (json request) as [input|n m] eqn:Ej.
  2:{ erewrite try_catch_Throw.
      2:{ erewrite bind_Throw by (eapply parseRequestBody_Rejects; eauto).
          reflexivity. }
      answer_early. }
  destruct (falsy input) eqn:Ef.
  { erewrite try_catch_Throw.
    2:{ erewrite bind_Throw by (eapply parseRequestBody_falsy; eauto).
        reflexivity. }
    answer_early. }
  destruct (safeParse (CreateOrderSchema env) input) as [data|issues] eqn:Ev.
  2:{ erewrite try_catch_Throw.
      2:{ erewrite bind_Ok by (eapply parseRequestBody_Resolves; eauto).
          erewrite bind_Throw by (eapply validateInput_inr; eauto).
          reflexivity. }
      answer_early. }
  destruct (BlobServiceClient_fromConnectionString env
              (env_or_empty (AzureWebJobsStorage env))) as [e|] eqn:Eb.
  { erewrite try_catch_Throw.
    2:{ erewrite bind_Ok by (eapply parseRequestBody_Resolves; eauto).
        erewrite bind_Ok by (eapply validateInput_inl; eauto).
        erewrite bind_Ok by reflexivity. erewrite bind_Ok by reflexivity.
        unfold new_StorageService at 1. rewrite Eb.
        erewrite bind_Throw by reflexivity. reflexivity. }
    answer_early. }
  destruct (ServiceBusClient_new env
              (env_or_empty (ServiceBusConnectionString env))) as [e|] eqn:Es.
  { erewrite try_catch_Throw.
    2:{ erewrite bind_Ok by (eapply parseRequestBody_Resolves; eauto).
        erewrite bind_Ok by (eapply validateInput_inl; eauto).
        erewrite bind_Ok by reflexivity. erewrite bind_Ok by reflexivity.
        unfold new_StorageService at 1. rewrite Eb.
        erewrite bind_Ok by reflexivity.
        unfold new_MessagingService at 1. rewrite Es.
        erewrite bind_Throw by reflexivity. reflexivity. }
    answer_early. }
  discriminate Hr.
Qed.

(** The response to any request is the one that [expected_outcome] decides. *)
Lemma handle_decides (env : Env) (request : HttpRequest) :
  fst (handle env request) = Ok (response_of (expected_outcome env request)).
Proof.
  destruct (reaches_gateways env request) eqn:Hr.
  - unfold reaches_gateways in Hr. unfold expected_outcome.
    destruct (json request) as [input|n m] eqn:Ej; [|discriminate].
    destruct (falsy input) eqn:Ef; [discriminate|].
    destruct (safeParse (CreateOrderSchema env) input) as [data|issues] eqn:Ev;
      [|discriminate].
    destruct (BlobServiceClient_fromConnectionString env
                (env_or_empty (AzureWebJobsStorage env))) as [e|] eqn:Eb;
      [discriminate|].
    destruct (ServiceBusClient_new env
                (env_or_empty (ServiceBusConnectionString env))) as [e|] eqn:Es;
      [discriminate|].
    destruct (handle_reaching env request input data Ej Ev Eb Es)
      as (w1 & tlog & _ & H & _).
    now rewrite H.
  - destruct (handle_early env request Hr) as (tr & H & _). now rewrite H.
Qed.

(** What reaching the gateway stage means. *)
Lemma reaches_gateways_true (env : Env) (request : HttpRequest) :
  reaches_gateways env request = true ->
  exists input data,
    json request = Resolves input
    /\ safeParse (CreateOrderSchema env) input = inl data
    /\ BlobServiceClient_fromConnectionString env
         (env_or_empty (AzureWebJobsStorage env)) = None
    /\ ServiceBusClient_new env
         (env_or_empty (ServiceBusConnectionString env)) = None.
Proof.
  unfold reaches_gateways. intros Hr.
  destruct (json request) as [input|n m] eqn:Ej; [|discriminate].
  destruct (falsy input) eqn:Ef; [discriminate|].
  destruct (safeParse (CreateOrderSchema env) input) as [data|issues] eqn:Ev;
    [|discriminate].
  destruct (BlobServiceClient_fromConnectionString env
              (env_or_empty (AzureWebJobsStorage env))) as [e|] eqn:Eb;
    [discriminate|].
  destruct (ServiceBusClient_new env
              (env_or_empty (ServiceBusConnectionString env))) as [e|] eqn:Es;
    [discriminate|].
  exists input, data. auto.
Qed.

(* ================================================================== *)
(** * What the gateway stage writes, how often, and how long it sleeps *)
(* ================================================================== *)

Section StageTrace.
Variable env : Env.

(** The events of [storeOrder] and [sendOrderMessage] carry the order they
    were given, under the name and with the metadata and message derived
    from it. *)
Lemma storeOrder_about this order :
  respects (appends (about order)) (storeOrder env this order trace_context).
Proof.
  unfold storeOrder.
  apply respects_bind;
    [apply appends_trans | apply respects_emit; reflexivity |].
  intros _. apply respects_try_catch; [apply appends_trans | |].
  - apply respects_bind; [apply appends_trans | |].
    + apply respects_external. cbn. repeat split.
    + intros _. apply respects_log. intros; exact I.
  - intros e. apply respects_bind; [apply appends_trans | |].
    + apply respects_error. intros; exact I.
    + intros _. apply respects_throw, appends_refl.
Qed.

Lemma sendOrderMessage_about this order :
  respects (appends (about order))
           (sendOrderMessage env this order trace_context).
Proof.
  unfold sendOrderMessage.
  apply respects_bind;
    [apply appends_trans | apply respects_emit; reflexivity |].
  intros _. apply respects_try_catch; [apply appends_trans | |].
  - apply respects_bind; [apply appends_trans | |].
    + apply respects_external. reflexivity.
    + intros _. apply respects_log. intros; exact I.
  - intros e. apply respects_bind; [apply appends_trans | |].
    + apply respects_error. intros; exact I.
    + intros _. apply respects_throw, appends_refl.
Qed.

Lemma gateway_stage_about ss ms order startTime :
  respects (appends (about order))
           (gateway_stage env ss ms order startTime trace_context).
Proof.
  unfold gateway_stage.
  apply respects_bind; [apply appends_trans | |].
  { apply respects_trace_withRetry; try (intros; exact I).
    apply respects_initializeContainer; exact I. }
  intros _. apply respects_bind; [apply appends_trans | |].
  { apply respects_trace_withRetry; try (intros; exact I).
    apply storeOrder_about. }
  intros _. apply respects_bind; [apply appends_trans | |].
  { apply respects_trace_withRetry; try (intros; exact I).
    apply sendOrderMessage_about. }
  intros _. apply respects_bind; [apply appends_trans | |].
  { apply respects_call_Date_now. exact I. }
  intros now. apply respects_bind; [apply appends_trans | |].
  { apply respects_log. intros; exact I. }
  intros _. apply respects_ret, appends_refl.
Qed.
End StageTrace.

(** ** Sleeping *)

Lemma delays_app (w t : World) :
  delays (w ++ t)%list = (delays w ++ delays t)%list.
Proof.
  induction w as [|e w IH]; [reflexivity|].
  destruct e; cbn; now rewrite IH.
Qed.

Lemma total_app (l m : list Z) : total (l ++ m)%list = total l + total m.
Proof.
  unfold total. induction l as [|x l IH]; cbn; [reflexivity | rewrite IH; lia].
Qed.

Lemma slept_app (w t : World) : slept (w ++ t)%list = slept w + slept t.
Proof. unfold slept. now rewrite delays_app, total_app. Qed.

Lemma slept_awake (t : World) : Forall awake t -> slept t = 0.
Proof.
  induction 1 as [|e t He _ IH]; [reflexivity|].
  destruct e; cbn in *; try exact IH. contradiction.
Qed.

Lemma appends_awake (w w' : World) : appends awake w w' -> slept w' = slept w.
Proof. intros (t & -> & Ht). rewrite slept_app, (slept_awake t Ht). lia. Qed.

Lemma slept_emit (e : Event) (w : World) :
  slept (emit e w) = slept w + match e with Timeout d => d | _ => 0 end.
Proof.
  unfold emit. rewrite slept_app. f_equal. destruct e; cbn; lia.
Qed.

Section Sleeping.
Context {T : Type}.
Variable operation : M World T.
Variable config : RetryOptions.
Hypothesis operation_awake : respects (appends awake) operation.
Hypothesis delay_nonneg : forall k, 0 <= backoff_delay config k.

Lemma sleep_budget_nonneg fuel : forall attempt,
  0 <= sleep_budget config attempt fuel.
Proof.
  induction fuel as [|fuel IH]; intros attempt; cbn [sleep_budget]; [lia|].
  destruct (attempt <? maxAttempts config); [|lia].
  specialize (IH (attempt + 1)). specialize (delay_nonneg attempt). lia.
Qed.

(** The loop sleeps no longer than the delays that lie before it. *)
Lemma retry_loop_slept fuel : forall attempt lastError w,
  slept (snd (retry_loop trace_context trace_setTimeout operation config fuel
                         attempt lastError w))
  <= slept w + sleep_budget config attempt fuel.
Proof.
  induction fuel as [|fuel IH]; intros attempt lastError w.
  - cbn [retry_loop sleep_budget]. unfold throw. cbn [snd]. lia.
  - pose proof (sleep_budget_nonneg (S fuel) attempt) as Hnn.
    cbn [retry_loop]. destruct (attempt <=? maxAttempts config) eqn:Hle;
      [|unfold throw; cbn [snd]; lia].
    unfold try_catch.
    pose proof (appends_awake _ _ (operation_awake w)) as Hop.
    destruct (operation w) as [[v|e] w1]; cbn [snd] in Hop; [cbn [snd]; lia|].
    destruct (attempt =? maxAttempts config) eqn:Heq.
    + unfold bind, effect, throw, error, trace_context. cbn [snd].
      rewrite slept_emit. lia.
    + destruct (message_of e) as [m|e']; [|unfold throw; cbn [snd]; lia].
      unfold bind at 1, effect at 1. unfold bind at 1, effect at 1.
      eapply Z.le_trans; [apply IH|].
      unfold warn, trace_context, trace_setTimeout. rewrite !slept_emit.
      cbn [sleep_budget].
      assert ((attempt <? maxAttempts config) = true) as ->
        by (apply Z.ltb_lt; apply Z.leb_le in Hle; apply Z.eqb_neq in Heq; lia).
      lia.
Qed.
End Sleeping.

Lemma default_delay_nonneg options k :
  p_baseDelay options = None -> p_maxDelay options = None ->
  p_backoffMultiplier options = None ->
  0 <= backoff_delay (spread DEFAULT_RETRY_OPTIONS options) k.
Proof.
  intros H1 H2 H3. unfold backoff_delay, spread.
  cbn [baseDelay maxDelay backoffMultiplier]. rewrite H1, H2, H3.
  cbn [or_default DEFAULT_RETRY_OPTIONS baseDelay maxDelay backoffMultiplier].
  apply Z.min_glb; [|lia].
  apply Z.mul_nonneg_nonneg; [lia|].
  destruct (Z_lt_le_dec (k - 1) 0) as [Hneg|Hpos].
  - rewrite Z.pow_neg_r by exact Hneg. lia.
  - apply Z.pow_nonneg. lia.
Qed.

Lemma withRetry_slept {T} (operation : M World T) (n : Z) (w : World) :
  respects (appends awake) operation ->
  slept (snd (withRetry trace_setTimeout operation (only_maxAttempts n)
                        trace_context w))
  <= slept w
     + sleep_budget (spread DEFAULT_RETRY_OPTIONS (only_maxAttempts n)) 1
                    (Z.to_nat n).
Proof.
  intros Hop. unfold withRetry.
  change (maxAttempts (spread DEFAULT_RETRY_OPTIONS (only_maxAttempts n)))
    with n.
  apply retry_loop_slept; [exact Hop|].
  intros k. now apply default_delay_nonneg.
Qed.

Lemma calls_made_le answer c n : (calls_made answer c n <= n)%nat.
Proof.
  unfold calls_made. destruct (first_success answer c n) as [j|] eqn:E; [|lia].
  apply first_success_spec in E. lia.
Qed.

Section StageBudget.
Variable env : Env.

(** The gateway stage sleeps at most 1 s for the container and 1 s + 2 s for
    each of the write and the notification. *)
Lemma gateway_stage_slept ss ms order startTime w :
  slept (snd (gateway_stage env ss ms order startTime trace_context w))
  <= slept w + 7000.
Proof.
  unfold gateway_stage. unfold bind at 1.
  pose proof (withRetry_slept (initializeContainer env ss) 2 w
                (respects_initializeContainer awake env ss I I)) as H1.
  change (sleep_budget _ 1 (Z.to_nat 2)) with 1000 in H1.
  destruct (withRetry trace_setTimeout (initializeContainer env ss) _ _ w)
    as [[u1|e1] w1]; cbn [snd] in *; [|lia].
  unfold bind at 1.
  pose proof (withRetry_slept (storeOrder env ss order trace_context) 3 w1
                (respects_storeOrder awake (fun _ _ => I) env ss order I
                   (fun _ _ _ => I))) as H2.
  change (sleep_budget _ 1 (Z.to_nat 3)) with 3000 in H2.
  destruct (withRetry trace_setTimeout (storeOrder env ss order trace_context)
              _ _ w1)
    as [[u2|e2] w2]; cbn [snd] in *; [|lia].
  unfold bind at 1.
  pose proof (withRetry_slept (sendOrderMessage env ms order trace_context) 3 w2
                (respects_sendOrderMessage awake (fun _ _ => I) env ms order I
                   (fun _ => I))) as H3.
  change (sleep_budget _ 1 (Z.to_nat 3)) with 3000 in H3.
  destruct (withRetry trace_setTimeout
              (sendOrderMessage env ms order trace_context) _ _ w2)
    as [[u3|e3] w3]; cbn [snd] in *; [|lia].
  unfold bind, call_Date_now, effect, ret, log, trace_context. cbn [snd].
  rewrite !slept_emit. lia.
Qed.

(** The calls of [createIfNotExists] of the gateway stage. *)
Lemma gateway_stage_inits ss ms order startTime w :
  count is_Sdk_createIfNotExists
        (snd (gateway_stage env ss ms order startTime trace_context w))
  = (count is_Sdk_createIfNotExists w + inits_made env w)%nat.
Proof.
  unfold gateway_stage, inits_made.
  destruct (withRetry_oracle is_Sdk_createIfNotExists
              is_Call_initializeContainer (createIfNotExists env)
              storage_init_error _ (only init_event)
              (initializeContainer env ss) 1 eq_refl
              (initializeContainer_run env ss)
              (fun _ _ => eq_refl) (fun _ => eq_refl)
              (fun _ _ => eq_refl) (fun _ => eq_refl)
              (fun _ _ => eq_refl) (fun _ => eq_refl) w)
    as (w1 & Hrun1 & _ & Hk & _).
  change (Z.of_nat 2) with 2 in Hrun1.
  destruct (first_success (createIfNotExists env) _ 2).
  2:{ erewrite bind_Throw by exact Hrun1. exact Hk. }
  erewrite bind_Ok by exact Hrun1. rewrite <- Hk.
  apply (appends_count (fun e => is_Sdk_createIfNotExists e = false));
    [auto|].
  match goal with |- appends _ _ (snd (?m w1)) => cut (respects
    (appends (fun e => is_Sdk_createIfNotExists e = false)) m);
    [intros H; apply H|] end.
  apply respects_bind; [apply appends_trans | |].
  { apply respects_trace_withRetry; try reflexivity.
    apply respects_storeOrder; reflexivity. }
  intros _. apply respects_bind; [apply appends_trans | |].
  { apply respects_trace_withRetry; try reflexivity.
    apply respects_sendOrderMessage; reflexivity. }
  intros _. apply respects_bind; [apply appends_trans | |].
  { apply respects_call_Date_now. reflexivity. }
  intros now. apply respects_bind; [apply appends_trans | |].
  { apply respects_log. reflexivity. }
  intros _. apply respects_ret, appends_refl.
Qed.
End StageBudget.

(** The trace of a request that reaches the gateway stage, in parts. *)
Lemma handle_reaching_trace (env : Env) (request : HttpRequest) :
  reaches_gateways env request = true ->
  exists input data t tlog,
    json request = Resolves input
    /\ safeParse (CreateOrderSchema env) input = inl data
    /\ handle env request
       = (Ok (response_of
                (released env (stage_outcome env (first_order env data) []))),
          (((front_trace env data ++ t) ++ release_events env) ++ tlog)%list)
    /\ Forall (only stage_event) t
    /\ Forall (about (first_order env data)) t
    /\ Forall (only log_event) tlog
    /\ count is_Sdk_createIfNotExists t = inits_made env []
    /\ count is_Sdk_upload t = uploads_made env []
    /\ count is_Sdk_sendMessages t = sends_made env []
    /\ slept t <= 7000.
Proof.
  intros Hr.
  destruct (reaches_gateways_true env request Hr)
    as (input & data & Ej & Ev & Eb & Es).
  destruct (handle_reaching env request input data Ej Ev Eb Es)
    as (w1 & tlog & Hrun & Hh & Hlog).
  destruct (gateway_stage_run env (the_storageService env)
              (the_messagingService env) (first_order env data)
              (Date_now env 0) (front_trace env data))
    as (w1' & Hrun' & (t & Ht & Hstage) & Hup & Hsend & _).
  rewrite Hrun in Hrun'. apply (f_equal snd) in Hrun'. cbn [snd] in Hrun'.
  subst w1'. subst w1.
  pose proof (gateway_stage_about env (the_storageService env)
                (the_messagingService env) (first_order env data)
                (Date_now env 0) (front_trace env data)) as (t' & Ht' & Habout).
  pose proof (gateway_stage_inits env (the_storageService env)
                (the_messagingService env) (first_order env data)
                (Date_now env 0) (front_trace env data)) as Hin.
  pose proof (gateway_stage_slept env (the_storageService env)
                (the_messagingService env) (first_order env data)
                (Date_now env 0) (front_trace env data)) as Hsl.
  rewrite Hrun in Ht', Hin, Hsl. cbn [snd] in Ht', Hin, Hsl.
  apply app_inv_head in Ht'. subst t'.
  rewrite count_app in Hin, Hup, Hsend. rewrite slept_app in Hsl.
  change (inits_made env []) with (inits_made env (front_trace env data)).
  change (uploads_made env []) with (uploads_made env (front_trace env data)).
  change (sends_made env []) with (sends_made env (front_trace env data)).
  change (count is_Sdk_createIfNotExists (front_trace env data))
    with 0%nat in Hin.
  change (count is_Sdk_upload (front_trace env data)) with 0%nat in Hup.
  change (count is_Sdk_sendMessages (front_trace env data))
    with 0%nat in Hsend.
  change (slept (front_trace env data)) with 0 in Hsl.
  exists input, data, t, tlog.
  split; [exact Ej|]. split; [exact Ev|]. split; [exact Hh|].
  split; [exact Hstage|]. split; [exact Habout|]. split; [exact Hlog|].
  split; [lia|]. split; [lia|]. split; lia.
Qed.

Lemma Forall_only_count (b kind : Event -> bool) (t : World) :
  (forall e, b e = true -> kind e = false) ->
  Forall (only b) t -> count kind t = 0%nat.
Proof.
  intros H Ht. unfold count. induction Ht as [|e t He _ IH]; [reflexivity|].
  cbn. now rewrite (H e He).
Qed.

Lemma Forall_only_slept (b : Event -> bool) (t : World) :
  (forall d, b (Timeout d) = false) -> Forall (only b) t -> slept t = 0.
Proof.
  intros Hb Ht. apply slept_awake. eapply Forall_impl; [|exact Ht].
  intros [] He; cbn; auto. unfold only in He. now rewrite Hb in He.
Qed.

Lemma count_release (env : Env) (kind : Event -> bool) :
  kind Call_close = false -> kind Sdk_sender_close = false ->
  kind Sdk_client_close = false ->
  count kind (release_events env) = 0%nat.
Proof.
  intros H1 H2 H3. unfold release_events, count.
  destruct (sender_close env 0); cbn; rewrite H1, H2, ?H3; reflexivity.
Qed.

Lemma slept_release (env : Env) : slept (release_events env) = 0.
Proof. unfold release_events. now destruct (sender_close env 0). Qed.

(** How often a request calls a service of the gateway stage, and how long
    it sleeps: as the stage does if the request reaches it, and not at all
    otherwise. *)
Lemma handle_stage_counts (env : Env) (request : HttpRequest) :
  exists t,
    (forall kind,
        (forall e, front_event e = true -> kind e = false) ->
        kind Call_close = false -> kind Sdk_sender_close = false ->
        kind Sdk_client_close = false ->
        count kind (snd (handle env request)) = count kind t)
    /\ slept (snd (handle env request)) = slept t
    /\ (reaches_gateways env request = false -> t = [])
    /\ (count is_Sdk_createIfNotExists t <= 2)%nat
    /\ (count is_Sdk_upload t <= 3)%nat
    /\ (count is_Sdk_sendMessages t <= 3)%nat
    /\ slept t <= 7000.
Proof.
  destruct (reaches_gateways env request) eqn:Hr.
  - destruct (handle_reaching_trace env request Hr)
      as (input & data & t & tlog & _ & _ & Hh & _ & _ & Hlog & Hi & Hu & Hs
          & Hsl).
    exists t. rewrite Hh. cbn [snd]. split; [|split; [|split]].
    + intros kind Hf H1 H2 H3. rewrite !count_app.
      rewrite (count_release env kind H1 H2 H3).
      rewrite (Forall_only_count log_event kind tlog)
        by (exact Hlog || (intros e He; apply Hf, log_event_front, He)).
      assert (count kind (front_trace env data) = 0%nat) as ->; [|lia].
      apply (Forall_only_count front_event); [exact Hf|].
      repeat constructor.
    + rewrite !slept_app, slept_release.
      rewrite (Forall_only_slept log_event tlog (fun _ => eq_refl) Hlog).
      change (slept (front_trace env data)) with 0. lia.
    + discriminate.
    + rewrite Hi, Hu, Hs. unfold inits_made, uploads_made, sends_made.
      pose proof (calls_made_le (createIfNotExists env) 0 2).
      pose proof (calls_made_le (upload env) 0 3).
      pose proof (calls_made_le (sendMessages env) 0 3).
      change (count is_Sdk_createIfNotExists []) with 0%nat.
      change (count is_Sdk_upload []) with 0%nat.
      change (count is_Sdk_sendMessages []) with 0%nat.
      destruct (first_success (createIfNotExists env) 0 2);
        destruct (first_success (upload env) 0 3); repeat split; lia.
  - destruct (handle_early env request Hr) as (tr & Hh & Hfront).
    exists []. rewrite Hh. cbn [snd]. split; [|split; [|split]].
    + intros kind Hf _ _ _. now apply (Forall_only_count front_event).
    + now apply (Forall_only_slept front_event).
    + reflexivity.
    + cbn. repeat split; lia.
Qed.

(** X6.  One request calls [createIfNotExists] at most twice, [upload] at most
    three times and [sendMessages] at most three times, and it sleeps for at
    most 7000 ms between its attempts: 1000 for the container and 1000 + 2000
    for each of the write and the notification. *)
Theorem request_within_retry_budget (env : Env) (request : HttpRequest) :
  (count is_Sdk_createIfNotExists (snd (handle env request)) <= 2)%nat
  /\ (count is_Sdk_upload (snd (handle env request)) <= 3)%nat
  /\ (count is_Sdk_sendMessages (snd (handle env request)) <= 3)%nat
  /\ slept (snd (handle env request)) <= 7000.
Proof.
  destruct (handle_stage_counts env request)
    as (t & Hc & Hsl & _ & H1 & H2 & H3 & H4).
  rewrite (Hc is_Sdk_createIfNotExists), (Hc is_Sdk_upload),
    (Hc is_Sdk_sendMessages), Hsl;
    try reflexivity; try (intros []; cbn; congruence).
  auto.
Qed.

(** The calls of the three services and of the release in the trace of a
    request. *)
Lemma handle_gateway_counts (env : Env) (request : HttpRequest) :
  count is_Sdk_createIfNotExists (snd (handle env request))
  = (if reaches_gateways env request then inits_made env [] else 0)%nat
  /\ count is_Sdk_upload (snd (handle env request))
     = (if reaches_gateways env request then uploads_made env [] else 0)%nat
  /\ count is_Sdk_sendMessages (snd (handle env request))
     = (if reaches_gateways env request then sends_made env [] else 0)%nat
  /\ count is_Sdk_sender_close (snd (handle env request))
     = (if reaches_gateways env request then 1 else 0)%nat
  /\ count is_Sdk_client_close (snd (handle env request))
     = (if reaches_gateways env request
        then match sender_close env 0 with None => 1 | Some _ => 0 end
        else 0)%nat.
Proof.
  destruct (reaches_gateways env request) eqn:Hr.
  - destruct (handle_reaching_trace env request Hr)
      as (input & data & t & tlog & _ & _ & Hh & Hst & _ & Hlog & Hi & Hu & Hs
          & _).
    rewrite Hh. cbn [snd]. rewrite !count_app, Hi, Hu, Hs.
    rewrite !(Forall_only_count log_event _ tlog) by (exact Hlog || disjoint).
    rewrite !(Forall_only_count stage_event is_Sdk_sender_close t),
      !(Forall_only_count stage_event is_Sdk_client_close t)
      by (exact Hst || disjoint).
    rewrite !(count_release env) by reflexivity.
    change (count _ (front_trace env data)) with 0%nat.
    unfold release_events.
    destruct (sender_close env 0); cbn; repeat split; lia.
  - destruct (handle_early env request Hr) as (tr & Hh & Hfront).
    rewrite Hh. cbn [snd].
    rewrite !(Forall_only_count front_event _ tr) by (exact Hfront || disjoint).
    repeat split.
Qed.

(** X7.  A message is sent only for an order that has been stored: if the trace
    of a request holds a call of [sendMessages], then the container was
    initialised within two attempts and one of the three uploads succeeded,
    and that upload was the last one made. *)
Theorem notification_only_after_stored_order (env : Env)
    (request : HttpRequest) :
  (0 < count is_Sdk_sendMessages (snd (handle env request)))%nat ->
  exists i j,
    (i < 2)%nat /\ createIfNotExists env i = None
    /\ (j < 3)%nat /\ upload env j = None
    /\ count is_Sdk_createIfNotExists (snd (handle env request)) = S i
    /\ count is_Sdk_upload (snd (handle env request)) = S j.
Proof.
  destruct (handle_gateway_counts env request) as (Hi & Hu & Hs & _).
  rewrite Hi, Hu, Hs. destruct (reaches_gateways env request); [|lia].
  unfold inits_made, uploads_made, sends_made, calls_made.
  change (count is_Sdk_createIfNotExists []) with 0%nat.
  change (count is_Sdk_upload []) with 0%nat.
  destruct (first_success (createIfNotExists env) 0 2) as [i|] eqn:Ei; [|lia].
  destruct (first_success (upload env) 0 3) as [j|] eqn:Ej; [|lia].
  intros _. apply first_success_spec in Ei, Ej. exists i, j. tauto.
Qed.

Lemma notification_only_after_stored_order_witness :
  exists i j,
    (i < 2)%nat /\ createIfNotExists Sample.healthy i = None
    /\ (j < 3)%nat /\ upload Sample.healthy j = None
    /\ count is_Sdk_createIfNotExists
         (snd (handle Sample.healthy Sample.valid_request)) = S i
    /\ count is_Sdk_upload
         (snd (handle Sample.healthy Sample.valid_request)) = S j.
Proof.
  apply (notification_only_after_stored_order Sample.healthy
           Sample.valid_request).
  vm_compute. lia.
Defined.

(** X8.  The upload is attempted only after the container has been initialised:
    if the trace of a request holds a call of [upload], one of the two calls
    of [createIfNotExists] succeeded. *)
Theorem upload_only_after_initialised_container (env : Env)
    (request : HttpRequest) :
  (0 < count is_Sdk_upload (snd (handle env request)))%nat ->
  exists i,
    (i < 2)%nat /\ createIfNotExists env i = None
    /\ count is_Sdk_createIfNotExists (snd (handle env request)) = S i.
Proof.
  destruct (handle_gateway_counts env request) as (Hi & Hu & _).
  rewrite Hi, Hu. destruct (reaches_gateways env request); [|lia].
  unfold inits_made, uploads_made, calls_made.
  change (count is_Sdk_createIfNotExists []) with 0%nat.
  destruct (first_success (createIfNotExists env) 0 2) as [i|] eqn:Ei; [|lia].
  intros _. apply first_success_spec in Ei. exists i. tauto.
Qed.

Lemma upload_only_after_initialised_container_witness :
  exists i,
    (i < 2)%nat /\ createIfNotExists Sample.bus_down i = None
    /\ count is_Sdk_createIfNotExists
         (snd (handle Sample.bus_down Sample.valid_request)) = S i.
Proof.
  apply (upload_only_after_initialised_container Sample.bus_down
           Sample.valid_request).
  vm_compute. lia.
Defined.

(** X9.  [sender.close()] is called once by a request that reaches the gateway
    stage and never by another; [serviceBusClient.close()] is called once if
    that call of [sender.close()] succeeded as well, and is skipped when it
    threw: the client is then left open. *)
Theorem client_close_skipped_when_sender_close_throws (env : Env)
    (request : HttpRequest) :
  count is_Sdk_sender_close (snd (handle env request))
  = (if reaches_gateways env request then 1 else 0)%nat
  /\ count is_Sdk_client_close (snd (handle env request))
     = (if reaches_gateways env request
        then match sender_close env 0 with None => 1 | Some _ => 0 end
        else 0)%nat.
Proof. exact (proj2 (proj2 (proj2 (handle_gateway_counts env request)))). Qed.

(** Every event of the trace of a request concerns the one order created
    from its payload. *)
Lemma handle_about (env : Env) (request : HttpRequest) (e : Event) :
  In e (snd (handle env request)) ->
  is_Sdk_upload e = true \/ is_Sdk_sendMessages e = true
  \/ is_Call_storeOrder e = true \/ is_Call_sendOrderMessage e = true ->
  exists input data,
    json request = Resolves input
    /\ safeParse (CreateOrderSchema env) input = inl data
    /\ about (first_order env data) e.
Proof.
  intros Hin Hkind.
  assert (Hnf : front_event e = false)
    by (destruct e; cbn in *; try reflexivity;
        destruct Hkind as [H|[H|[H|H]]]; discriminate H).
  destruct (reaches_gateways env request) eqn:Hr.
  - destruct (handle_reaching_trace env request Hr)
      as (input & data & t & tlog & Ej & Ev & Hh & _ & Hab & Hlog & _).
    exists input, data. split; [exact Ej|]. split; [exact Ev|].
    rewrite Hh in Hin. cbn [snd] in Hin.
    apply in_app_or in Hin as [Hin|Hin];
      [apply in_app_or in Hin as [Hin|Hin];
       [apply in_app_or in Hin as [Hin|Hin]|]|].
    + exfalso.
      assert (Hf : Forall (only front_event) (front_trace env data))
        by repeat constructor.
      rewrite Forall_forall in Hf. specialize (Hf e Hin).
      unfold only in Hf. congruence.
    + rewrite Forall_forall in Hab. now apply Hab.
    + exfalso. unfold release_events in Hin.
      destruct (sender_close env 0); cbn in Hin;
        repeat (destruct Hin as [<-|Hin]; [
          destruct Hkind as [H|[H|[H|H]]]; discriminate H|]);
        exact Hin.
    + exfalso. rewrite Forall_forall in Hlog. specialize (Hlog e Hin).
      apply log_event_front in Hlog. congruence.
  - exfalso. destruct (handle_early env request Hr) as (tr & Hh & Hfront).
    rewrite Hh in Hin. cbn [snd] in Hin.
    rewrite Forall_forall in Hfront. specialize (Hfront e Hin).
    unfold only in Hfront. congruence.
Qed.

(** X10.  Whatever is uploaded to the blob storage is the order created from the
    validated payload of the request: its identifier is the first value of
    the UUID generator, it is written under the name
    [<companyId>/<id>.json] with content type [application/json], and the
    metadata repeat its company, its employee and its status [PENDING]. *)
Theorem uploaded_blob_is_the_created_order (env : Env) (request : HttpRequest)
    (blobName : string) (stored : Order) (blobContentType : string)
    (metadata : BlobMetadata) :
  In (Sdk_upload blobName stored blobContentType metadata)
     (snd (handle env request)) ->
  exists input data,
    json request = Resolves input
    /\ safeParse (CreateOrderSchema env) input = inl data
    /\ stored = first_order env data
    /\ id stored = uuidv4 env 0
    /\ status stored = PENDING
    /\ blobName = companyId stored ++ "/" ++ id stored ++ ".json"
    /\ blobContentType = "application/json"
    /\ metadata = {| m_companyId := r_companyId data;
                     m_employeeId := r_employeeId data;
                     m_status := "PENDING" |}.
Proof.
  intros Hin.
  destruct (handle_about env request _ Hin (or_introl eq_refl))
    as (input & data & Ej & Ev & Ho & Hb & Hc & Hm).
  exists input, data. subst. repeat split; auto.
Qed.

(** X11.  Whatever is sent to the queue describes the order created from the
    validated payload of the request: the body repeats its identifier,
    company, employee, status, price and currency, the message id is the
    identifier of the order and the correlation id is
    [<companyId>-<id>]. *)
Theorem sent_message_is_the_created_order (env : Env) (request : HttpRequest)
    (m : ServiceBusMessage) :
  In (Sdk_sendMessages m) (snd (handle env request)) ->
  exists input data,
    json request = Resolves input
    /\ safeParse (CreateOrderSchema env) input = inl data
    /\ m = {| body := {| b_orderId := uuidv4 env 0;
                         b_companyId := r_companyId data;
                         b_employeeId := r_employeeId data;
                         b_status := PENDING;
                         b_price := r_price data;
                         b_currency := r_currency data |};
              messageId := uuidv4 env 0;
              correlationId := r_companyId data ++ "-" ++ uuidv4 env 0;
              contentType := "application/json" |}.
Proof.
  intros Hin.
  destruct (handle_about env request _ Hin (or_intror (or_introl eq_refl)))
    as (input & data & Ej & Ev & Hm).
  exists input, data. repeat split; auto.
Qed.

Lemma uploaded_blob_is_the_created_order_witness :
  exists input data,
    json Sample.valid_request = Resolves input
    /\ safeParse (CreateOrderSchema Sample.healthy) input = inl data
    /\ first_order Sample.healthy Sample.valid_input
       = first_order Sample.healthy data
    /\ id (first_order Sample.healthy Sample.valid_input)
       = uuidv4 Sample.healthy 0
    /\ status (first_order Sample.healthy Sample.valid_input) = PENDING
    /\ "company-123/9b1deb4d-3b7d-4bad-9bdd-2b0d7b3dcb6d.json"
       = companyId (first_order Sample.healthy Sample.valid_input) ++ "/"
         ++ id (first_order Sample.healthy Sample.valid_input) ++ ".json"
    /\ "application/json" = "application/json"
    /\ {| m_companyId := "company-123"; m_employeeId := "emp-123";
          m_status := "PENDING" |}
       = {| m_companyId := r_companyId data;
            m_employeeId := r_employeeId data;
            m_status := "PENDING" |}.
Proof.
  apply (uploaded_blob_is_the_created_order Sample.healthy Sample.valid_request
           "company-123/9b1deb4d-3b7d-4bad-9bdd-2b0d7b3dcb6d.json"
           (first_order Sample.healthy Sample.valid_input)
           "application/json"
           {| m_companyId := "company-123"; m_employeeId := "emp-123";
              m_status := "PENDING" |}).
  vm_compute. repeat (first [left; reflexivity | right]).
Defined.

Lemma sent_message_is_the_created_order_witness :
  exists input data,
    json Sample.valid_request = Resolves input
    /\ safeParse (CreateOrderSchema Sample.healthy) input = inl data
    /\ message_of_order (first_order Sample.healthy Sample.valid_input)
       = {| body := {| b_orderId := uuidv4 Sample.healthy 0;
                       b_companyId := r_companyId data;
                       b_employeeId := r_employeeId data;
                       b_status := PENDING;
                       b_price := r_price data;
                       b_currency := r_currency data |};
            messageId := uuidv4 Sample.healthy 0;
            correlationId := r_companyId data ++ "-" ++ uuidv4 Sample.healthy 0;
            contentType := "application/json" |}.
Proof.
  apply (sent_message_is_the_created_order Sample.healthy Sample.valid_request
           (message_of_order (first_order Sample.healthy Sample.valid_input))).
  vm_compute. repeat (first [left; reflexivity | right]).
Defined.

(* ================================================================== *)
(** * Requests that are turned away *)
(* ================================================================== *)

Ltac answer_rejected :=
  match goal with
  | |- context [failure_response ?en ?st trace_context ?err ?w] =>
      let w2 := fresh "w" in
      let Hf := fresh "Hf" in
      let Happ := fresh "Happ" in
      destruct (failure_response_run en st err w) as (w2 & Hf & Happ);
      rewrite Hf; exists w2; split; [reflexivity|];
      rewrite (only_count log_event is_gateway_call _ w2 ltac:(disjoint) Happ),
        (only_count log_event is_Uuid_v4 _ w2 ltac:(disjoint) Happ);
      split; reflexivity
  end.

(** A payload that the schema refuses: the issues become the errors of a 400
    response, no order is created and no gateway is called. *)
Lemma handle_invalid (env : Env) (request : HttpRequest) (input : JsValue)
    (issues : list ZodIssue) :
  json request = Resolves input -> falsy input = false ->
  safeParse (CreateOrderSchema env) input = inr issues ->
  exists tr,
    handle env request
    = (Ok {| http_status := 400;
             jsonBody := {| success := false; orderId := None;
                            message := "Validation failed";
                            errors := Some (map issue_text issues);
                            code := None |} |}, tr)
    /\ count is_gateway_call tr = 0%nat
    /\ count is_Uuid_v4 tr = 0%nat.
Proof.
  intros Ej Ef Ev. unfold handle, processOrder.
  erewrite bind_Ok by reflexivity. erewrite bind_Ok by reflexivity.
  erewrite try_catch_Throw.
  2:{ erewrite bind_Ok by (eapply parseRequestBody_Resolves; eauto).
      erewrite bind_Throw by (eapply validateInput_inr; eauto). reflexivity. }
  answer_rejected.
Qed.

(** X12.  A body that parses to a falsy value ([null], [false], [0] or the empty
    string) is answered with status 400, "Request body is required" and the
    one error "Request body cannot be empty"; the schema is not consulted, no
    order is created and no gateway is called. *)
Theorem empty_body_is_required (env : Env) (request : HttpRequest)
    (input : JsValue) :
  json request = Resolves input -> falsy input = true ->
  exists tr,
    handle env request
    = (Ok {| http_status := 400;
             jsonBody := {| success := false; orderId := None;
                            message := "Request body is required";
                            errors := Some ["Request body cannot be empty"];
                            code := None |} |}, tr)
    /\ count is_gateway_call tr = 0%nat
    /\ count is_Uuid_v4 tr = 0%nat.
Proof.
  intros Ej Ef. unfold handle, processOrder.
  erewrite bind_Ok by reflexivity. erewrite bind_Ok by reflexivity.
  erewrite try_catch_Throw.
  2:{ erewrite bind_Throw by (eapply parseRequestBody_falsy; eauto).
      reflexivity. }
  answer_rejected.
Qed.

Lemma empty_body_is_required_witness :
  exists tr,
    handle Sample.healthy {| json := Resolves JNull |}
    = (Ok {| http_status := 400;
             jsonBody := {| success := false; orderId := None;
                            message := "Request body is required";
                            errors := Some ["Request body cannot be empty"];
                            code := None |} |}, tr)
    /\ count is_gateway_call tr = 0%nat
    /\ count is_Uuid_v4 tr = 0%nat.
Proof.
  apply (empty_body_is_required Sample.healthy {| json := Resolves JNull |}
           JNull); reflexivity.
Defined.

(** X13.  A body that is truthy but no object (a number, a string, [true], an
    array) is answered with status 400, "Validation failed" and the single
    error ": Expected object, received <type>", whose path is empty; no order
    is created and no gateway is called. *)
Theorem body_that_is_no_object (env : Env) (request : HttpRequest)
    (input : JsValue) :
  json request = Resolves input -> falsy input = false ->
  (forall properties, input <> JObj properties) ->
  exists tr,
    handle env request
    = (Ok {| http_status := 400;
             jsonBody := {| success := false; orderId := None;
                            message := "Validation failed";
                            errors :=
                              Some [": Expected object, received "
                                      ++ getParsedType (Some input)];
                            code := None |} |}, tr)
    /\ count is_gateway_call tr = 0%nat
    /\ count is_Uuid_v4 tr = 0%nat.
Proof.
  intros Ej Ef Hno.
  apply (handle_invalid env request input
           [invalid_type [] "object" (Some input)] Ej Ef).
  destruct input; try reflexivity. now destruct (Hno properties).
Qed.

Lemma body_that_is_no_object_witness :
  exists tr,
    handle Sample.healthy {| json := Resolves (JArr [JStr "emp-123"]) |}
    = (Ok {| http_status := 400;
             jsonBody := {| success := false; orderId := None;
                            message := "Validation failed";
                            errors :=
                              Some [": Expected object, received "
                                      ++ getParsedType
                                           (Some (JArr [JStr "emp-123"]))];
                            code := None |} |}, tr)
    /\ count is_gateway_call tr = 0%nat
    /\ count is_Uuid_v4 tr = 0%nat.
Proof.
  apply (body_that_is_no_object Sample.healthy
           {| json := Resolves (JArr [JStr "emp-123"]) |}
           (JArr [JStr "emp-123"])); [reflexivity | reflexivity |].
  intros properties H. discriminate H.
Defined.

(* ================================================================== *)
(** * The schema: what it accepts and what it reports *)
(* ================================================================== *)

Lemma and_then_Parsed {A B} (f : ParseReturn (A -> B)) (x : ParseReturn A) b :
  and_then f x = Parsed b [] ->
  exists g a, f = Parsed g [] /\ x = Parsed a [] /\ b = g a.
Proof.
  destruct f as [g i|i], x as [a j|j]; cbn; try discriminate.
  intros H. injection H as <- Hij. apply app_eq_nil in Hij as [-> ->].
  now exists g, a.
Qed.

Lemma z_string_Parsed check msg p v s :
  z_string check msg p v = Parsed s [] ->
  v = Some (JStr s) /\ check s = true.
Proof.
  destruct v as [[]|]; cbn; try discriminate.
  destruct (check s0) eqn:E; [|discriminate].
  intros H. injection H as <-. auto.
Qed.

Lemma z_number_positive_Parsed msg p v q :
  z_number_positive msg p v = Parsed q [] ->
  v = Some (JNum q) /\ (0 < q)%Q.
Proof.
  destruct v as [[]|]; cbn; try discriminate.
  destruct (Qle_bool q0 0) eqn:E; [discriminate|].
  intros H. injection H as <-. split; [reflexivity|].
  apply Qnot_le_lt. intros Hle. apply Qle_bool_iff in Hle. congruence.
Qed.

Lemma min_length_1 s : min_length 1 s = true <-> s <> "".
Proof.
  unfold min_length. destruct s; cbn; split; intros H; congruence.
Qed.

Lemma safeParse_inl {A} (schema : JsValue -> ParseReturn A) input a :
  safeParse schema input = inl a <-> schema input = Parsed a [].
Proof.
  unfold safeParse. destruct (schema input) as [v [|i l]|i]; split; intros H;
    try discriminate; congruence.
Qed.

Lemma issues_of_and_then {A B} (f : ParseReturn (A -> B)) (x : ParseReturn A) :
  issues_of (and_then f x) = (issues_of f ++ issues_of x)%list.
Proof. destruct f, x; reflexivity. Qed.

(** The schema loses no issue of the object schema. *)
Lemma safeParse_reports (env : Env) (input : JsValue) (issue : ZodIssue) :
  In issue (issues_of (CreateOrderObject env input)) ->
  exists issues,
    safeParse (CreateOrderSchema env) input = inr issues /\ In issue issues.
Proof.
  unfold safeParse, CreateOrderSchema, refine.
  destruct (CreateOrderObject env input) as [a i|i]; cbn [issues_of]; intros H.
  - destruct i as [|x i]; [contradiction|]. cbn [app].
    eexists. split; [reflexivity|].
    change (In issue
              ((x :: i)
               ++ (if end_after_start env a then []
                   else [{| path := ["endDate"];
                            issue_message :=
                              "End date must be after start date" |}]))%list).
    apply in_or_app. now left.
  - destruct i as [|x i]; [contradiction|]. eexists. split; [reflexivity|].
    exact H.
Qed.

(** X14.  What the schema accepts is well formed: the payload is an object whose
    seven properties are the fields of the validated data, the identifiers of
    the employee, the bike model and the company are not empty, the currency
    has three characters, the price is positive, both dates pass zod's
    datetime check and [Date] parses them to two instants of which the end is
    the later. *)
Theorem accepted_payload_is_well_formed (env : Env) (input : JsValue)
    (data : CreateOrderRequest) :
  safeParse (CreateOrderSchema env) input = inl data ->
  (exists properties,
      input = JObj properties
      /\ get_property "employeeId" properties = Some (JStr (r_employeeId data))
      /\ get_property "bikeModel" properties = Some (JStr (r_bikeModel data))
      /\ get_property "startDate" properties = Some (JStr (r_startDate data))
      /\ get_property "endDate" properties = Some (JStr (r_endDate data))
      /\ get_property "price" properties = Some (JNum (r_price data))
      /\ get_property "currency" properties = Some (JStr (r_currency data))
      /\ get_property "companyId" properties = Some (JStr (r_companyId data)))
  /\ r_employeeId data <> "" /\ r_bikeModel data <> ""
  /\ r_companyId data <> ""
  /\ String.length (r_currency data) = 3%nat
  /\ (0 < r_price data)%Q
  /\ zod_datetime env (r_startDate data) = true
  /\ zod_datetime env (r_endDate data) = true
  /\ exists s e,
       Date_parse env (r_startDate data) = Some s
       /\ Date_parse env (r_endDate data) = Some e /\ s < e.
Proof.
  intros H. apply safeParse_inl in H. unfold CreateOrderSchema, refine in H.
  destruct (CreateOrderObject env input) as [a i|i] eqn:Eo; [|discriminate].
  injection H as -> Hi. apply app_eq_nil in Hi as [-> Hcheck].
  destruct (end_after_start env data) eqn:Eafter; [clear Hcheck|discriminate].
  destruct input as [| | | | |o]; try discriminate Eo.
  cbn [CreateOrderObject] in Eo.
  apply and_then_Parsed in Eo as (g7 & companyId_ & Eo & E7 & ->).
  apply and_then_Parsed in Eo as (g6 & currency_ & Eo & E6 & ->).
  apply and_then_Parsed in Eo as (g5 & price_ & Eo & E5 & ->).
  apply and_then_Parsed in Eo as (g4 & endDate_ & Eo & E4 & ->).
  apply and_then_Parsed in Eo as (g3 & startDate_ & Eo & E3 & ->).
  apply and_then_Parsed in Eo as (g2 & bikeModel_ & Eo & E2 & ->).
  apply and_then_Parsed in Eo as (g1 & employeeId_ & Eo & E1 & ->).
  injection Eo as <-.
  apply z_string_Parsed in E1 as [E1 C1], E2 as [E2 C2], E3 as [E3 C3],
    E4 as [E4 C4], E6 as [E6 C6], E7 as [E7 C7].
  apply z_number_positive_Parsed in E5 as [E5 C5].
  apply min_length_1 in C1, C2, C7. apply Nat.eqb_eq in C6.
  unfold end_after_start in Eafter. cbn [r_startDate r_endDate] in *.
  cbn [r_employeeId r_bikeModel r_price r_currency r_companyId].
  split; [exists o; repeat split; assumption|].
  repeat (split; [assumption|]).
  destruct (Date_parse env endDate_) as [e|]; [|discriminate].
  destruct (Date_parse env startDate_) as [s|]; [|discriminate].
  exists s, e. cbn in Eafter. apply Z.ltb_lt in Eafter. auto.
Qed.

Lemma accepted_payload_is_well_formed_witness :
  (exists properties,
      Sample.payload "emp-123" "2024-01-01T10:00:00Z" "2024-01-07T10:00:00Z"
      = JObj properties
      /\ get_property "employeeId" properties
         = Some (JStr (r_employeeId Sample.valid_input))
      /\ get_property "bikeModel" properties
         = Some (JStr (r_bikeModel Sample.valid_input))
      /\ get_property "startDate" properties
         = Some (JStr (r_startDate Sample.valid_input))
      /\ get_property "endDate" properties
         = Some (JStr (r_endDate Sample.valid_input))
      /\ get_property "price" properties
         = Some (JNum (r_price Sample.valid_input))
      /\ get_property "currency" properties
         = Some (JStr (r_currency Sample.valid_input))
      /\ get_property "companyId" properties
         = Some (JStr (r_companyId Sample.valid_input)))
  /\ r_employeeId Sample.valid_input <> ""
  /\ r_bikeModel Sample.valid_input <> ""
  /\ r_companyId Sample.valid_input <> ""
  /\ String.length (r_currency Sample.valid_input) = 3%nat
  /\ (0 < r_price Sample.valid_input)%Q
  /\ zod_datetime Sample.healthy (r_startDate Sample.valid_input) = true
  /\ zod_datetime Sample.healthy (r_endDate Sample.valid_input) = true
  /\ exists s e,
       Date_parse Sample.healthy (r_startDate Sample.valid_input) = Some s
       /\ Date_parse Sample.healthy (r_endDate Sample.valid_input) = Some e
       /\ s < e.
Proof.
  apply (accepted_payload_is_well_formed Sample.healthy
           (Sample.payload "emp-123" "2024-01-01T10:00:00Z"
              "2024-01-07T10:00:00Z")
           Sample.valid_input).
  vm_compute. reflexivity.
Defined.

(** X15.  What is well formed is accepted: an object whose seven properties have
    the right types and pass their checks, with an end date that [Date]
    parses to a later instant than the start date, validates to the record of
    these seven values (other properties of the object are dropped). *)
Theorem well_formed_payload_is_accepted (env : Env)
    (properties : list (string * JsValue)) (data : CreateOrderRequest)
    (s e : Z) :
  get_property "employeeId" properties = Some (JStr (r_employeeId data)) ->
  get_property "bikeModel" properties = Some (JStr (r_bikeModel data)) ->
  get_property "startDate" properties = Some (JStr (r_startDate data)) ->
  get_property "endDate" properties = Some (JStr (r_endDate data)) ->
  get_property "price" properties = Some (JNum (r_price data)) ->
  get_property "currency" properties = Some (JStr (r_currency data)) ->
  get_property "companyId" properties = Some (JStr (r_companyId data)) ->
  r_employeeId data <> "" -> r_bikeModel data <> "" ->
  r_companyId data <> "" ->
  String.length (r_currency data) = 3%nat ->
  (0 < r_price data)%Q ->
  zod_datetime env (r_startDate data) = true ->
  zod_datetime env (r_endDate data) = true ->
  Date_parse env (r_startDate data) = Some s ->
  Date_parse env (r_endDate data) = Some e -> s < e ->
  safeParse (CreateOrderSchema env) (JObj properties) = inl data.
Proof.
  intros E1 E2 E3 E4 E5 E6 E7 C1 C2 C7 C6 C5 C3 C4 Ds De Hlt.
  apply min_length_1 in C1, C2, C7. apply Nat.eqb_eq in C6.
  assert (Hp : Qle_bool (r_price data) 0 = false).
  { destruct (Qle_bool (r_price data) 0) eqn:E; [|reflexivity].
    apply Qle_bool_iff in E. exfalso. apply (Qlt_not_le _ _ C5 E). }
  apply safeParse_inl. unfold CreateOrderSchema, refine.
  cbn [CreateOrderObject]. rewrite E1, E2, E3, E4, E5, E6, E7.
  unfold z_string, z_number_positive, length_is.
  rewrite C1, C2, C3, C4, C6, C7, Hp. cbn [and_then app].
  unfold end_after_start. cbn [r_startDate r_endDate]. rewrite Ds, De.
  cbn [Date_gt]. apply Z.ltb_lt in Hlt. rewrite Hlt.
  destruct data; reflexivity.
Qed.

Lemma well_formed_payload_is_accepted_witness :
  safeParse (CreateOrderSchema Sample.healthy)
            (Sample.payload "emp-123" "2024-01-01T10:00:00Z"
               "2024-01-07T10:00:00Z")
  = inl Sample.valid_input.
Proof.
  apply (well_formed_payload_is_accepted Sample.healthy _ Sample.valid_input
           1704103200000 1704621600000);
    try reflexivity; try discriminate.
Defined.

(** The issues of the object schema are those of its seven properties, in the
    order of the shape. *)
Lemma CreateOrderObject_issues (env : Env) (o : list (string * JsValue)) :
  issues_of (CreateOrderObject env (JObj o))
  = (issues_of (z_string (min_length 1) "Employee ID is required"
                  ["employeeId"] (get_property "employeeId" o))
     ++ issues_of (z_string (min_length 1) "Bike model is required"
                     ["bikeModel"] (get_property "bikeModel" o))
     ++ issues_of (z_string (zod_datetime env) "Invalid start date format"
                     ["startDate"] (get_property "startDate" o))
     ++ issues_of (z_string (zod_datetime env) "Invalid end date format"
                     ["endDate"] (get_property "endDate" o))
     ++ issues_of (z_number_positive "Price must be positive" ["price"]
                     (get_property "price" o))
     ++ issues_of (z_string (length_is 3) "Currency must be 3 characters"
                     ["currency"] (get_property "currency" o))
     ++ issues_of (z_string (min_length 1) "Company ID is required"
                     ["companyId"] (get_property "companyId" o)))%list.
Proof.
  cbn [CreateOrderObject]. rewrite !issues_of_and_then. cbn [issues_of app].
  now rewrite <- !app_assoc.
Qed.

(** X16.  Every property that the payload lacks is reported: for an object
    without one of the seven properties the response is 400 "Validation
    failed" and its errors hold "<property>: Required", whatever else is
    wrong with the payload; no order is created and no gateway is called. *)
Theorem missing_property_is_reported (env : Env) (request : HttpRequest)
    (properties : list (string * JsValue)) (name : string) :
  json request = Resolves (JObj properties) ->
  In name ["employeeId"; "bikeModel"; "startDate"; "endDate"; "price";
           "currency"; "companyId"] ->
  get_property name properties = None ->
  exists tr errs,
    handle env request
    = (Ok {| http_status := 400;
             jsonBody := {| success := false; orderId := None;
                            message := "Validation failed";
                            errors := Some errs; code := None |} |}, tr)
    /\ In (name ++ ": Required") errs
    /\ count is_gateway_call tr = 0%nat
    /\ count is_Uuid_v4 tr = 0%nat.
Proof.
  intros Ej Hname Hget.
  assert (Hin : In {| path := [name]; issue_message := "Required" |}
                   (issues_of (CreateOrderObject env (JObj properties)))).
  { rewrite CreateOrderObject_issues. rewrite !in_app_iff.
    cbn [In] in Hname.
    destruct Hname as [<-|[<-|[<-|[<-|[<-|[<-|[<-|[]]]]]]]];
      rewrite Hget; cbn [z_string z_number_positive issues_of In invalid_type];
      intuition. }
  apply safeParse_reports in Hin as (issues & Ev & Hin).
  destruct (handle_invalid env request (JObj properties) issues Ej eq_refl Ev)
    as (tr & Hh & Hg & Hu).
  exists tr, (map issue_text issues). split; [exact Hh|].
  split; [|split; assumption].
  apply (in_map issue_text) in Hin. exact Hin.
Qed.

Lemma missing_property_is_reported_witness :
  exists tr errs,
    handle Sample.healthy
           {| json := Resolves (JObj [("employeeId", JStr "emp-123")]) |}
    = (Ok {| http_status := 400;
             jsonBody := {| success := false; orderId := None;
                            message := "Validation failed";
                            errors := Some errs; code := None |} |}, tr)
    /\ In ("price" ++ ": Required") errs
    /\ count is_gateway_call tr = 0%nat
    /\ count is_Uuid_v4 tr = 0%nat.
Proof.
  apply (missing_property_is_reported Sample.healthy
           {| json := Resolves (JObj [("employeeId", JStr "emp-123")]) |}
           [("employeeId", JStr "emp-123")] "price").
  - reflexivity.
  - simpl. auto 10.
  - reflexivity.
Defined.

(** X17.  For a payload whose seven properties have the right types, validation
    runs every check and reports all that fail, in the order of the schema
    and with the date-order rule last; the data are returned exactly when no
    check fails.  The date-order rule is checked even when a date has failed
    its format check. *)
Theorem violations_are_reported_together (env : Env)
    (properties : list (string * JsValue)) (data : CreateOrderRequest)
    (w : World) :
  get_property "employeeId" properties = Some (JStr (r_employeeId data)) ->
  get_property "bikeModel" properties = Some (JStr (r_bikeModel data)) ->
  get_property "startDate" properties = Some (JStr (r_startDate data)) ->
  get_property "endDate" properties = Some (JStr (r_endDate data)) ->
  get_property "price" properties = Some (JNum (r_price data)) ->
  get_property "currency" properties = Some (JStr (r_currency data)) ->
  get_property "companyId" properties = Some (JStr (r_companyId data)) ->
  validateInput env (JObj properties) w
  = (match
       (unless (min_length 1 (r_employeeId data)) "employeeId"
               "Employee ID is required"
        ++ unless (min_length 1 (r_bikeModel data)) "bikeModel"
                  "Bike model is required"
        ++ unless (zod_datetime env (r_startDate data)) "startDate"
                  "Invalid start date format"
        ++ unless (zod_datetime env (r_endDate data)) "endDate"
                  "Invalid end date format"
        ++ unless (negb (Qle_bool (r_price data) 0)) "price"
                  "Price must be positive"
        ++ unless (length_is 3 (r_currency data)) "currency"
                  "Currency must be 3 characters"
        ++ unless (min_length 1 (r_companyId data)) "companyId"
                  "Company ID is required"
        ++ unless (Date_gt (Date_parse env (r_endDate data))
                           (Date_parse env (r_startDate data)))
                  "endDate" "End date must be after start date")%list
     with
     | [] => Ok data
     | errs => Throw (new_ValidationError "Validation failed" errs)
     end, w).
Proof.
  intros E1 E2 E3 E4 E5 E6 E7.
  unfold validateInput, safeParse, CreateOrderSchema, refine, end_after_start.
  cbn [CreateOrderObject]. rewrite E1, E2, E3, E4, E5, E6, E7.
  unfold z_string, z_number_positive.
  destruct data as [emp bike start_ end_ price_ cur comp].
  cbn [r_employeeId r_bikeModel r_startDate r_endDate r_price r_currency
       r_companyId].
  destruct (min_length 1 emp), (min_length 1 bike), (zod_datetime env start_),
    (zod_datetime env end_), (Qle_bool price_ 0), (length_is 3 cur),
    (min_length 1 comp);
    cbn [and_then app issues_of r_startDate r_endDate];
    destruct (Date_gt (Date_parse env end_) (Date_parse env start_));
    reflexivity.
Qed.

Lemma violations_are_reported_together_witness :
  validateInput Sample.healthy
    (JObj [("employeeId", JStr ""); ("bikeModel", JStr "Mountain Bike Pro");
           ("startDate", JStr "tomorrow");
           ("endDate", JStr "2024-01-07T10:00:00Z");
           ("price", JNum 0); ("currency", JStr "EUR");
           ("companyId", JStr "company-123")]) []
  = (Throw (new_ValidationError "Validation failed"
              ["employeeId: Employee ID is required";
               "startDate: Invalid start date format";
               "price: Price must be positive";
               "endDate: End date must be after start date"]), []).
Proof.
  apply (violations_are_reported_together Sample.healthy _
           {| r_employeeId := ""; r_bikeModel := "Mountain Bike Pro";
              r_startDate := "tomorrow";
              r_endDate := "2024-01-07T10:00:00Z";
              r_price := 0; r_currency := "EUR";
              r_companyId := "company-123" |} []); reflexivity.
Defined.

(* ================================================================== *)
(** * The response of every request *)
(* ================================================================== *)

Lemma classify_foreign (e : Thrown) :
  foreign e ->
  classify e
  = {| http_status := 500;
       jsonBody := {| success := false; orderId := None;
                      message := "Internal server error";
                      errors := None; code := None |} |}.
Proof. destruct e; cbn; intros H; try reflexivity; contradiction. Qed.

(** The outcome of the gateway stage, by the first answers that succeed. *)
Lemma stage_outcome_cases (env : Env) (order : Order) :
  (stage_outcome env order [] = Ok (created order)
   /\ exists i j k,
        first_success (createIfNotExists env) 0 2 = Some i
        /\ first_success (upload env) 0 3 = Some j
        /\ first_success (sendMessages env) 0 3 = Some k)
  \/ (stage_outcome env order [] = Throw storage_init_error
      /\ first_success (createIfNotExists env) 0 2 = None)
  \/ (stage_outcome env order [] = Throw storage_error
      /\ first_success (upload env) 0 3 = None)
  \/ (stage_outcome env order [] = Throw messaging_error
      /\ first_success (sendMessages env) 0 3 = None).
Proof.
  unfold stage_outcome.
  change (count is_Sdk_createIfNotExists []) with 0%nat.
  change (count is_Sdk_upload []) with 0%nat.
  change (count is_Sdk_sendMessages []) with 0%nat.
  destruct (first_success (createIfNotExists env) 0 2) as [i|]; [|tauto].
  destruct (first_success (upload env) 0 3) as [j|]; [|tauto].
  destruct (first_success (sendMessages env) 0 3) as [k|]; [|tauto].
  left. split; [reflexivity|]. now exists i, j, k.
Qed.

(** X18.  Every request is answered, and when the SDK clients throw errors of
    their own only, the answer is of one of three kinds: 201 with
    [success: true], the identifier of the order and neither errors nor code;
    400 with one of the three validation messages and a list of errors but
    no code; or 500 with no errors and either one of the three coded
    messages of the gateways or "Internal server error" without a code. *)
Theorem response_is_of_one_of_three_kinds (env : Env) (request : HttpRequest) :
  sdk_errors_foreign env ->
  exists r,
    fst (handle env request) = Ok r
    /\ ((http_status r = 201
         /\ jsonBody r = {| success := true; orderId := Some (uuidv4 env 0);
                            message := "Order processed successfully";
                            errors := None; code := None |})
        \/ (exists errs,
              http_status r = 400 /\ success (jsonBody r) = false
              /\ orderId (jsonBody r) = None
              /\ errors (jsonBody r) = Some errs /\ code (jsonBody r) = None
              /\ In (message (jsonBody r))
                    ["Invalid JSON in request body";
                     "Request body is required"; "Validation failed"])
        \/ (http_status r = 500 /\ success (jsonBody r) = false
            /\ orderId (jsonBody r) = None /\ errors (jsonBody r) = None
            /\ In (message (jsonBody r), code (jsonBody r))
                  [("Failed to initialize storage container",
                    Some "STORAGE_INIT_ERROR");
                   ("Failed to store order in storage", Some "STORAGE_ERROR");
                   ("Failed to send order message", Some "MESSAGING_ERROR");
                   ("Internal server error", None)])).
Proof.
  intros (Hb & Hs & Hsc & Hcc). eexists. split; [apply handle_decides|].
  assert (Hforeign : forall e, foreign e ->
            http_status (classify e) = 500
            /\ success (jsonBody (classify e)) = false
            /\ orderId (jsonBody (classify e)) = None
            /\ errors (jsonBody (classify e)) = None
            /\ In (message (jsonBody (classify e)),
                   code (jsonBody (classify e)))
                  [("Failed to initialize storage container",
                    Some "STORAGE_INIT_ERROR");
                   ("Failed to store order in storage", Some "STORAGE_ERROR");
                   ("Failed to send order message", Some "MESSAGING_ERROR");
                   ("Internal server error", None)]).
  { intros e He. rewrite (classify_foreign e He). cbn. tauto. }
  unfold expected_outcome.
  destruct (json request) as [input|n m].
  2:{ right; left. eexists. cbn. repeat split; auto. }
  destruct (falsy input).
  { right; left. eexists. cbn. repeat split; auto. }
  destruct (safeParse (CreateOrderSchema env) input) as [data|issues].
  2:{ right; left. eexists. cbn. repeat split; auto. }
  destruct (BlobServiceClient_fromConnectionString env _) as [e|] eqn:Eb.
  { right; right. apply Hforeign. eapply Hb; eauto. }
  destruct (ServiceBusClient_new env _) as [e|] eqn:Es.
  { right; right. apply Hforeign. eapply Hs; eauto. }
  unfold released.
  destruct (sender_close env 0) as [e|] eqn:Esc.
  { right; right. apply Hforeign. eapply Hsc; eauto. }
  destruct (client_close env 0) as [e|] eqn:Ecc.
  { right; right. apply Hforeign. eapply Hcc; eauto. }
  destruct (stage_outcome_cases env (first_order env data))
    as [[-> _]|[[-> _]|[[-> _]|[-> _]]]].
  - left. split; reflexivity.
  - right; right. cbn. tauto.
  - right; right. cbn. tauto.
  - right; right. cbn. tauto.
Qed.

Lemma healthy_sdk_errors_foreign : sdk_errors_foreign Sample.healthy.
Proof.
  repeat split.
  - intros cs e. cbn. unfold Sample.refuse_empty.
    destruct cs; intros H; [injection H as <-; exact I | discriminate H].
  - intros cs e. cbn. unfold Sample.refuse_empty.
    destruct cs; intros H; [injection H as <-; exact I | discriminate H].
  - intros k e H. discriminate H.
  - intros k e H. discriminate H.
Defined.

Lemma response_is_of_one_of_three_kinds_witness :
  exists r,
    fst (handle Sample.healthy Sample.valid_request) = Ok r
    /\ ((http_status r = 201
         /\ jsonBody r = {| success := true;
                            orderId := Some (uuidv4 Sample.healthy 0);
                            message := "Order processed successfully";
                            errors := None; code := None |})
        \/ (exists errs,
              http_status r = 400 /\ success (jsonBody r) = false
              /\ orderId (jsonBody r) = None
              /\ errors (jsonBody r) = Some errs /\ code (jsonBody r) = None
              /\ In (message (jsonBody r))
                    ["Invalid JSON in request body";
                     "Request body is required"; "Validation failed"])
        \/ (http_status r = 500 /\ success (jsonBody r) = false
            /\ orderId (jsonBody r) = None /\ errors (jsonBody r) = None
            /\ In (message (jsonBody r), code (jsonBody r))
                  [("Failed to initialize storage container",
                    Some "STORAGE_INIT_ERROR");
                   ("Failed to store order in storage", Some "STORAGE_ERROR");
                   ("Failed to send order message", Some "MESSAGING_ERROR");
                   ("Internal server error", None)])).
Proof.
  apply (response_is_of_one_of_three_kinds Sample.healthy Sample.valid_request).
  exact healthy_sdk_errors_foreign.
Defined.

Lemma first_success_least answer n :
  forall c j, first_success answer c n = Some j ->
  forall k, (k < j)%nat -> answer (c + k)%nat <> None.
Proof.
  induction n as [|n IH]; intros c j H k Hk; [discriminate H|].
  cbn [first_success] in H. destruct (answer c) as [e|] eqn:Ec.
  - destruct (first_success answer (S c) n) as [j'|] eqn:Ej; [|discriminate H].
    injection H as <-. destruct k as [|k].
    + rewrite Nat.add_0_r. congruence.
    + rewrite Nat.add_succ_r. apply (IH (S c) j' Ej k). lia.
  - injection H as <-. lia.
Qed.

(** The first of [n] calls that succeeds, when the [k]-th does. *)
Lemma first_success_within answer n k :
  (k < n)%nat -> answer k = None ->
  exists j, first_success answer 0 n = Some j
            /\ (j <= k)%nat /\ answer j = None.
Proof.
  intros Hk Ha.
  destruct (first_success_Some answer n 0 k Hk Ha) as (j & Hj).
  exists j. split; [exact Hj|]. split; [|now apply first_success_spec in Hj].
  destruct (Nat.le_gt_cases j k) as [Hle|Hgt]; [exact Hle|].
  now destruct (first_success_least answer n 0 j Hj k Hgt).
Qed.

(** The decision for a request that reaches the gateway stage. *)
Lemma expected_outcome_reached (env : Env) (request : HttpRequest) :
  reaches_gateways env request = true ->
  exists data,
    expected_outcome env request
    = released env (stage_outcome env (first_order env data) []).
Proof.
  intros Hr. destruct (reaches_gateways_true env request Hr)
    as (input & data & Ej & Ev & Eb & Es).
  exists data. unfold expected_outcome.
  now rewrite Ej, (safeParse_truthy _ _ _ Ev), Ev, Eb, Es.
Qed.

(** X19.  Failures that pass are absorbed: when a request reaches the gateway
    stage, each of the three services answers within its attempts (two for
    the container, three for the upload and for the send) and the release
    succeeds, the response is 201 with the identifier of the order, and each
    service was called up to its first success and no further. *)
Theorem passing_failures_are_absorbed (env : Env) (request : HttpRequest)
    (i j k : nat) :
  reaches_gateways env request = true ->
  (i < 2)%nat -> createIfNotExists env i = None ->
  (j < 3)%nat -> upload env j = None ->
  (k < 3)%nat -> sendMessages env k = None ->
  sender_close env 0 = None -> client_close env 0 = None ->
  exists i' j' k',
    fst (handle env request)
    = Ok {| http_status := 201;
            jsonBody := {| success := true; orderId := Some (uuidv4 env 0);
                           message := "Order processed successfully";
                           errors := None; code := None |} |}
    /\ (i' <= i)%nat /\ createIfNotExists env i' = None
    /\ count is_Sdk_createIfNotExists (snd (handle env request)) = S i'
    /\ (j' <= j)%nat /\ upload env j' = None
    /\ count is_Sdk_upload (snd (handle env request)) = S j'
    /\ (k' <= k)%nat /\ sendMessages env k' = None
    /\ count is_Sdk_sendMessages (snd (handle env request)) = S k'.
Proof.
  intros Hr Hi Ei Hj Ej Hk Ek Hsc Hcc.
  destruct (first_success_within _ 2 i Hi Ei) as (i' & Fi & Li & Ai).
  destruct (first_success_within _ 3 j Hj Ej) as (j' & Fj & Lj & Aj).
  destruct (first_success_within _ 3 k Hk Ek) as (k' & Fk & Lk & Ak).
  exists i', j', k'.
  destruct (handle_gateway_counts env request) as (Ci & Cu & Cs & _).
  rewrite Hr in Ci, Cu, Cs. rewrite Ci, Cu, Cs.
  unfold inits_made, uploads_made, sends_made, calls_made.
  change (count is_Sdk_createIfNotExists []) with 0%nat.
  change (count is_Sdk_upload []) with 0%nat.
  change (count is_Sdk_sendMessages []) with 0%nat.
  rewrite Fi, Fj, Fk.
  rewrite handle_decides.
  destruct (expected_outcome_reached env request Hr) as (data & ->).
  unfold released, stage_outcome.
  change (count is_Sdk_createIfNotExists []) with 0%nat.
  change (count is_Sdk_upload []) with 0%nat.
  change (count is_Sdk_sendMessages []) with 0%nat.
  rewrite Hsc, Hcc, Fi, Fj, Fk. repeat split; auto.
Qed.

Lemma passing_failures_are_absorbed_witness :
  exists i' j' k',
    fst (handle Sample2.flaky Sample.valid_request)
    = Ok {| http_status := 201;
            jsonBody := {| success := true;
                           orderId := Some (uuidv4 Sample2.flaky 0);
                           message := "Order processed successfully";
                           errors := None; code := None |} |}
    /\ (i' <= 1)%nat /\ createIfNotExists Sample2.flaky i' = None
    /\ count is_Sdk_createIfNotExists
         (snd (handle Sample2.flaky Sample.valid_request)) = S i'
    /\ (j' <= 1)%nat /\ upload Sample2.flaky j' = None
    /\ count is_Sdk_upload
         (snd (handle Sample2.flaky Sample.valid_request)) = S j'
    /\ (k' <= 2)%nat /\ sendMessages Sample2.flaky k' = None
    /\ count is_Sdk_sendMessages
         (snd (handle Sample2.flaky Sample.valid_request)) = S k'.
Proof.
  apply (passing_failures_are_absorbed Sample2.flaky Sample.valid_request
           1 1 2);
    try reflexivity; try lia.
Defined.

(** X20.  A 201 is a promise kept: when the SDK clients throw errors of their
    own only, a response with status 201 means that the request reached the
    gateway stage, that the last call made of each of [createIfNotExists],
    [upload] and [sendMessages] succeeded, and that the sender and the client
    were closed without error. *)
Theorem created_means_stored_sent_and_released (env : Env)
    (request : HttpRequest) (r : HttpResponseInit) :
  sdk_errors_foreign env ->
  fst (handle env request) = Ok r -> http_status r = 201 ->
  reaches_gateways env request = true
  /\ sender_close env 0 = None /\ client_close env 0 = None
  /\ exists i j k,
       createIfNotExists env i = None
       /\ count is_Sdk_createIfNotExists (snd (handle env request)) = S i
       /\ upload env j = None
       /\ count is_Sdk_upload (snd (handle env request)) = S j
       /\ sendMessages env k = None
       /\ count is_Sdk_sendMessages (snd (handle env request)) = S k.
Proof.
  intros (Hb & Hs & Hsc & Hcc) Hh Hst.
  rewrite handle_decides in Hh. injection Hh as <-.
  assert (Hforeign : forall e, foreign e -> http_status (classify e) <> 201)
    by (intros e He; rewrite (classify_foreign e He); discriminate).
  destruct (reaches_gateways env request) eqn:Hr.
  - destruct (expected_outcome_reached env request Hr) as (data & Eo).
    rewrite Eo in Hst. unfold released in Hst.
    destruct (sender_close env 0) as [e|] eqn:Esc;
      [now destruct (Hforeign e (Hsc _ _ Esc))|].
    destruct (client_close env 0) as [e|] eqn:Ecc;
      [now destruct (Hforeign e (Hcc _ _ Ecc))|].
    destruct (stage_outcome_cases env (first_order env data))
      as [[_ (i & j & k & Fi & Fj & Fk)]|[[E _]|[[E _]|[E _]]]];
      try (rewrite E in Hst; discriminate Hst).
    split; [reflexivity|]. split; [reflexivity|]. split; [reflexivity|].
    exists i, j, k.
    destruct (handle_gateway_counts env request) as (Ci & Cu & Cs & _).
    rewrite Hr in Ci, Cu, Cs. rewrite Ci, Cu, Cs.
    unfold inits_made, uploads_made, sends_made, calls_made.
    change (count is_Sdk_createIfNotExists []) with 0%nat.
    change (count is_Sdk_upload []) with 0%nat.
    change (count is_Sdk_sendMessages []) with 0%nat.
    rewrite Fi, Fj, Fk.
    apply first_success_spec in Fi, Fj, Fk. repeat split; tauto.
  - exfalso. revert Hr Hst. unfold reaches_gateways, expected_outcome.
    destruct (json request) as [input|n m]; [|discriminate].
    destruct (falsy input); [discriminate|].
    destruct (safeParse (CreateOrderSchema env) input) as [data|issues];
      [|discriminate].
    destruct (BlobServiceClient_fromConnectionString env _) as [e|] eqn:Eb;
      [intros _ H; now destruct (Hforeign e (Hb _ _ Eb))|].
    destruct (ServiceBusClient_new env _) as [e|] eqn:Es;
      [intros _ H; now destruct (Hforeign e (Hs _ _ Es))|].
    discriminate.
Qed.

Lemma created_means_stored_sent_and_released_witness :
  reaches_gateways Sample.healthy Sample.valid_request = true
  /\ sender_close Sample.healthy 0 = None
  /\ client_close Sample.healthy 0 = None
  /\ exists i j k,
       createIfNotExists Sample.healthy i = None
       /\ count is_Sdk_createIfNotExists
            (snd (handle Sample.healthy Sample.valid_request)) = S i
       /\ upload Sample.healthy j = None
       /\ count is_Sdk_upload
            (snd (handle Sample.healthy Sample.valid_request)) = S j
       /\ sendMessages Sample.healthy k = None
       /\ count is_Sdk_sendMessages
            (snd (handle Sample.healthy Sample.valid_request)) = S k.
Proof.
  apply (created_means_stored_sent_and_released Sample.healthy
           Sample.valid_request
           {| http_status := 201;
              jsonBody := {| success := true;
                             orderId := Some (uuidv4 Sample.healthy 0);
                             message := "Order processed successfully";
                             errors := None; code := None |} |}).
  - exact healthy_sdk_errors_foreign.
  - vm_compute. reflexivity.
  - reflexivity.
Defined.

(** X21.  A release that fails hides an order that was processed: when the
    order has been stored and its message sent, and then [sender.close()] or
    [serviceBusClient.close()] throws an error of the SDK, the response is
    500 "Internal server error" although the last upload and the last send
    of the request succeeded. *)
Theorem failed_release_hides_a_processed_order (env : Env)
    (request : HttpRequest) (i j k : nat) (e : Thrown) :
  reaches_gateways env request = true ->
  (i < 2)%nat -> createIfNotExists env i = None ->
  (j < 3)%nat -> upload env j = None ->
  (k < 3)%nat -> sendMessages env k = None ->
  sender_close env 0 = Some e
  \/ (sender_close env 0 = None /\ client_close env 0 = Some e) ->
  foreign e ->
  exists j' k',
    fst (handle env request)
    = Ok {| http_status := 500;
            jsonBody := {| success := false; orderId := None;
                           message := "Internal server error";
                           errors := None; code := None |} |}
    /\ upload env j' = None
    /\ count is_Sdk_upload (snd (handle env request)) = S j'
    /\ sendMessages env k' = None
    /\ count is_Sdk_sendMessages (snd (handle env request)) = S k'.
Proof.
  intros Hr Hi Ei Hj Ej Hk Ek Hclose He.
  destruct (first_success_within _ 2 i Hi Ei) as (i' & Fi & Li & Ai).
  destruct (first_success_within _ 3 j Hj Ej) as (j' & Fj & Lj & Aj).
  destruct (first_success_within _ 3 k Hk Ek) as (k' & Fk & Lk & Ak).
  exists j', k'.
  destruct (handle_gateway_counts env request) as (_ & Cu & Cs & _).
  rewrite Hr in Cu, Cs. rewrite Cu, Cs.
  unfold uploads_made, sends_made, calls_made.
  change (count is_Sdk_createIfNotExists []) with 0%nat.
  change (count is_Sdk_upload []) with 0%nat.
  change (count is_Sdk_sendMessages []) with 0%nat.
  rewrite Fi, Fj, Fk.
  rewrite handle_decides.
  destruct (expected_outcome_reached env request Hr) as (data & ->).
  unfold released.
  destruct Hclose as [-> | [-> ->]]; cbn [response_of];
    rewrite (classify_foreign e He); repeat split; auto.
Qed.

Lemma failed_release_hides_a_processed_order_witness :
  exists j' k',
    fst (handle (Sample.close_fails Sample.healthy) Sample.valid_request)
    = Ok {| http_status := 500;
            jsonBody := {| success := false; orderId := None;
                           message := "Internal server error";
                           errors := None; code := None |} |}
    /\ upload (Sample.close_fails Sample.healthy) j' = None
    /\ count is_Sdk_upload
         (snd (handle (Sample.close_fails Sample.healthy)
                      Sample.valid_request)) = S j'
    /\ sendMessages (Sample.close_fails Sample.healthy) k' = None
    /\ count is_Sdk_sendMessages
         (snd (handle (Sample.close_fails Sample.healthy)
                      Sample.valid_request)) = S k'.
Proof.
  apply (failed_release_hides_a_processed_order
           (Sample.close_fails Sample.healthy) Sample.valid_request 0 0 0
           (Error "Error" "Close failed"));
    try reflexivity; try lia; try exact I.
  left. reflexivity.
Defined.

(** X22.  When both calls of [createIfNotExists] fail, the request is answered
    with 500 "Failed to initialize storage container" and the code
    STORAGE_INIT_ERROR (the release succeeding); the container was tried
    exactly twice, and nothing is uploaded and nothing is sent. *)
Theorem container_initialisation_exhausted (env : Env)
    (request : HttpRequest) :
  reaches_gateways env request = true ->
  createIfNotExists env 0 <> None -> createIfNotExists env 1 <> None ->
  sender_close env 0 = None -> client_close env 0 = None ->
  fst (handle env request)
  = Ok {| http_status := 500;
          jsonBody := {| success := false; orderId := None;
                         message := "Failed to initialize storage container";
                         errors := None;
                         code := Some "STORAGE_INIT_ERROR" |} |}
  /\ count is_Sdk_createIfNotExists (snd (handle env request)) = 2%nat
  /\ count is_Sdk_upload (snd (handle env request)) = 0%nat
  /\ count is_Sdk_sendMessages (snd (handle env request)) = 0%nat.
Proof.
  intros Hr H0 H1 Hsc Hcc.
  assert (Fi : first_success (createIfNotExists env) 0 2 = None).
  { apply first_success_None. intros [|[|k]] Hk; cbn; auto. lia. }
  destruct (handle_gateway_counts env request) as (Ci & Cu & Cs & _).
  rewrite Hr in Ci, Cu, Cs. rewrite Ci, Cu, Cs.
  unfold inits_made, uploads_made, sends_made, calls_made.
  change (count is_Sdk_createIfNotExists []) with 0%nat.
  rewrite Fi. rewrite handle_decides.
  destruct (expected_outcome_reached env request Hr) as (data & ->).
  unfold released, stage_outcome.
  change (count is_Sdk_createIfNotExists []) with 0%nat.
  rewrite Hsc, Hcc, Fi. repeat split.
Qed.

Lemma container_initialisation_exhausted_witness :
  fst (handle Sample2.container_down Sample.valid_request)
  = Ok {| http_status := 500;
          jsonBody := {| success := false; orderId := None;
                         message := "Failed to initialize storage container";
                         errors := None;
                         code := Some "STORAGE_INIT_ERROR" |} |}
  /\ count is_Sdk_createIfNotExists
       (snd (handle Sample2.container_down Sample.valid_request)) = 2%nat
  /\ count is_Sdk_upload
       (snd (handle Sample2.container_down Sample.valid_request)) = 0%nat
  /\ count is_Sdk_sendMessages
       (snd (handle Sample2.container_down Sample.valid_request)) = 0%nat.
Proof.
  apply (container_initialisation_exhausted Sample2.container_down
           Sample.valid_request);
    try reflexivity; discriminate.
Defined.

(* ================================================================== *)
(** * Reading an order back: [streamToString] and [getOrder] *)
(* ================================================================== *)

Lemma collect_chunks (cs : list string) :
  forall acc events,
    collect acc (map Chunk cs ++ events)%list = collect (acc ++ cs)%list events.
Proof.
  induction cs as [|c cs IH]; intros acc events; cbn [map app collect].
  - now rewrite app_nil_r.
  - rewrite IH. now rewrite <- app_assoc.
Qed.

(** X23.  [streamToString] resolves with the chunks that arrive before the end
    of the stream, joined in the order of their arrival, and ignores whatever
    the stream emits after its end; it rejects with the error of a stream
    that fails before its end; and it never settles for a stream that
    neither ends nor fails. *)
Theorem streamToString_joins_the_chunks (cs : list string)
    (rest : list StreamEvent) (e : Thrown) :
  streamToString (map Chunk cs ++ End_of_stream :: rest)%list
  = Resolved (String.concat "" cs)
  /\ streamToString (map Chunk cs ++ Stream_error e :: rest)%list = Rejected e
  /\ streamToString (map Chunk cs) = Pending.
Proof.
  unfold streamToString. split; [|split].
  - now rewrite collect_chunks.
  - now rewrite collect_chunks.
  - rewrite <- (app_nil_r (map Chunk cs)). now rewrite collect_chunks.
Qed.

Section ReadBack.
Context {A : Type}.
Variable download : string -> Result (list StreamEvent).
Variable JSON_parse : string -> Result A.

(** X24.  [getOrder] never rejects and turns every failure into [null]: a
    download that throws, a stream that fails before its end and a text that
    [JSON.parse] refuses all give [null]; the parsed value is returned when
    the blob [<companyId>/<orderId>.json] was downloaded, its stream ended and
    its text parsed, and only then; and the promise stays pending only while
    the stream neither ends nor fails. *)
Theorem getOrder_turns_failures_into_null (orderId companyId : string) :
  (forall e,
      download (companyId ++ "/" ++ orderId ++ ".json") = Throw e ->
      getOrder download JSON_parse orderId companyId = Resolved None)
  /\ (forall body e,
        download (companyId ++ "/" ++ orderId ++ ".json") = Ok body ->
        streamToString body = Rejected e ->
        getOrder download JSON_parse orderId companyId = Resolved None)
  /\ (forall body text e,
        download (companyId ++ "/" ++ orderId ++ ".json") = Ok body ->
        streamToString body = Resolved text ->
        JSON_parse text = Throw e ->
        getOrder download JSON_parse orderId companyId = Resolved None)
  /\ (forall order,
        getOrder download JSON_parse orderId companyId = Resolved (Some order)
        <-> exists body text,
              download (companyId ++ "/" ++ orderId ++ ".json") = Ok body
              /\ streamToString body = Resolved text
              /\ JSON_parse text = Ok order)
  /\ (getOrder download JSON_parse orderId companyId = Pending
      <-> exists body,
            download (companyId ++ "/" ++ orderId ++ ".json") = Ok body
            /\ streamToString body = Pending)
  /\ (forall e,
        getOrder download JSON_parse orderId companyId = Rejected e -> False).
Proof.
  unfold getOrder. split; [|split; [|split; [|split; [|split]]]].
  - intros e ->. reflexivity.
  - intros body e -> ->. reflexivity.
  - intros body text e -> -> ->. reflexivity.
  - intros order. split.
    + destruct (download _) as [body|e']; [|discriminate].
      destruct (streamToString body) as [text|e'|] eqn:Es; try discriminate.
      destruct (JSON_parse text) as [o|e'] eqn:Ep; [|discriminate].
      intros H. injection H as <-. now exists body, text.
    + intros (body & text & -> & -> & ->). reflexivity.
  - split.
    + destruct (download _) as [body|e']; [|discriminate].
      destruct (streamToString body) as [text|e'|] eqn:Es; try discriminate.
      * destruct (JSON_parse text); discriminate.
      * intros _. now exists body.
    + intros (body & -> & ->). reflexivity.
  - intros e. destruct (download _) as [body|e']; [|discriminate].
    destruct (streamToString body) as [text|e'|]; try discriminate.
    destruct (JSON_parse text); discriminate.
Qed.
End ReadBack.

(** X25.  [getOrder] reads the blob that [storeOrder] wrote: called with the
    identifier and the company of an order that a request uploaded, it
    downloads the very name the upload went to, and when that blob is served
    in chunks up to the end of the stream, it resolves to whatever
    [JSON.parse] makes of the chunks joined in order, and to [null] when
    [JSON.parse] refuses them. *)
Theorem getOrder_reads_the_uploaded_blob {A : Type} (env : Env)
    (request : HttpRequest)
    (blobName : string) (stored : Order) (blobContentType : string)
    (metadata : BlobMetadata)
    (download : string -> Result (list StreamEvent))
    (JSON_parse : string -> Result A) (chunks : list string) :
  In (Sdk_upload blobName stored blobContentType metadata)
     (snd (handle env request)) ->
  download blobName = Ok (map Chunk chunks ++ [End_of_stream])%list ->
  getOrder download JSON_parse (id stored) (companyId stored)
  = match JSON_parse (String.concat "" chunks) with
    | Ok value => Resolved (Some value)
    | Throw _ => Resolved None
    end.
Proof.
  intros Hin Hd.
  destruct (handle_about env request _ Hin (or_introl eq_refl))
    as (input & data & _ & _ & Ho & Hb & _).
  unfold getOrder, streamToString. subst stored. unfold blob_of in Hb.
  rewrite <- Hb, Hd, collect_chunks. reflexivity.
Qed.

Lemma getOrder_reads_the_uploaded_blob_witness :
  getOrder
    (fun name =>
       if String.eqb name
            "company-123/9b1deb4d-3b7d-4bad-9bdd-2b0d7b3dcb6d.json"
       then Ok (map Chunk ["29"; "9.99"] ++ [End_of_stream])%list
       else Throw (Error "RestError" "The specified blob does not exist."))
    (fun text =>
       if String.eqb text "299.99" then Ok (JNum (29999 # 100))
       else Throw (Error "SyntaxError" "Unexpected token"))
    (id (first_order Sample.healthy Sample.valid_input))
    (companyId (first_order Sample.healthy Sample.valid_input))
  = match (fun text =>
             if String.eqb text "299.99" then Ok (JNum (29999 # 100))
             else Throw (Error "SyntaxError" "Unexpected token"))
          (String.concat "" ["29"; "9.99"]) with
    | Ok value => Resolved (Some value)
    | Throw _ => Resolved None
    end.
Proof.
  apply (getOrder_reads_the_uploaded_blob Sample.healthy Sample.valid_request
           "company-123/9b1deb4d-3b7d-4bad-9bdd-2b0d7b3dcb6d.json"
           (first_order Sample.healthy Sample.valid_input)
           "application/json"
           {| m_companyId := "company-123"; m_employeeId := "emp-123";
              m_status := "PENDING" |}
           _ _ ["29"; "9.99"]).
  - vm_compute. repeat (first [left; reflexivity | right]).
  - reflexivity.
Defined.

(* ================================================================== *)
(** * The greeting function *)
(* ================================================================== *)

Lemma truthy_spec (s : string) : truthy s = true <-> s <> "".
Proof. destruct s; cbn; split; intros H; congruence. Qed.

Section Greeting.
Context {W : Type}.
Variable context : InvocationContext W.

(** X26.  [HttpExample] never greets an empty name: when it returns, its body is
    "Hello, <name>, duke!" for a name that is not empty and that is the
    [name] of the query, the text of the body or "world"; it throws only when
    the body cannot be read; and it logs exactly one line either way. *)
Theorem HttpExample_greets_a_name (request : GreetingRequest) (w : W) :
  snd (HttpExample request context w)
  = log context
      [LStr ("Http function processed request for url " ++ double_quote
               ++ url request ++ double_quote)] w
  /\ match fst (HttpExample request context w) with
     | Ok body =>
         exists name,
           body = "Hello, " ++ name ++ ", duke!" /\ name <> ""
           /\ (query_get "name" (query request) = Some name
               \/ text request = Ok name \/ name = "world")
     | Throw e => text request = Throw e
     end.
Proof.
  unfold HttpExample, bind, effect, ret. cbn [fst snd].
  destruct (query_get "name" (query request)) as [n|] eqn:Eq.
  - destruct (truthy n) eqn:Tn.
    + cbn. split; [reflexivity|]. exists n. apply truthy_spec in Tn. auto.
    + destruct (text request) as [t|e]; [|split; reflexivity].
      destruct (truthy t) eqn:Tt; cbn; (split; [reflexivity|]).
      * exists t. apply truthy_spec in Tt. auto.
      * exists "world". repeat split; auto. discriminate.
  - destruct (text request) as [t|e]; [|split; reflexivity].
    destruct (truthy t) eqn:Tt; cbn; (split; [reflexivity|]).
    + exists t. apply truthy_spec in Tt. auto.
    + exists "world". repeat split; auto. discriminate.
Qed.

(** X27.  The query wins and the body is then not read: with a [name] in the
    query that is not empty, [HttpExample] greets that name, whatever the
    body holds and even when reading the body would fail. *)
Theorem HttpExample_query_wins (request : GreetingRequest) (name : string)
    (w : W) :
  query_get "name" (query request) = Some name -> name <> "" ->
  fst (HttpExample request context w) = Ok ("Hello, " ++ name ++ ", duke!").
Proof.
  intros Eq Hn. apply truthy_spec in Hn.
  unfold HttpExample, bind, effect, ret. cbn [fst snd]. now rewrite Eq, Hn.
Qed.
End Greeting.

Lemma HttpExample_query_wins_witness :
  fst (HttpExample
         {| url := "http://localhost:7071/api/HttpExample?name=Ada";
            query := [("name", "Ada")];
            text := Throw (Error "TypeError" "Body is unusable") |}
         trace_context [])
  = Ok ("Hello, " ++ "Ada" ++ ", duke!").
Proof.
  apply (HttpExample_query_wins trace_context
           {| url := "http://localhost:7071/api/HttpExample?name=Ada";
              query := [("name", "Ada")];
              text := Throw (Error "TypeError" "Body is unusable") |}
           "Ada" []).
  - reflexivity.
  - discriminate.
Defined.
